(** * Offline synchronisation of assignments (AddonModAssignSyncProvider)

    A shallow embedding of [src/addon/mod/assign/providers/assign-sync.ts].

    - JavaScript values are modelled by the Rocq types the code uses them at:
      identifiers and timestamps are [Z], texts are [string] (the empty text
      is the falsy one, and stands for a site id that is left out), a
      possibly [undefined] field is an [option], a grade is [null] or a
      rational number, [parseFloat] being a parameter.
    - A promise chain is a computation [Promise A]: it takes the state of the
      application, returns either a rejection or a value, and the new state.
      A rejection skips the following [then] callbacks but keeps every effect
      performed so far.
    - The remote web services, the submission plugins and the translation
      service are not part of the provider: they are the fields of [Env].
      A web-service answer may depend on every call made so far (the trace).
    - The offline store, the block registry and the base class of the sync
      providers (in-flight registry, sync times) are not among the sources;
      they are modelled from the specification, as parts of [State].
    - [Promise.all] over the reconciliations of an assignment is modelled by
      running them to completion one after the other, in array order; the
      first rejection is the one reported, the others still run.
    - [syncAssign] hands out a promise at once; the chain of a promise in
      flight runs when the promise is awaited. Two calls are concurrent when
      the second is issued before the promise of the first is awaited.
    - [Date.now()] is a parameter of the functions that read the clock. *)

From Stdlib Require Import ZArith QArith List Ascii String Bool Lia.
Import ListNotations.
Open Scope string_scope.
Open Scope Z_scope.

Set Implicit Arguments.

(* ===================================================================== *)
(** ** JavaScript primitives used by the provider *)
(* ===================================================================== *)

Module JS.

(** Truthiness of a text: only the empty text is falsy. *)
Definition truthy (s : string) : bool := negb (s =? "")%string.

(** Truthiness of a text that may be [undefined]. *)
Definition truthyOpt (o : option string) : bool :=
  match o with Some s => truthy s | None => false end.

(** Truthiness of a number that may be [undefined]: [0] is falsy. *)
Definition truthyNum (o : option Z) : bool :=
  match o with Some z => negb (z =? 0) | None => false end.

(** [a || b] on possibly undefined texts. *)
Definition or (a b : option string) : option string :=
  if truthyOpt a then a else b.

(** [s || dflt] on texts. *)
Definition orText (s dflt : string) : string :=
  if truthy s then s else dflt.

(** [hay.indexOf(needle)]: position of the first occurrence, [-1] if none. *)
Fixpoint indexOfFrom (needle hay : string) (i : Z) : Z :=
  if String.prefix needle hay then i
  else match hay with
       | EmptyString => -1
       | String _ rest => indexOfFrom needle rest (i + 1)
       end.

Definition indexOf (hay needle : string) : Z := indexOfFrom needle hay 0.

(** [list.indexOf(x) == -1] on an array of texts. *)
Definition includes (x : string) (l : list string) : bool :=
  existsb (String.eqb x) l.

(** [s.split(',')]. *)
Fixpoint splitAux (sep : Ascii.ascii) (s cur : string) : list string :=
  match s with
  | EmptyString => [cur]
  | String c rest =>
      if Ascii.eqb c sep then cur :: splitAux sep rest ""
      else splitAux sep rest (cur ++ String c "")
  end.

Definition split (sep : Ascii.ascii) (s : string) : list string :=
  splitAux sep s "".

Definition isSpace (c : Ascii.ascii) : bool :=
  let n := Ascii.nat_of_ascii c in
  ((9 <=? n) && (n <=? 13))%nat || (n =? 32)%nat.

Fixpoint trimStart (s : string) : string :=
  match s with
  | EmptyString => EmptyString
  | String c rest => if isSpace c then trimStart rest else s
  end.

Fixpoint rev (s : string) : string :=
  match s with
  | EmptyString => EmptyString
  | String c rest => rev rest ++ String c ""
  end.

(** [s.trim()]. *)
Definition trim (s : string) : string := rev (trimStart (rev (trimStart s))).

End JS.

(* ===================================================================== *)
(** ** Data model *)
(* ===================================================================== *)

(** What a promise is rejected with. The provider rejects with [null], the
    translation service gives texts, the collaborators reject with objects
    whose text is in one of the fields [message], [error], [content] and
    [body]; a [TypeError] is such an object too. *)
Record ErrorObject := {
  err_code : string;
  err_message : option string;
  err_error : option string;
  err_content : option string;
  err_body : option string
}.

Inductive Rejection :=
| RejNull
| RejText (s : string)
| RejObject (o : ErrorObject).

Definition typeError (msg : string) : Rejection :=
  RejObject {| err_code := "TypeError"; err_message := Some msg;
               err_error := None; err_content := None; err_body := None |}.

(** [error && ...]: is the rejection value truthy. *)
Definition rejTruthy (e : Rejection) : bool :=
  match e with
  | RejNull => false
  | RejText s => JS.truthy s
  | RejObject _ => true
  end.

(** [error.message || error.error || error.content || error.body]. *)
Definition errorText (e : Rejection) : option string :=
  match e with
  | RejObject o =>
      JS.or (JS.or (JS.or (err_message o) (err_error o)) (err_content o)) (err_body o)
  | _ => None
  end.

Inductive Result (A : Type) :=
| Ok (a : A)
| Rej (e : Rejection).
Arguments Ok {A} a.
Arguments Rej {A} e.

(** A grade value: [null] or a number. *)
Inductive GradeValue :=
| GNull
| GNum (q : Q).

Record Assign := {
  assign_id : Z;
  assign_cmid : Z;
  assign_name : string;
  assign_submissiondrafts : bool
}.

Record Plugin := { plugin_type : string }.

Record Submission := {
  sub_timemodified : Z;
  sub_plugins : list Plugin
}.

Record Attempt := {
  att_submission : option Submission;
  att_teamsubmission : option Submission
}.

Record FeedbackGrade := { fg_timemodified : option Z }.

Record Feedback := {
  fb_gradeddate : option Z;
  fb_grade : option FeedbackGrade
}.

Record Status := {
  st_lastattempt : option Attempt;
  st_feedback : option Feedback
}.

(** An entry of the gradebook, as returned by [getGradeModuleItems]. *)
Record GradeItem := {
  gr_outcomeid : option Z;
  gr_scaleid : option Z;
  gr_gradeformatted : string;
  gr_gradedategraded : Z;
  gr_itemnumber : Z
}.

Record Outcome := {
  out_scale : option string;
  out_selected : string
}.

Record GradeInfo := {
  gi_scale : option string;
  gi_outcomes : option (list Outcome)
}.

Definition PluginData := list (string * string).

(** Offline submission edit, keyed by site, assignment and user. *)
Record SubmissionEdit := {
  s_siteid : string;
  s_assignid : Z;
  s_userid : Z;
  s_courseid : Z;
  s_onlinetimemodified : Z;
  s_submitted : bool;
  s_submissionstatement : bool;
  s_plugindata : PluginData
}.

(** Offline grade edit, keyed by site, assignment and user. *)
Record GradeEdit := {
  g_siteid : string;
  g_assignid : Z;
  g_userid : Z;
  g_courseid : Z;
  g_grade : GradeValue;
  g_attemptnumber : Z;
  g_addattempt : bool;
  g_workflowstate : string;
  g_applytoall : bool;
  g_outcomes : list (Z * Z);
  g_plugindata : PluginData;
  g_timemodified : Z
}.

(** Data returned by an assign sync. *)
Record AddonModAssignSyncResult := {
  warnings : list string;
  updated : bool
}.

(** The arguments of [submitGradingFormOnline]. *)
Record GradingForm := {
  gf_assignid : Z;
  gf_userid : Z;
  gf_grade : GradeValue;
  gf_attemptnumber : Z;
  gf_addattempt : bool;
  gf_workflowstate : string;
  gf_applytoall : bool;
  gf_outcomes : list (Z * Z);
  gf_plugindata : PluginData
}.

(** Calls that leave the provider: web services and the event bus. *)
Inductive Event :=
| EGetAssignmentById (courseId assignId : Z) (siteId : string)
| EGetSubmissionStatus (assignId userId : Z) (siteId : string)
| ESaveSubmissionOnline (assignId : Z) (data : PluginData) (siteId : string)
| ESubmitForGradingOnline (assignId : Z) (statement : bool) (siteId : string)
| EGetGradeModuleItems (courseId cmid userId : Z) (siteId : string)
| EGetModuleBasicGradeInfo (cmid : Z) (siteId : string)
| ESubmitGradingFormOnline (form : GradingForm) (siteId : string)
| EInvalidateContent (cmid courseId : Z) (siteId : string)
| ETrigger (name : string) (assignId : Z) (warns : list string) (siteId : string).

(** An upload is a call that writes to the site. *)
Definition isUpload (e : Event) : bool :=
  match e with
  | ESaveSubmissionOnline _ _ _ | ESubmitForGradingOnline _ _ _
  | ESubmitGradingFormOnline _ _ => true
  | _ => false
  end.

Definition Key := (Z * string)%type.

Definition keyEqb (a b : Key) : bool :=
  (fst a =? fst b) && (snd a =? snd b)%string.

(** The state of the application, as far as the provider reads or writes it. *)
Record State := {
  submissions : list SubmissionEdit;
  grades : list GradeEdit;
  syncTimes : list (Key * Z);
  blocked : list Key;
  online : bool;
  currentSiteId : string;
  trace : list Event;
  ongoing : list (Key * nat);
  settled : list (nat * Result AddonModAssignSyncResult);
  nextPromise : nat
}.

(** The collaborators of the provider. *)
Record Env := {
  getAssignmentById : list Event -> Z -> Z -> string -> Result Assign;
  getSubmissionStatus : list Event -> Z -> Z -> string -> Result Status;
  saveSubmissionOnline : list Event -> Z -> PluginData -> string -> Result unit;
  submitForGradingOnline : list Event -> Z -> bool -> string -> Result unit;
  submitGradingFormOnline : list Event -> GradingForm -> string -> Result unit;
  invalidateContent : list Event -> Z -> Z -> string -> Result unit;
  getGradeModuleItems : list Event -> Z -> Z -> Z -> string -> Result (list GradeItem);
  getModuleBasicGradeInfo : list Event -> Z -> string -> Result (option GradeInfo);
  getSubmissionObjectFromAttempt : Assign -> option Attempt -> option Submission;
  preparePluginSyncData :
    Assign -> Submission -> Plugin -> SubmissionEdit -> PluginData -> string -> Result PluginData;
  deletePluginOfflineData :
    Assign -> Submission -> Plugin -> SubmissionEdit -> string -> Result unit;
  isWebServiceError : Rejection -> bool;
  isOutcomesEditEnabled : bool;
  translate_instant : string -> list (string * string) -> string;
  componentTranslate : string;
  parseFloat : string -> option Q;
  syncInterval : Z
}.

(* ===================================================================== *)
(** ** Promises *)
(* ===================================================================== *)

Definition Promise (A : Type) := State -> Result A * State.

Definition resolve {A} (a : A) : Promise A := fun st => (Ok a, st).

Definition reject {A} (e : Rejection) : Promise A := fun st => (Rej e, st).

(** [p.then(f)] *)
Definition andThen {A B} (p : Promise A) (f : A -> Promise B) : Promise B :=
  fun st =>
    match p st with
    | (Ok a, st') => f a st'
    | (Rej e, st') => (Rej e, st')
    end.

(** [p.catch(h)] *)
Definition catch {A} (p : Promise A) (h : Rejection -> Promise A) : Promise A :=
  fun st =>
    match p st with
    | (Ok a, st') => (Ok a, st')
    | (Rej e, st') => h e st'
    end.

Declare Scope promise_scope.
Delimit Scope promise_scope with promise.
Notation "x <- p ;; k" := (andThen p (fun x => k))
  (at level 61, p at next level, right associativity) : promise_scope.
Notation "p ;;; k" := (andThen p (fun _ => k))
  (at level 61, right associativity) : promise_scope.

(** A synchronous step that cannot fail. *)
Definition modify (f : State -> State) : Promise unit := fun st => (Ok tt, f st).

(** Lifting of an answer that does not touch the state. *)
Definition settle {A} (r : Result A) : Promise A := fun st => (r, st).

Definition logEvent (e : Event) (st : State) : State :=
  {| submissions := submissions st; grades := grades st; syncTimes := syncTimes st;
     blocked := blocked st; online := online st; currentSiteId := currentSiteId st;
     trace := trace st ++ [e];
     ongoing := ongoing st; settled := settled st; nextPromise := nextPromise st |}.

(** A call to a collaborator: the answer is the one the collaborator gives
    after the calls made so far, and the call is recorded. *)
Definition call {A} (e : Event) (answer : list Event -> Result A) : Promise A :=
  fun st => (answer (trace st), logEvent e st).

(** A call whose promise is dropped: only the call itself is observable. *)
Definition fireAndForget (e : Event) : Promise unit := modify (logEvent e).

(** [Promise.all] over tasks that update one shared object: every task runs,
    the first rejection is the one reported. A task that rejects leaves the
    shared object as it found it. *)
Fixpoint allShared {R} (tasks : list (R -> Promise R)) (r : R) (st : State)
  : Result unit * R * State :=
  match tasks with
  | [] => (Ok tt, r, st)
  | t :: rest =>
      match t r st with
      | (Ok r1, st1) => allShared rest r1 st1
      | (Rej e, st1) =>
          let '(_, r2, st2) := allShared rest r st1 in (Rej e, r2, st2)
      end
  end.

(* ===================================================================== *)
(** ** The local offline store and the base class of the sync providers *)
(* ===================================================================== *)

(** Modelled from the spec: the site a call is about when the site id is
    left out (sites.ts is not part of the sources): the current site. *)
Definition resolveSite (st : State) (siteId : string) : string :=
  JS.orText siteId (currentSiteId st).

Definition setStore (subs : list SubmissionEdit) (grs : list GradeEdit) (st : State) : State :=
  {| submissions := subs; grades := grs; syncTimes := syncTimes st;
     blocked := blocked st; online := online st; currentSiteId := currentSiteId st;
     trace := trace st;
     ongoing := ongoing st; settled := settled st; nextPromise := nextPromise st |}.

Definition isSubmissionOf (site : string) (assignId : Z) (s : SubmissionEdit) : bool :=
  (s_siteid s =? site)%string && (s_assignid s =? assignId).

Definition isGradeOf (site : string) (assignId : Z) (g : GradeEdit) : bool :=
  (g_siteid g =? site)%string && (g_assignid g =? assignId).

(** Modelled from the spec: accessor of the local offline store
    (assign-offline.ts is not part of the sources): the pending submission
    edits of an assignment. *)
Definition getAssignSubmissions (assignId : Z) (siteId : string)
  : Promise (list SubmissionEdit) :=
  fun st => (Ok (filter (isSubmissionOf (resolveSite st siteId) assignId) (submissions st)), st).

(** Modelled from the spec: accessor of the local offline store
    (assign-offline.ts is not part of the sources): the pending grade edits
    of an assignment. *)
Definition getAssignSubmissionsGrade (assignId : Z) (siteId : string)
  : Promise (list GradeEdit) :=
  fun st => (Ok (filter (isGradeOf (resolveSite st siteId) assignId) (grades st)), st).

(** Modelled from the spec: idempotent delete of the local offline store
    (assign-offline.ts is not part of the sources): removes the submission
    edit of a user for an assignment. *)
Definition deleteSubmission (assignId userId : Z) (siteId : string) : Promise unit :=
  fun st =>
    (Ok tt,
     setStore
       (filter (fun s => negb (isSubmissionOf (resolveSite st siteId) assignId s
                               && (s_userid s =? userId)))
               (submissions st))
       (grades st) st).

(** Modelled from the spec: idempotent delete of the local offline store
    (assign-offline.ts is not part of the sources): removes the grade edit
    of a user for an assignment. *)
Definition deleteSubmissionGrade (assignId userId : Z) (siteId : string) : Promise unit :=
  fun st =>
    (Ok tt,
     setStore (submissions st)
       (filter (fun g => negb (isGradeOf (resolveSite st siteId) assignId g
                               && (g_userid g =? userId)))
               (grades st))
       st).

Fixpoint uniqueIds (l : list Z) : list Z :=
  match l with
  | [] => []
  | x :: rest => x :: filter (fun y => negb (y =? x)) (uniqueIds rest)
  end.

(** Modelled from the spec: enumeration of the local offline store
    (assign-offline.ts is not part of the sources): the assignments of a
    site that have pending data, each one once. *)
Definition getAllAssigns (siteId : string) : Promise (list Z) :=
  fun st =>
    let site := resolveSite st siteId in
    (Ok (uniqueIds
           (map s_assignid (filter (fun s => (s_siteid s =? site)%string) (submissions st))
            ++ map g_assignid (filter (fun g => (g_siteid g =? site)%string) (grades st)))),
     st).

Fixpoint lookupKey {V} (k : Key) (l : list (Key * V)) : option V :=
  match l with
  | [] => None
  | (k', v) :: rest => if keyEqb k k' then Some v else lookupKey k rest
  end.

Fixpoint removeKey {V} (k : Key) (l : list (Key * V)) : list (Key * V) :=
  match l with
  | [] => []
  | (k', v) :: rest => if keyEqb k k' then removeKey k rest else (k', v) :: removeKey k rest
  end.

(** Modelled from the spec: the block registry (sync.ts is not part of the
    sources): whether an entity is locked by another operation of the app. *)
Definition isBlocked (st : State) (assignId : Z) (siteId : string) : bool :=
  existsb (keyEqb (assignId, resolveSite st siteId)) (blocked st).

(** Modelled from the spec: the in-flight registry of the base class
    (base-sync.ts is not part of the sources), keyed by entity and site:
    whether a sync of the entity is in flight. *)
Definition isSyncing (st : State) (assignId : Z) (siteId : string) : bool :=
  match lookupKey (assignId, resolveSite st siteId) (ongoing st) with
  | Some _ => true
  | None => false
  end.

Definition setRegistry (o : list (Key * nat)) (s : list (nat * Result AddonModAssignSyncResult))
    (n : nat) (st : State) : State :=
  {| submissions := submissions st; grades := grades st; syncTimes := syncTimes st;
     blocked := blocked st; online := online st; currentSiteId := currentSiteId st;
     trace := trace st;
     ongoing := o; settled := s; nextPromise := n |}.

Definition setSyncTimes (t : list (Key * Z)) (st : State) : State :=
  {| submissions := submissions st; grades := grades st; syncTimes := t;
     blocked := blocked st; online := online st; currentSiteId := currentSiteId st;
     trace := trace st;
     ongoing := ongoing st; settled := settled st; nextPromise := nextPromise st |}.

(** Modelled from the spec: the last-sync timestamp kept by the base class
    (base-sync.ts is not part of the sources); [0] when never synced. *)
Definition getSyncTime (st : State) (assignId : Z) (siteId : string) : Z :=
  match lookupKey (assignId, resolveSite st siteId) (syncTimes st) with
  | Some t => t
  | None => 0
  end.

(** Modelled from the spec: the base class records the time of a finished
    sync (base-sync.ts is not part of the sources). *)
Definition setSyncTime (now : Z) (assignId : Z) (siteId : string) : Promise unit :=
  fun st =>
    let k := (assignId, resolveSite st siteId) in
    (Ok tt, setSyncTimes ((k, now) :: removeKey k (syncTimes st)) st).

(** Modelled from the spec: a sync is needed only if the time elapsed since
    the last successful sync exceeds the provider-wide minimum interval
    (base-sync.ts is not part of the sources). *)
Definition isSyncNeeded (interval now : Z) (st : State) (assignId : Z) (siteId : string) : bool :=
  interval <? now - getSyncTime st assignId siteId.

(** A promise handed out by [syncAssign]: rejected on the spot, or the
    promise kept in the in-flight registry under a key. *)
Inductive SyncPromise :=
| PRejected (e : Rejection)
| POngoing (k : Key) (pid : nat).

(** Modelled from the spec: a second caller attaches to the in-flight
    promise (base-sync.ts is not part of the sources). *)
Definition getOngoingSync (st : State) (assignId : Z) (siteId : string) : option SyncPromise :=
  let k := (assignId, resolveSite st siteId) in
  match lookupKey k (ongoing st) with
  | Some pid => Some (POngoing k pid)
  | None => None
  end.

(** Modelled from the spec: the promise of a started sync is entered in the
    in-flight registry under its key (base-sync.ts is not part of the
    sources); the entry is removed when the promise settles, see [await]. *)
Definition addOngoingSync (st : State) (assignId : Z) (siteId : string) : SyncPromise * State :=
  let k := (assignId, resolveSite st siteId) in
  let pid := nextPromise st in
  (POngoing k pid,
   setRegistry ((k, pid) :: removeKey k (ongoing st)) (settled st) (S pid) st).

(* ===================================================================== *)
(** ** The provider *)
(* ===================================================================== *)

Section Provider.

Variable env : Env.

Local Open Scope promise_scope.

(** [getSelectedScaleId(options, selected)]. The list of trimmed options is
    built as in the source; the index is then searched in [options]. *)
Definition getSelectedScaleId (options selected : string) : Z :=
  let optionsList := JS.split ","%char options in
  let optionsList := map JS.trim optionsList in
  let optionsList := "" :: optionsList in
  let index := JS.indexOf options selected in   (* [|| 0] leaves every number as it is *)
  if index <? 0 then 0 else index.

(** The warning recorded when offline data is discarded. *)
Definition discardMessage (assign : Assign) (discardError : string) : string :=
  translate_instant env "core.warningofflinedatadeleted"
    [("component", componentTranslate env);
     ("name", assign_name assign);
     ("error", discardError)].

(** The last callback of both reconciliations:
    [if (discardError) { ... if (warnings.indexOf(message) == -1) warnings.push(message) }]. *)
Definition addDiscardWarning (assign : Assign) (discardError : option string)
    (warns : list string) : list string :=
  match discardError with
  | Some e =>
      if JS.truthy e then
        let message := discardMessage assign e in
        if JS.includes message warns then warns else warns ++ [message]
      else warns
  | None => warns
  end.

(** The handler of both [catch] callbacks around an upload. *)
Definition onUploadError (error : Rejection) : Promise (option string) :=
  if rejTruthy error && isWebServiceError env error then
    resolve (errorText error)
  else
    reject error.

(** [Promise.all] over [preparePluginSyncData], which fills [pluginData]. *)
Fixpoint preparePlugins (assign : Assign) (submission : Submission) (plugins : list Plugin)
    (offlineData : SubmissionEdit) (pluginData : PluginData) (siteId : string)
  : Result PluginData :=
  match plugins with
  | [] => Ok pluginData
  | plugin :: rest =>
      match preparePluginSyncData env assign submission plugin offlineData pluginData siteId with
      | Ok d => preparePlugins assign submission rest offlineData d siteId
      | Rej e => Rej e
      end
  end.

(** [Promise.all] over [deletePluginOfflineData]. *)
Fixpoint deletePlugins (assign : Assign) (submission : Submission) (plugins : list Plugin)
    (offlineData : SubmissionEdit) (siteId : string) : Result unit :=
  match plugins with
  | [] => Ok tt
  | plugin :: rest =>
      match deletePluginOfflineData env assign submission plugin offlineData siteId with
      | Ok _ => deletePlugins assign submission rest offlineData siteId
      | Rej e => Rej e
      end
  end.

(** The upload of a submission: [Promise.all(promises).then(...)], the
    chain guarded by the [catch] of [syncSubmission]. *)
Definition sendSubmission (assign : Assign) (submission : Submission)
    (offlineData : SubmissionEdit) (siteId : string) : Promise (option string) :=
  let userId := s_userid offlineData in
  pluginData <- settle (preparePlugins assign submission (sub_plugins submission)
                          offlineData [] siteId) ;;
  (match pluginData with
   | [] => resolve tt
   | _ => call (ESaveSubmissionOnline (assign_id assign) pluginData siteId)
            (fun t => saveSubmissionOnline env t (assign_id assign) pluginData siteId)
   end) ;;;
  (if assign_submissiondrafts assign && s_submitted offlineData then
     call (ESubmitForGradingOnline (assign_id assign) (s_submissionstatement offlineData) siteId)
       (fun t => submitForGradingOnline env t (assign_id assign)
                   (s_submissionstatement offlineData) siteId)
   else resolve tt) ;;;
  fireAndForget (EGetSubmissionStatus (assign_id assign) userId siteId) ;;;
  resolve None.

(** The upload with its [catch]. Resolves with [discardError]. *)
Definition uploadSubmission (assign : Assign) (submission : Submission)
    (offlineData : SubmissionEdit) (siteId : string) : Promise (option string) :=
  catch (sendSubmission assign submission offlineData siteId) onUploadError.

(** [syncSubmission(assign, offlineData, warnings, siteId)]; resolves with
    the list of warnings as the call leaves it. *)
Definition syncSubmission (assign : Assign) (offlineData : SubmissionEdit)
    (warns : list string) (siteId : string) : Promise (list string) :=
  let userId := s_userid offlineData in
  status <- call (EGetSubmissionStatus (assign_id assign) userId siteId)
              (fun t => getSubmissionStatus env t (assign_id assign) userId siteId) ;;
  match getSubmissionObjectFromAttempt env assign (st_lastattempt status) with
  | None => reject (typeError "Cannot read property 'timemodified' of undefined")
  | Some submission =>
      discardError <-
        (if negb (sub_timemodified submission =? s_onlinetimemodified offlineData) then
           resolve (Some (translate_instant env "addon.mod_assign.warningsubmissionmodified" []))
         else
           uploadSubmission assign submission offlineData siteId) ;;
      deleteSubmission (assign_id assign) userId siteId ;;;
      settle (deletePlugins assign submission (sub_plugins submission) offlineData siteId) ;;;
      resolve (addDiscardWarning assign discardError warns)
  end.

(** [status.feedback && (status.feedback.gradeddate || status.feedback.grade.timemodified)] *)
Definition feedbackTime (status : Status) : Result (option Z) :=
  match st_feedback status with
  | None => Ok None
  | Some fb =>
      if JS.truthyNum (fb_gradeddate fb) then Ok (fb_gradeddate fb)
      else match fb_grade fb with
           | Some g => Ok (fg_timemodified g)
           | None => Rej (typeError "Cannot read property 'timemodified' of undefined")
           end
  end.

(** [a > b] where [a] may be [undefined]. *)
Definition gtOpt (a : option Z) (b : Z) : bool :=
  match a with Some z => b <? z | None => false end.

Definition setGrade (v : GradeValue) (d : GradeEdit) : GradeEdit :=
  {| g_siteid := g_siteid d; g_assignid := g_assignid d; g_userid := g_userid d;
     g_courseid := g_courseid d; g_grade := v; g_attemptnumber := g_attemptnumber d;
     g_addattempt := g_addattempt d; g_workflowstate := g_workflowstate d;
     g_applytoall := g_applytoall d; g_outcomes := g_outcomes d;
     g_plugindata := g_plugindata d; g_timemodified := g_timemodified d |}.

Fixpoint assocSet (k v : Z) (l : list (Z * Z)) : list (Z * Z) :=
  match l with
  | [] => [(k, v)]
  | (k', v') :: rest => if k' =? k then (k, v) :: rest else (k', v') :: assocSet k v rest
  end.

(** [offlineData.outcomes[k] = v] *)
Definition setOutcome (k v : Z) (d : GradeEdit) : GradeEdit :=
  {| g_siteid := g_siteid d; g_assignid := g_assignid d; g_userid := g_userid d;
     g_courseid := g_courseid d; g_grade := g_grade d; g_attemptnumber := g_attemptnumber d;
     g_addattempt := g_addattempt d; g_workflowstate := g_workflowstate d;
     g_applytoall := g_applytoall d; g_outcomes := assocSet k v (g_outcomes d);
     g_plugindata := g_plugindata d; g_timemodified := g_timemodified d |}.

(** [parseFloat(text) || null] *)
Definition parseGrade (text : string) : GradeValue :=
  match parseFloat env text with
  | Some q => if Qeq_bool q 0 then GNull else GNum q
  | None => GNull
  end.

(** The value a plain gradebook entry stands for. *)
Definition gradebookValue (gradeInfo : option GradeInfo) (grade : GradeItem) : GradeValue :=
  match gradeInfo with
  | Some info =>
      match gi_scale info with
      | Some scale =>
          if JS.truthy scale then GNum (inject_Z (getSelectedScaleId scale (gr_gradeformatted grade)))
          else parseGrade (gr_gradeformatted grade)
      | None => parseGrade (gr_gradeformatted grade)
      end
  | None => parseGrade (gr_gradeformatted grade)
  end.

(** [gradeInfo.outcomes.forEach((outcome, index) => ...)] *)
Fixpoint overrideOutcomes (outcomes : list Outcome) (index : Z) (grade : GradeItem)
    (d : GradeEdit) : GradeEdit :=
  match outcomes with
  | [] => d
  | outcome :: rest =>
      let d' :=
        if JS.truthyOpt (out_scale outcome) && (gr_itemnumber grade =? index) then
          match out_scale outcome with
          | Some scale =>
              setOutcome (gr_itemnumber grade) (getSelectedScaleId scale (out_selected outcome)) d
          | None => d
          end
        else d in
      overrideOutcomes rest (index + 1) grade d'
  end.

(** The body of [grades.forEach((grade) => ...)] for one gradebook entry. *)
Definition overrideFromGradebook (gradeInfo : option GradeInfo) (d : GradeEdit)
    (grade : GradeItem) : Result GradeEdit :=
  if g_timemodified d <=? gr_gradedategraded grade then
    if negb (JS.truthyNum (gr_outcomeid grade)) && negb (JS.truthyNum (gr_scaleid grade)) then
      Ok (setGrade (gradebookValue gradeInfo grade) d)
    else if JS.truthyNum (gr_outcomeid grade) && isOutcomesEditEnabled env then
      match gradeInfo with
      | None => Rej (typeError "Cannot read property 'outcomes' of undefined")
      | Some info =>
          match gi_outcomes info with
          | Some outcomes => Ok (overrideOutcomes outcomes 0 grade d)
          | None => Ok d
          end
      end
    else Ok d
  else Ok d.

(** [grades.forEach(...)]: an exception ends the loop. *)
Fixpoint overrideAll (gradeInfo : option GradeInfo) (items : list GradeItem) (d : GradeEdit)
  : Result GradeEdit :=
  match items with
  | [] => Ok d
  | grade :: rest =>
      match overrideFromGradebook gradeInfo d grade with
      | Ok d' => overrideAll gradeInfo rest d'
      | Rej e => Rej e
      end
  end.

Definition gradingForm (assign : Assign) (d : GradeEdit) : GradingForm :=
  {| gf_assignid := assign_id assign; gf_userid := g_userid d; gf_grade := g_grade d;
     gf_attemptnumber := g_attemptnumber d; gf_addattempt := g_addattempt d;
     gf_workflowstate := g_workflowstate d; gf_applytoall := g_applytoall d;
     gf_outcomes := g_outcomes d; gf_plugindata := g_plugindata d |}.

(** The gradebook check of [syncSubmissionGrade]: the entries and the grade
    information are fetched, and the offline data is overridden. *)
Definition checkGradebook (assign : Assign) (offlineData : GradeEdit) (courseId : Z)
    (siteId : string) : Promise GradeEdit :=
  let userId := g_userid offlineData in
  items <- call (EGetGradeModuleItems courseId (assign_cmid assign) userId siteId)
             (fun t => getGradeModuleItems env t courseId (assign_cmid assign) userId siteId) ;;
  gradeInfo <- call (EGetModuleBasicGradeInfo (assign_cmid assign) siteId)
                 (fun t => getModuleBasicGradeInfo env t (assign_cmid assign) siteId) ;;
  settle (overrideAll gradeInfo items offlineData).

(** The upload of a grade: [submitGradingFormOnline(...).then(...)], the
    chain guarded by the [catch] of [syncSubmissionGrade]. *)
Definition sendGrade (assign : Assign) (offlineData : GradeEdit) (siteId : string)
  : Promise (option string) :=
  call (ESubmitGradingFormOnline (gradingForm assign offlineData) siteId)
    (fun t => submitGradingFormOnline env t (gradingForm assign offlineData) siteId) ;;;
  fireAndForget (EGetSubmissionStatus (assign_id assign) (g_userid offlineData) siteId) ;;;
  resolve None.

(** The part of [syncSubmissionGrade] that runs when the grade was not
    modified on the site. Resolves with [discardError]. *)
Definition uploadGrade (assign : Assign) (offlineData : GradeEdit) (courseId : Z)
    (siteId : string) : Promise (option string) :=
  d <- checkGradebook assign offlineData courseId siteId ;;
  catch (sendGrade assign d siteId) onUploadError.

(** [syncSubmissionGrade(assign, offlineData, warnings, courseId, siteId)];
    resolves with the list of warnings as the call leaves it. *)
Definition syncSubmissionGrade (assign : Assign) (offlineData : GradeEdit)
    (warns : list string) (courseId : Z) (siteId : string) : Promise (list string) :=
  let userId := g_userid offlineData in
  discardError <-
    (status <- call (EGetSubmissionStatus (assign_id assign) userId siteId)
                 (fun t => getSubmissionStatus env t (assign_id assign) userId siteId) ;;
     timemodified <- settle (feedbackTime status) ;;
     if gtOpt timemodified (g_timemodified offlineData) then
       resolve (Some (translate_instant env "addon.mod_assign.warningsubmissiongrademodified" []))
     else
       uploadGrade assign offlineData courseId siteId) ;;
  deleteSubmissionGrade (assign_id assign) userId siteId ;;;
  resolve (addDiscardWarning assign discardError warns).

(** [promises.push(this.syncSubmission(assign, submission, result.warnings, siteId)
      .then(() => { result.updated = true; }))] *)
Definition submissionTask (assign : Assign) (siteId : string) (submission : SubmissionEdit)
  : AddonModAssignSyncResult -> Promise AddonModAssignSyncResult :=
  fun result =>
    w <- syncSubmission assign submission (warnings result) siteId ;;
    resolve {| warnings := w; updated := true |}.

(** [promises.push(this.syncSubmissionGrade(assign, grade, result.warnings, courseId, siteId)
      .then(() => { result.updated = true; }))] *)
Definition gradeTask (assign : Assign) (courseId : Z) (siteId : string) (grade : GradeEdit)
  : AddonModAssignSyncResult -> Promise AddonModAssignSyncResult :=
  fun result =>
    w <- syncSubmissionGrade assign grade (warnings result) courseId siteId ;;
    resolve {| warnings := w; updated := true |}.

(** [submissions.length > 0 ? submissions[0].courseid : grades[0].courseid] *)
Definition firstCourseId (subs : list SubmissionEdit) (grs : list GradeEdit) : Z :=
  match subs with
  | s :: _ => s_courseid s
  | [] => match grs with g :: _ => g_courseid g | [] => 0 end
  end.

Definition isEmpty {A} (l : list A) : bool :=
  match l with [] => true | _ => false end.

Definition isOnline : Promise bool := fun st => (Ok (online st), st).

(** [Promise.all(promises)] over the reconciliations; resolves with the
    shared [result] as they leave it. *)
Definition allTasks (tasks : list (AddonModAssignSyncResult -> Promise AddonModAssignSyncResult))
    (result : AddonModAssignSyncResult) : Promise AddonModAssignSyncResult :=
  fun st =>
    match allShared tasks result st with
    | (Ok _, result', st') => (Ok result', st')
    | (Rej e, _, st') => (Rej e, st')
    end.

(** The first [then] callback of [syncPromise] (lines 203 to 243). *)
Definition reconcile (assignId : Z) (siteId : string)
    (subs : list SubmissionEdit) (grs : list GradeEdit)
    (result : AddonModAssignSyncResult) : Promise AddonModAssignSyncResult :=
  if isEmpty subs && isEmpty grs then
    (* Nothing to sync. *)
    resolve result
  else
    isOn <- isOnline ;;
    if negb isOn then
      (* Cannot sync in offline. *)
      reject RejNull
    else
      let courseId := firstCourseId subs grs in
      assign <- call (EGetAssignmentById courseId assignId siteId)
                  (fun t => getAssignmentById env t courseId assignId siteId) ;;
      result' <- allTasks (map (submissionTask assign siteId) subs
                           ++ map (gradeTask assign courseId siteId) grs) result ;;
      if updated result' then
        (* Data has been sent to server. Now invalidate the WS calls. *)
        catch (call (EInvalidateContent (assign_cmid assign) courseId siteId)
                 (fun t => invalidateContent env t (assign_cmid assign) courseId siteId))
              (fun _ => resolve tt) ;;;
        resolve result'
      else resolve result'.

(** The promise chain [syncPromise] built by [syncAssign]; [now] is the
    time read when the sync time is set. *)
Definition syncPromise (now : Z) (assignId : Z) (siteId : string)
  : Promise AddonModAssignSyncResult :=
  subs <- catch (getAssignSubmissions assignId siteId) (fun _ => resolve []) ;;
  grs <- catch (getAssignSubmissionsGrade assignId siteId) (fun _ => resolve []) ;;
  result <- reconcile assignId siteId subs grs {| warnings := []; updated := false |} ;;
  catch (setSyncTime now assignId siteId) (fun _ => resolve tt) ;;;
  resolve result.

(** [syncAssign(assignId, siteId)]: the synchronous part, which hands out a
    promise. The chain [syncPromise] of a promise entered in the registry
    runs when the promise is awaited. *)
Definition syncAssign (st : State) (assignId : Z) (siteId : string) : SyncPromise * State :=
  let siteId := JS.orText siteId (currentSiteId st) in
  match getOngoingSync st assignId siteId with
  | Some p =>
      (* There's already a sync ongoing for this assign, return the promise. *)
      (p, st)
  | None =>
      if isBlocked st assignId siteId then
        (PRejected (RejText (translate_instant env "core.errorsyncblocked"
                               [("$a", componentTranslate env)])), st)
      else
        addOngoingSync st assignId siteId
  end.

Fixpoint lookupSettled (pid : nat) (l : list (nat * Result AddonModAssignSyncResult))
  : option (Result AddonModAssignSyncResult) :=
  match l with
  | [] => None
  | (p, r) :: rest => if Nat.eqb p pid then Some r else lookupSettled pid rest
  end.

(** Modelled from the spec: the in-flight registry of the base class
    (base-sync.ts is not part of the sources) lets go of an entry when its
    promise settles. Running an in-flight sync to completion: its chain
    runs, its result is kept for every holder of the promise, its registry
    entry is removed.

    The chain is run in one piece, on the state in which it is awaited. In
    the source the chain is started by the call of [syncAssign] that builds
    it and proceeds as its calls are answered; the two agree when nothing
    but further calls of [syncAssign] happens between that call and the
    settlement. What a chain already running does when the store or the
    connectivity change under it is not modelled: a promise found in flight
    in an arbitrary state says nothing of the chain behind it, which is why
    the properties of a sync are stated for a call that finds no sync of
    the assignment in flight. *)
Definition runOngoing (now : Z) (k : Key) (pid : nat) (st : State)
  : Result AddonModAssignSyncResult * State :=
  let '(r, st') := syncPromise now (fst k) (snd k) st in
  (r, setRegistry (removeKey k (ongoing st')) ((pid, r) :: settled st') (nextPromise st') st').

(** Awaiting a promise handed out by [syncAssign]: a rejected promise gives
    its rejection, a promise in flight runs its chain (see [runOngoing] for
    when that is the chain of the source), a settled promise gives the
    result it settled with. [None] stands for a promise this provider never
    handed out. *)
Definition await (now : Z) (st : State) (p : SyncPromise)
  : option (Result AddonModAssignSyncResult * State) :=
  match p with
  | PRejected e => Some (Rej e, st)
  | POngoing k pid =>
      match lookupKey k (ongoing st) with
      | Some pid' =>
          if Nat.eqb pid' pid then Some (runOngoing now k pid st)
          else option_map (fun r => (r, st)) (lookupSettled pid (settled st))
      | None => option_map (fun r => (r, st)) (lookupSettled pid (settled st))
      end
  end.

(** [syncAssignIfNeeded(assignId, siteId)]: [None] is the promise resolved
    with [undefined] when no sync is needed; [now] is the time at the check. *)
Definition syncAssignIfNeeded (now : Z) (st : State) (assignId : Z) (siteId : string)
  : option SyncPromise * State :=
  if isSyncNeeded (syncInterval env) now st assignId siteId then
    let '(p, st') := syncAssign st assignId siteId in (Some p, st')
  else (None, st).

Definition awaitIfNeeded (now : Z) (st : State) (p : option SyncPromise)
  : option (Result (option AddonModAssignSyncResult) * State) :=
  match p with
  | None => Some (Ok None, st)
  | Some p =>
      match await now st p with
      | Some (Ok r, st') => Some (Ok (Some r), st')
      | Some (Rej e, st') => Some (Rej e, st')
      | None => None
      end
  end.

Definition AUTO_SYNCED : string := "addon_mod_assign_autom_synced".

(** The [then] callback of the batch driver:
    [if (data && data.updated) this.eventsProvider.trigger(AUTO_SYNCED, ...)]. *)
Definition notifySynced (assignId : Z) (siteId : string)
    (data : Result (option AddonModAssignSyncResult)) (st : State) : State :=
  match data with
  | Ok (Some d) =>
      if updated d then logEvent (ETrigger AUTO_SYNCED assignId (warnings d) siteId) st else st
  | _ => st
  end.

(** [assignIds.forEach(...)] and [Promise.all(promises)] of the batch driver. *)
Fixpoint syncEach (now : Z) (siteId : string) (assignIds : list Z) (st : State)
  : option (Result unit * State) :=
  match assignIds with
  | [] => Some (Ok tt, st)
  | assignId :: rest =>
      let '(p, st1) := syncAssignIfNeeded now st assignId siteId in
      match awaitIfNeeded now st1 p with
      | None => None
      | Some (data, st2) =>
          match syncEach now siteId rest (notifySynced assignId siteId data st2) with
          | None => None
          | Some (r, st3) =>
              Some (match data with Rej e => Rej e | Ok _ => r end, st3)
          end
      end
  end.

(** [syncAllAssignmentsFunc(siteId)] *)
Definition syncAllAssignmentsFunc (now : Z) (siteId : string) (st : State)
  : option (Result unit * State) :=
  match getAllAssigns siteId st with
  | (Ok assignIds, st') => syncEach now siteId assignIds st'
  | (Rej e, st') => Some (Rej e, st')
  end.

End Provider.

(* ===================================================================== *)
(** ** Auxiliary definitions used in the statements *)
(* ===================================================================== *)

(** The state right after the call to [getSubmissionStatus] that opens a
    reconciliation. *)
Definition afterStatus (assign : Assign) (userId : Z) (siteId : string) (st : State) : State :=
  logEvent (EGetSubmissionStatus (assign_id assign) userId siteId) st.

(** The local edits of a user for an assignment of a site are gone. *)
Definition noSubmissionOf (site : string) (assignId userId : Z) (st : State) : Prop :=
  forall s, In s (submissions st) ->
    ~ (s_siteid s = site /\ s_assignid s = assignId /\ s_userid s = userId).

Definition noGradeOf (site : string) (assignId userId : Z) (st : State) : Prop :=
  forall g, In g (grades st) ->
    ~ (g_siteid g = site /\ g_assignid g = assignId /\ g_userid g = userId).

(** The uploads recorded in a trace. *)
Definition uploads (t : list Event) : list Event := filter isUpload t.

(* ===================================================================== *)
(** ** Concrete scenarios *)
(* ===================================================================== *)

Module Scenario.

Definition site : string := "site1".

Definition essay : Assign :=
  {| assign_id := 7; assign_cmid := 70; assign_name := "Essay";
     assign_submissiondrafts := true |}.

Definition onlinetext : Plugin := {| plugin_type := "onlinetext" |}.

Definition serverSubmission (tm : Z) : Submission :=
  {| sub_timemodified := tm; sub_plugins := [onlinetext] |}.

Definition statusOf (tm : Z) (fb : option Feedback) : Status :=
  {| st_lastattempt := Some {| att_submission := Some (serverSubmission tm);
                               att_teamsubmission := None |};
     st_feedback := fb |}.

(** A translation service that appends the values of the parameters to
    the key. *)
Definition translate (key : string) (params : list (string * string)) : string :=
  fold_left (fun acc kv => acc ++ "|" ++ snd kv) params key.

(** Errors of the web services carry the code ["ws"]. *)
Definition wsError (msg : option string) : Rejection :=
  RejObject {| err_code := "ws"; err_message := msg; err_error := None;
               err_content := None; err_body := None |}.

Definition networkError : Rejection :=
  RejObject {| err_code := "network"; err_message := Some "Network error";
               err_error := None; err_content := None; err_body := None |}.

Definition isWs (e : Rejection) : bool :=
  match e with
  | RejObject o => (err_code o =? "ws")%string
  | _ => false
  end.

Definition parse (s : string) : option Q :=
  if (s =? "9")%string then Some (9 # 1)
  else if (s =? "0")%string then Some (0 # 1)
  else if (s =? "4.5")%string then Some (9 # 2)
  else None.

(** A site that answers every call the same way, whatever was called
    before: the status of a submission, the answers to the two uploads,
    the gradebook entries and the grade information of the module. *)
Definition mkEnv (status : Z -> Result Status) (save : Result unit) (gradeForm : Result unit)
    (items : list GradeItem) (info : option GradeInfo) : Env :=
  {| getAssignmentById := fun _ _ _ _ => Ok essay;
     getSubmissionStatus := fun _ _ userId _ => status userId;
     saveSubmissionOnline := fun _ _ _ _ => save;
     submitForGradingOnline := fun _ _ _ _ => Ok tt;
     submitGradingFormOnline := fun _ _ _ => gradeForm;
     invalidateContent := fun _ _ _ _ => Ok tt;
     getGradeModuleItems := fun _ _ _ _ _ => Ok items;
     getModuleBasicGradeInfo := fun _ _ _ => Ok info;
     getSubmissionObjectFromAttempt :=
       fun _ a => match a with Some att => att_submission att | None => None end;
     preparePluginSyncData := fun _ _ _ d pd _ => Ok (pd ++ s_plugindata d)%list;
     deletePluginOfflineData := fun _ _ _ _ _ => Ok tt;
     isWebServiceError := isWs;
     isOutcomesEditEnabled := true;
     translate_instant := translate;
     componentTranslate := "Assignment";
     parseFloat := parse;
     syncInterval := 300000 |}.

Definition submissionEdit (userId onlinetm : Z) : SubmissionEdit :=
  {| s_siteid := site; s_assignid := 7; s_userid := userId; s_courseid := 3;
     s_onlinetimemodified := onlinetm; s_submitted := false;
     s_submissionstatement := false;
     s_plugindata := [("onlinetext_editor", "draft")] |}.

Definition gradeEdit (userId tm : Z) (v : GradeValue) : GradeEdit :=
  {| g_siteid := site; g_assignid := 7; g_userid := userId; g_courseid := 3;
     g_grade := v; g_attemptnumber := 0; g_addattempt := false;
     g_workflowstate := ""; g_applytoall := false; g_outcomes := [];
     g_plugindata := []; g_timemodified := tm |}.

Definition mkState (subs : list SubmissionEdit) (grs : list GradeEdit)
    (blockedKeys : list Key) (isOn : bool) : State :=
  {| submissions := subs; grades := grs; syncTimes := []; blocked := blockedKeys;
     online := isOn; currentSiteId := site; trace := [];
     ongoing := []; settled := []; nextPromise := 0 |}.

(** The site holds submissions last modified at time 150, without feedback;
    every upload succeeds and the gradebook is empty. *)
Definition siteAt150 : Env :=
  mkEnv (fun _ => Ok (statusOf 150 None)) (Ok tt) (Ok tt) [] None.

Definition modifiedWarning : string :=
  discardMessage siteAt150 essay
    (translate "addon.mod_assign.warningsubmissionmodified" []).

End Scenario.

(** A reconciliation is the task of a pending submission edit or of a
    pending grade edit, as [syncAssign] queues them. *)
Inductive Reconciliation (env : Env)
  : (AddonModAssignSyncResult -> Promise AddonModAssignSyncResult) -> Prop :=
| RecSubmission assign siteId s :
    Reconciliation env (submissionTask env assign siteId s)
| RecGrade assign courseId siteId g :
    Reconciliation env (gradeTask env assign courseId siteId g).

Module ScenarioStale.
Import Scenario.

(** Two users have a pending submission edit for the same assignment, both
    captured at time 100; the site holds submissions modified at 150. *)
Definition twoStaleEdits : State :=
  mkState [submissionEdit 1 100; submissionEdit 2 100] [] [] true.

End ScenarioStale.

(** The promise [p] keeps the relation [R] between the state it starts in
    and the state it ends in, however it settles. *)
Definition preserves (R : State -> State -> Prop) {A} (p : Promise A) : Prop :=
  forall st r st', p st = (r, st') -> R st st'.

(** Everything but the offline store and the trace is the same. *)
Definition sameConfig (st st' : State) : Prop :=
  syncTimes st' = syncTimes st /\ blocked st' = blocked st /\ online st' = online st
  /\ currentSiteId st' = currentSiteId st /\ ongoing st' = ongoing st
  /\ settled st' = settled st /\ nextPromise st' = nextPromise st.

(** The offline store and the sync times are the same. *)
Definition sameStore (st st' : State) : Prop :=
  submissions st' = submissions st /\ grades st' = grades st
  /\ syncTimes st' = syncTimes st.

(** Nothing but the trace has changed. *)
Definition onlyTraced (st st' : State) : Prop := sameStore st st' /\ sameConfig st st'.

(** The trace grows by calls that are not uploads. *)
Definition noUploadSince (st st' : State) : Prop :=
  exists l, trace st' = (trace st ++ l)%list /\ uploads l = [].

(** The pending edits of an assignment: what the offline store answers. *)
Definition pendingSubmissions (st : State) (assignId : Z) (siteId : string)
  : list SubmissionEdit :=
  filter (isSubmissionOf (resolveSite st siteId) assignId) (submissions st).

Definition pendingGrades (st : State) (assignId : Z) (siteId : string) : list GradeEdit :=
  filter (isGradeOf (resolveSite st siteId) assignId) (grades st).

(** The state in which a sync leaves the sync time of an assignment. *)
Definition withSyncTime (now : Z) (assignId : Z) (siteId : string) (st : State) : State :=
  snd (setSyncTime now assignId siteId st).

(** The result of a sync that found nothing to do. *)
Definition nothingSynced : AddonModAssignSyncResult :=
  {| warnings := []; updated := false |}.

Module ScenarioGuards.
Import Scenario.

(** The assignment has no pending edit and is blocked (the user is editing
    it); the device is offline. *)
Definition blockedIdle : State := mkState [] [] [(7, site)] false.

(** The assignment has no pending edit and is blocked; the device is online. *)
Definition blockedIdleOnline : State := mkState [] [] [(7, site)] true.

(** The assignment has no pending edit; the device is offline. *)
Definition idleOffline : State := mkState [] [] [] false.

(** A pending submission edit; the device is offline. *)
Definition pendingOffline : State := mkState [submissionEdit 1 150] [] [] false.

(** A pending submission edit that is up to date; the device is online. *)
Definition pendingOnline : State := mkState [submissionEdit 1 150] [] [] true.

End ScenarioGuards.

Module ScenarioUpload.
Import Scenario.

(** The site rejects the saving of a submission with the given error. *)
Definition saveRejected (e : Rejection) : Env :=
  mkEnv (fun _ => Ok (statusOf 150 None)) (Rej e) (Ok tt) [] None.

(** The site rejects the grading form with the given error. *)
Definition gradingRejected (e : Rejection) : Env :=
  mkEnv (fun _ => Ok (statusOf 150 None)) (Ok tt) (Rej e) [] None.

(** A pending submission edit that is up to date and a pending grade edit. *)
Definition pending : State :=
  mkState [submissionEdit 1 150] [gradeEdit 2 100 (GNum (3 # 1))] [] true.

End ScenarioUpload.

(** A gradebook entry that overrides the offline grade of an edit last
    modified at [timemodified]: it is dated at or after the edit and stands
    for the grade itself (no outcome id, no scale id). *)
Definition overridesGrade (timemodified : Z) (grade : GradeItem) : bool :=
  (timemodified <=? gr_gradedategraded grade)
  && negb (JS.truthyNum (gr_outcomeid grade))
  && negb (JS.truthyNum (gr_scaleid grade)).

Module ScenarioGradebook.
Import Scenario.

Definition entry (outcomeid scaleid : option Z) (text : string) (date : Z) : GradeItem :=
  {| gr_outcomeid := outcomeid; gr_scaleid := scaleid; gr_gradeformatted := text;
     gr_gradedategraded := date; gr_itemnumber := 0 |}.

(** The gradebook holds the given entries; the module has no scale and no
    outcomes; the submission has no feedback on the site. *)
Definition gradebook (items : list GradeItem) : Env :=
  mkEnv (fun _ => Ok (statusOf 150 None)) (Ok tt) (Ok tt) items
    (Some {| gi_scale := None; gi_outcomes := Some [] |}).

(** A grade of 3 given offline at time 100 to user 2. *)
Definition offlineGrade : GradeEdit := gradeEdit 2 100 (GNum (3 # 1)).

Definition graded : State := mkState [] [offlineGrade] [] true.

End ScenarioGradebook.

(** A pending submission edit in conflict: whatever was called before, the
    site answers with a submission whose [timemodified] is not the one the
    edit captured (and the offline data of its plugins can be deleted). *)
Definition staleSubmission (env : Env) (assign : Assign) (siteId : string)
    (s : SubmissionEdit) : Prop :=
  forall t, exists status submission,
    getSubmissionStatus env t (assign_id assign) (s_userid s) siteId = Ok status
    /\ getSubmissionObjectFromAttempt env assign (st_lastattempt status) = Some submission
    /\ sub_timemodified submission <> s_onlinetimemodified s
    /\ deletePlugins env assign submission (sub_plugins submission) s siteId = Ok tt.

(** A pending grade edit in conflict: whatever was called before, the site
    answers with a feedback graded after the edit was made. *)
Definition staleGrade (env : Env) (assign : Assign) (siteId : string) (g : GradeEdit) : Prop :=
  forall t, exists status tm,
    getSubmissionStatus env t (assign_id assign) (g_userid g) siteId = Ok status
    /\ feedbackTime status = Ok (Some tm)
    /\ g_timemodified g < tm.

(** A sync in which every pending edit of the assignment is in conflict:
    there is at least one pending edit, the device is online, the site
    answers with the assignment, and every edit is stale. *)
Definition conflictOnly (env : Env) (st : State) (assignId : Z) (siteId : string)
    (assign : Assign) : Prop :=
  let subs := pendingSubmissions st assignId siteId in
  let grs := pendingGrades st assignId siteId in
  (subs <> [] \/ grs <> [])
  /\ online st = true
  /\ getAssignmentById env (trace st) (firstCourseId subs grs) assignId siteId = Ok assign
  /\ Forall (staleSubmission env assign siteId) subs
  /\ Forall (staleGrade env assign siteId) grs.

(** The connectivity and the current site are the same. *)
Definition onlineSame (st st' : State) : Prop :=
  online st' = online st /\ currentSiteId st' = currentSiteId st.

(** A task that resolves, sets the [updated] flag and uploads nothing. *)
Definition resolvesQuietly
    (task : AddonModAssignSyncResult -> Promise AddonModAssignSyncResult) : Prop :=
  forall result st, exists result' st',
    task result st = (Ok result', st')
    /\ updated result' = true
    /\ noUploadSince st st'
    /\ onlineSame st st'.

(* ===================================================================== *)
(** ** Further auxiliary definitions *)
(* ===================================================================== *)

(** [needle] occurs in [hay] after [pre]. *)
Definition occursAfter (pre needle hay : string) : Prop :=
  exists post, hay = (pre ++ needle ++ post)%string.

Definition isInvalidate (e : Event) : bool :=
  match e with
  | EInvalidateContent _ _ _ => true
  | _ => false
  end.

(** The trace grows by calls that are not [invalidateContent]. *)
Definition noInvalidateSince (st st' : State) : Prop :=
  exists l, trace st' = (trace st ++ l)%list /\ filter isInvalidate l = [].

(** The submission edit [s] is the one of the user for the assignment of
    the site. *)
Definition submissionKeyed (site : string) (assignId userId : Z) (s : SubmissionEdit) : Prop :=
  s_siteid s = site /\ s_assignid s = assignId /\ s_userid s = userId.

Definition gradeKeyed (site : string) (assignId userId : Z) (g : GradeEdit) : Prop :=
  g_siteid g = site /\ g_assignid g = assignId /\ g_userid g = userId.

(** Between [st] and [st'] nothing happened to the offline store but the
    deletion of submission edits of the user for the assignment, in the site
    named [siteId]: no edit appeared, every other submission edit and every
    grade edit is still there, and the configuration is the same. *)
Definition onlySubmissionDeleted (siteId : string) (assignId userId : Z) (st st' : State)
  : Prop :=
  sameConfig st st'
  /\ grades st' = grades st
  /\ (forall s, In s (submissions st') -> In s (submissions st))
  /\ (forall s, In s (submissions st) ->
        ~ submissionKeyed (resolveSite st siteId) assignId userId s ->
        In s (submissions st')).

Definition onlyGradeDeleted (siteId : string) (assignId userId : Z) (st st' : State) : Prop :=
  sameConfig st st'
  /\ submissions st' = submissions st
  /\ (forall g, In g (grades st') -> In g (grades st))
  /\ (forall g, In g (grades st) ->
        ~ gradeKeyed (resolveSite st siteId) assignId userId g ->
        In g (grades st')).

(** Between [st] and [st'] the offline store only lost edits, all of them
    edits of the site named [siteId]. *)
Definition onlySiteShrinks (siteId : string) (st st' : State) : Prop :=
  currentSiteId st' = currentSiteId st
  /\ (forall s, In s (submissions st') -> In s (submissions st))
  /\ (forall g, In g (grades st') -> In g (grades st))
  /\ (forall s, In s (submissions st) -> s_siteid s <> resolveSite st siteId ->
        In s (submissions st'))
  /\ (forall g, In g (grades st) -> g_siteid g <> resolveSite st siteId ->
        In g (grades st')).

(** The value kept under a key of an object used as a map. *)
Fixpoint assocGet (k : Z) (l : list (Z * Z)) : option Z :=
  match l with
  | [] => None
  | (k', v) :: rest => if k' =? k then Some v else assocGet k rest
  end.

(** The same collaborators, with another [invalidateContent]. *)
Definition withInvalidateContent
    (f : list Event -> Z -> Z -> string -> Result unit) (env : Env) : Env :=
  {| getAssignmentById := getAssignmentById env;
     getSubmissionStatus := getSubmissionStatus env;
     saveSubmissionOnline := saveSubmissionOnline env;
     submitForGradingOnline := submitForGradingOnline env;
     submitGradingFormOnline := submitGradingFormOnline env;
     invalidateContent := f;
     getGradeModuleItems := getGradeModuleItems env;
     getModuleBasicGradeInfo := getModuleBasicGradeInfo env;
     getSubmissionObjectFromAttempt := getSubmissionObjectFromAttempt env;
     preparePluginSyncData := preparePluginSyncData env;
     deletePluginOfflineData := deletePluginOfflineData env;
     isWebServiceError := isWebServiceError env;
     isOutcomesEditEnabled := isOutcomesEditEnabled env;
     translate_instant := translate_instant env;
     componentTranslate := componentTranslate env;
     parseFloat := parseFloat env;
     syncInterval := syncInterval env |}.

(** The fields of the offline data that the gradebook loop never writes. *)
Definition sameButGradeAndOutcomes (d d' : GradeEdit) : Prop :=
  g_siteid d' = g_siteid d /\ g_assignid d' = g_assignid d /\ g_userid d' = g_userid d
  /\ g_courseid d' = g_courseid d /\ g_attemptnumber d' = g_attemptnumber d
  /\ g_addattempt d' = g_addattempt d /\ g_workflowstate d' = g_workflowstate d
  /\ g_applytoall d' = g_applytoall d /\ g_plugindata d' = g_plugindata d
  /\ g_timemodified d' = g_timemodified d.

(** The assignment has a pending offline edit on the site. *)
Definition hasPending (st : State) (assignId : Z) (siteId : string) : Prop :=
  pendingSubmissions st assignId siteId <> [] \/ pendingGrades st assignId siteId <> [].

(** Everything but the in-flight registry is the same: the offline store,
    the sync times, the blocks, the connectivity, the current site and the
    calls made. *)
Definition sameButRegistry (st st' : State) : Prop :=
  submissions st' = submissions st /\ grades st' = grades st
  /\ syncTimes st' = syncTimes st /\ blocked st' = blocked st
  /\ online st' = online st /\ currentSiteId st' = currentSiteId st
  /\ trace st' = trace st.

(** The in-flight registry answers every lookup the same way. *)
Definition sameInFlight (st st' : State) : Prop :=
  forall k, lookupKey k (ongoing st') = lookupKey k (ongoing st).

(** The same collaborators, with another [deletePluginOfflineData]. *)
Definition withDeletePluginOfflineData
    (f : Assign -> Submission -> Plugin -> SubmissionEdit -> string -> Result unit)
    (env : Env) : Env :=
  {| getAssignmentById := getAssignmentById env;
     getSubmissionStatus := getSubmissionStatus env;
     saveSubmissionOnline := saveSubmissionOnline env;
     submitForGradingOnline := submitForGradingOnline env;
     submitGradingFormOnline := submitGradingFormOnline env;
     invalidateContent := invalidateContent env;
     getGradeModuleItems := getGradeModuleItems env;
     getModuleBasicGradeInfo := getModuleBasicGradeInfo env;
     getSubmissionObjectFromAttempt := getSubmissionObjectFromAttempt env;
     preparePluginSyncData := preparePluginSyncData env;
     deletePluginOfflineData := f;
     isWebServiceError := isWebServiceError env;
     isOutcomesEditEnabled := isOutcomesEditEnabled env;
     translate_instant := translate_instant env;
     componentTranslate := componentTranslate env;
     parseFloat := parseFloat env;
     syncInterval := syncInterval env |}.

(** The same collaborators, with another [getGradeModuleItems]. *)
Definition withGetGradeModuleItems
    (f : list Event -> Z -> Z -> Z -> string -> Result (list GradeItem)) (env : Env) : Env :=
  {| getAssignmentById := getAssignmentById env;
     getSubmissionStatus := getSubmissionStatus env;
     saveSubmissionOnline := saveSubmissionOnline env;
     submitForGradingOnline := submitForGradingOnline env;
     submitGradingFormOnline := submitGradingFormOnline env;
     invalidateContent := invalidateContent env;
     getGradeModuleItems := f;
     getModuleBasicGradeInfo := getModuleBasicGradeInfo env;
     getSubmissionObjectFromAttempt := getSubmissionObjectFromAttempt env;
     preparePluginSyncData := preparePluginSyncData env;
     deletePluginOfflineData := deletePluginOfflineData env;
     isWebServiceError := isWebServiceError env;
     isOutcomesEditEnabled := isOutcomesEditEnabled env;
     translate_instant := translate_instant env;
     componentTranslate := componentTranslate env;
     parseFloat := parseFloat env;
     syncInterval := syncInterval env |}.

Module ScenarioMore.
Import Scenario.

(** The offline data of the plugins cannot be deleted. *)
Definition cleanupRejected : Env :=
  withDeletePluginOfflineData (fun _ _ _ _ _ => Rej networkError) siteAt150.

(** The gradebook cannot be reached. *)
Definition gradebookUnreachable : Env :=
  withGetGradeModuleItems (fun _ _ _ _ _ => Rej networkError) siteAt150.

(** The submissions of the site carry a feedback graded at time 120. *)
Definition gradedAt120 : Env :=
  mkEnv (fun _ => Ok (statusOf 150 (Some {| fb_gradeddate := Some 120; fb_grade := None |})))
    (Ok tt) (Ok tt) [] None.

(** A grade of 3 given offline at time 100 to users 2 and 3. *)
Definition twoGrades : State :=
  mkState [] [gradeEdit 2 100 (GNum (3 # 1)); gradeEdit 3 100 (GNum (3 # 1))] [] true.

(** The module has one outcome, on a scale of two options. *)
Definition oneOutcome : GradeInfo :=
  {| gi_scale := None;
     gi_outcomes := Some [{| out_scale := Some "Bad, Good"; out_selected := "Good" |}] |}.

(** The gradebook entry of the first outcome, graded at time 200. *)
Definition outcomeEntry : GradeItem :=
  {| gr_outcomeid := Some 5; gr_scaleid := Some 2; gr_gradeformatted := "Good";
     gr_gradedategraded := 200; gr_itemnumber := 0 |}.

(** The pending submission edit is up to date and the assignment was
    synced at time 1000. *)
Definition syncedAt1000 : State :=
  withSyncTime 1000 7 site ScenarioGuards.pendingOnline.

End ScenarioMore.

(* ===================================================================== *)
(** ** Basic facts *)
(* ===================================================================== *)

Lemma includes_In (x : string) (l : list string) :
  JS.includes x l = true <-> In x l.
Proof.
  unfold JS.includes. rewrite existsb_exists. split.
  - intros [y [Hy E]]. apply String.eqb_eq in E. now subst.
  - intros H. exists x. split; [exact H | apply String.eqb_refl].
Qed.

Lemma includes_false_not_In (x : string) (l : list string) :
  JS.includes x l = false <-> ~ In x l.
Proof.
  rewrite <- includes_In. destruct (JS.includes x l); split; congruence.
Qed.

Lemma NoDup_snoc {A} (l : list A) (x : A) :
  NoDup l -> ~ In x l -> NoDup (l ++ [x]).
Proof.
  intros Hl Hx.
  apply (proj2 (NoDup_Add (Add_app x l []))).
  rewrite app_nil_r. now split.
Qed.

Lemma keyEqb_refl (k : Key) : keyEqb k k = true.
Proof.
  unfold keyEqb. now rewrite Z.eqb_refl, String.eqb_refl.
Qed.

Lemma lookupKey_removeKey {V} (k : Key) (l : list (Key * V)) :
  lookupKey k (removeKey k l) = None.
Proof.
  induction l as [| [k' v] l IH]; simpl; [reflexivity |].
  destruct (keyEqb k k') eqn:E; [exact IH |].
  simpl. now rewrite E.
Qed.

Lemma orText_idem (s d : string) : JS.orText (JS.orText s d) d = JS.orText s d.
Proof.
  unfold JS.orText. destruct (JS.truthy s) eqn:E; [now rewrite E |].
  now destruct (JS.truthy d).
Qed.

Lemma resolveSite_idem (st : State) (siteId : string) :
  resolveSite st (resolveSite st siteId) = resolveSite st siteId.
Proof. apply orText_idem. Qed.

(** [isSyncing] holds exactly when [getOngoingSync] has a promise to return. *)
Lemma isSyncing_getOngoingSync (st : State) (assignId : Z) (siteId : string) :
  isSyncing st assignId siteId = true <-> getOngoingSync st assignId siteId <> None.
Proof.
  unfold isSyncing, getOngoingSync.
  destruct (lookupKey _ _); split; congruence.
Qed.

Section Properties.

Variable env : Env.

(** *** Warnings *)

Lemma addDiscardWarning_NoDup (assign : Assign) (de : option string) (warns : list string) :
  NoDup warns -> NoDup (addDiscardWarning env assign de warns).
Proof.
  intros H. unfold addDiscardWarning.
  destruct de as [e |]; [| exact H].
  destruct (JS.truthy e); [| exact H].
  destruct (JS.includes _ warns) eqn:E; [exact H |].
  apply NoDup_snoc; [exact H | now apply includes_false_not_In].
Qed.

Lemma addDiscardWarning_truthy (assign : Assign) (e : string) (warns : list string) :
  JS.truthy e = true ->
  addDiscardWarning env assign (Some e) warns
  = if JS.includes (discardMessage env assign e) warns then warns
    else (warns ++ [discardMessage env assign e])%list.
Proof. intros H. unfold addDiscardWarning. now rewrite H. Qed.

(** *** The shape of [syncSubmission] *)

Lemma syncSubmission_stale_run assign offlineData warns siteId st status submission :
  getSubmissionStatus env (trace st) (assign_id assign) (s_userid offlineData) siteId = Ok status ->
  getSubmissionObjectFromAttempt env assign (st_lastattempt status) = Some submission ->
  sub_timemodified submission <> s_onlinetimemodified offlineData ->
  syncSubmission env assign offlineData warns siteId st
  = let st1 := afterStatus assign (s_userid offlineData) siteId st in
    let st2 := snd (deleteSubmission (assign_id assign) (s_userid offlineData) siteId st1) in
    match deletePlugins env assign submission (sub_plugins submission) offlineData siteId with
    | Ok _ =>
        (Ok (addDiscardWarning env assign
               (Some (translate_instant env "addon.mod_assign.warningsubmissionmodified" []))
               warns), st2)
    | Rej e => (Rej e, st2)
    end.
Proof.
  intros Hs Ho Hne.
  unfold syncSubmission, andThen, call. rewrite Hs, Ho.
  apply Z.eqb_neq in Hne. rewrite Hne. simpl.
  unfold settle, resolve, afterStatus.
  destruct (deletePlugins _ _ _ _ _ _); reflexivity.
Qed.

Ltac break_match :=
  match goal with
  | H : context [match ?x with _ => _ end] |- _ => destruct x eqn:?
  | |- context [match ?x with _ => _ end] => destruct x eqn:?
  end.

Ltac inv H := inversion H; subst; clear H.

Lemma syncSubmission_warnings assign offlineData warns siteId st w st' :
  syncSubmission env assign offlineData warns siteId st = (Ok w, st') ->
  exists de, w = addDiscardWarning env assign de warns.
Proof.
  unfold syncSubmission, andThen, settle, resolve, reject. intros H.
  repeat (break_match; try discriminate).
  all: inv H; eauto.
Qed.

Lemma syncSubmissionGrade_warnings assign offlineData warns courseId siteId st w st' :
  syncSubmissionGrade env assign offlineData warns courseId siteId st = (Ok w, st') ->
  exists de, w = addDiscardWarning env assign de warns.
Proof.
  unfold syncSubmissionGrade, andThen, settle, resolve, reject. intros H.
  repeat (break_match; try discriminate).
  all: inv H; eauto.
Qed.

Lemma reconciliation_NoDup task :
  Reconciliation env task ->
  forall result st result' st',
    NoDup (warnings result) ->
    task result st = (Ok result', st') ->
    NoDup (warnings result') /\ updated result' = true.
Proof.
  intros [assign siteId s | assign courseId siteId g] result st result' st' Hnd H.
  - unfold submissionTask, andThen, resolve in H.
    destruct (syncSubmission _ _ _ _ _ _) as [[w | e] st1] eqn:E; [| discriminate].
    inv H. simpl. split; [| reflexivity].
    apply syncSubmission_warnings in E as [de ->].
    now apply addDiscardWarning_NoDup.
  - unfold gradeTask, andThen, resolve in H.
    destruct (syncSubmissionGrade _ _ _ _ _ _ _) as [[w | e] st1] eqn:E; [| discriminate].
    inv H. simpl. split; [| reflexivity].
    apply syncSubmissionGrade_warnings in E as [de ->].
    now apply addDiscardWarning_NoDup.
Qed.

Lemma allShared_NoDup tasks :
  Forall (Reconciliation env) tasks ->
  forall result st,
    NoDup (warnings result) ->
    NoDup (warnings (snd (fst (allShared tasks result st)))).
Proof.
  induction 1 as [| task tasks Ht _ IH]; intros result st Hnd; simpl; [exact Hnd |].
  destruct (task result st) as [[r1 | e] st1] eqn:E.
  - apply IH. eapply reconciliation_NoDup; eauto.
  - specialize (IH result st1 Hnd).
    destruct (allShared tasks result st1) as [[r0 r2] st2]. exact IH.
Qed.

Lemma tasks_are_reconciliations assign courseId siteId subs grs :
  Forall (Reconciliation env)
    (map (submissionTask env assign siteId) subs ++ map (gradeTask env assign courseId siteId) grs).
Proof.
  apply Forall_app. split; apply Forall_forall; intros t Ht;
    apply in_map_iff in Ht as [x [<- _]]; constructor.
Qed.

Lemma reconcile_NoDup assignId siteId subs grs result st result' st' :
  NoDup (warnings result) ->
  reconcile env assignId siteId subs grs result st = (Ok result', st') ->
  NoDup (warnings result').
Proof.
  intros Hnd. unfold reconcile.
  destruct (isEmpty subs && isEmpty grs).
  - unfold resolve. intros H. now inv H.
  - unfold andThen, isOnline, reject, call, allTasks. simpl.
    destruct (online st); simpl; [| discriminate].
    destruct (getAssignmentById _ _ _ _ _) as [assign | e]; [| discriminate].
    match goal with |- context [allShared ?ts ?r ?s] =>
      pose proof (@allShared_NoDup ts (tasks_are_reconciliations _ _ _ _ _) r s Hnd) as HN;
      destruct (allShared ts r s) as [[r0 r2] st2] end.
    simpl in HN. destruct r0; [| discriminate].
    destruct (updated r2); unfold catch, resolve.
    + destruct (invalidateContent _ _ _ _ _); intros H; now inv H.
    + intros H; now inv H.
Qed.

Lemma syncPromise_NoDup now assignId siteId st r st' :
  syncPromise env now assignId siteId st = (Ok r, st') -> NoDup (warnings r).
Proof.
  unfold syncPromise, andThen, catch, getAssignSubmissions, getAssignSubmissionsGrade,
    setSyncTime, resolve.
  destruct (reconcile _ _ _ _ _ _ _) as [[res | e] st1] eqn:E; [| discriminate].
  intros H. inv H.
  eapply reconcile_NoDup; [| exact E]. constructor.
Qed.

(** *** Frame rules for promises *)

Section Frame.

Variable R : State -> State -> Prop.
Hypothesis R_refl : forall st, R st st.
Hypothesis R_trans : forall a b c, R a b -> R b c -> R a c.

Lemma preserves_resolve {A} (a : A) : preserves R (resolve a).
Proof. intros st r st' H. inv H. apply R_refl. Qed.

Lemma preserves_reject {A} e : preserves R (@reject A e).
Proof. intros st r st' H. inv H. apply R_refl. Qed.

Lemma preserves_settle {A} (x : Result A) : preserves R (settle x).
Proof. intros st r st' H. inv H. apply R_refl. Qed.

Lemma preserves_andThen {A B} (p : Promise A) (f : A -> Promise B) :
  preserves R p -> (forall a, preserves R (f a)) -> preserves R (andThen p f).
Proof.
  intros Hp Hf st r st' H. unfold andThen in H.
  destruct (p st) as [[a | e] st1] eqn:E.
  - eapply R_trans; [eapply Hp; eauto | eapply Hf; eauto].
  - inv H. eapply Hp; eauto.
Qed.

Lemma preserves_catch {A} (p : Promise A) (h : Rejection -> Promise A) :
  preserves R p -> (forall e, preserves R (h e)) -> preserves R (catch p h).
Proof.
  intros Hp Hh st r st' H. unfold catch in H.
  destruct (p st) as [[a | e] st1] eqn:E.
  - inv H. eapply Hp; eauto.
  - eapply R_trans; [eapply Hp; eauto | eapply Hh; eauto].
Qed.

Lemma preserves_modify (f : State -> State) :
  (forall st, R st (f st)) -> preserves R (modify f).
Proof. intros Hf st r st' H. inv H. apply Hf. Qed.

Lemma preserves_call {A} (e : Event) (answer : list Event -> Result A) :
  (forall st, R st (logEvent e st)) -> preserves R (call e answer).
Proof. intros Hf st r st' H. inv H. apply Hf. Qed.

Lemma preserves_allShared {X} (tasks : list (X -> Promise X)) :
  Forall (fun t => forall x, preserves R (t x)) tasks ->
  forall x st, R st (snd (allShared tasks x st)).
Proof.
  induction 1 as [| t tasks Ht _ IH]; intros x st; simpl; [apply R_refl |].
  destruct (t x st) as [[x1 | e] st1] eqn:E.
  - eapply R_trans; [eapply Ht; eauto | apply IH].
  - specialize (IH x st1). destruct (allShared tasks x st1) as [[r0 x2] st2].
    simpl in *. eapply R_trans; [eapply Ht; eauto | exact IH].
Qed.

End Frame.

Lemma sameConfig_refl st : sameConfig st st.
Proof. repeat split. Qed.

Lemma sameConfig_trans a b c : sameConfig a b -> sameConfig b c -> sameConfig a c.
Proof. unfold sameConfig. intuition congruence. Qed.

Lemma sameStore_refl st : sameStore st st.
Proof. repeat split. Qed.

Lemma sameStore_trans a b c : sameStore a b -> sameStore b c -> sameStore a c.
Proof. unfold sameStore. intuition congruence. Qed.

Lemma noUploadSince_refl st : noUploadSince st st.
Proof. exists []. split; [now rewrite app_nil_r | reflexivity]. Qed.

Lemma noUploadSince_trans a b c : noUploadSince a b -> noUploadSince b c -> noUploadSince a c.
Proof.
  intros [l1 [H1 U1]] [l2 [H2 U2]]. exists (l1 ++ l2)%list. split.
  - now rewrite H2, H1, app_assoc.
  - unfold uploads in *. now rewrite filter_app, U1, U2.
Qed.

Lemma noUploadSince_uploads st st' :
  noUploadSince st st' -> uploads (trace st') = uploads (trace st).
Proof.
  intros [l [H U]]. unfold uploads in *. now rewrite H, filter_app, U, app_nil_r.
Qed.

Lemma sameConfig_logEvent e st : sameConfig st (logEvent e st).
Proof. repeat split. Qed.

Lemma sameStore_logEvent e st : sameStore st (logEvent e st).
Proof. repeat split. Qed.

Lemma sameConfig_setStore subs grs st : sameConfig st (setStore subs grs st).
Proof. repeat split. Qed.

(** Breaks a goal [preserves R p] along the structure of [p]. *)
Ltac frame_step R_refl R_trans :=
  first
    [ apply preserves_resolve; exact R_refl
    | apply preserves_reject; exact R_refl
    | apply preserves_settle; exact R_refl
    | apply preserves_andThen; [exact R_trans | | intros ?]
    | apply preserves_catch; [exact R_trans | | intros ?]
    | apply preserves_call; intros ?
    | apply preserves_modify; intros ?
    | match goal with
      | |- preserves _ (match ?x with _ => _ end) => destruct x
      end ].

Lemma sameConfig_syncSubmission assign offlineData warns siteId :
  preserves sameConfig (syncSubmission env assign offlineData warns siteId).
Proof.
  unfold syncSubmission, uploadSubmission, sendSubmission, onUploadError, fireAndForget.
  repeat (frame_step sameConfig_refl sameConfig_trans);
    auto using sameConfig_logEvent, sameConfig_setStore.
Qed.

Lemma sameConfig_syncSubmissionGrade assign offlineData warns courseId siteId :
  preserves sameConfig (syncSubmissionGrade env assign offlineData warns courseId siteId).
Proof.
  unfold syncSubmissionGrade, uploadGrade, checkGradebook, sendGrade, onUploadError,
    fireAndForget.
  repeat (frame_step sameConfig_refl sameConfig_trans);
    auto using sameConfig_logEvent, sameConfig_setStore.
Qed.

(** *** The promise chain of [syncAssign] *)

Lemma getAssignSubmissions_pending assignId siteId st :
  getAssignSubmissions assignId siteId st = (Ok (pendingSubmissions st assignId siteId), st).
Proof. reflexivity. Qed.

Lemma getAssignSubmissionsGrade_pending assignId siteId st :
  getAssignSubmissionsGrade assignId siteId st = (Ok (pendingGrades st assignId siteId), st).
Proof. reflexivity. Qed.

Lemma pendingSubmissions_resolved st assignId siteId :
  pendingSubmissions st assignId (resolveSite st siteId) = pendingSubmissions st assignId siteId.
Proof. unfold pendingSubmissions. now rewrite resolveSite_idem. Qed.

Lemma pendingGrades_resolved st assignId siteId :
  pendingGrades st assignId (resolveSite st siteId) = pendingGrades st assignId siteId.
Proof. unfold pendingGrades. now rewrite resolveSite_idem. Qed.

Lemma syncPromise_unfold now assignId siteId st :
  syncPromise env now assignId siteId st
  = match reconcile env assignId siteId (pendingSubmissions st assignId siteId)
            (pendingGrades st assignId siteId) nothingSynced st with
    | (Ok result, st1) => (Ok result, withSyncTime now assignId siteId st1)
    | (Rej e, st1) => (Rej e, st1)
    end.
Proof.
  unfold syncPromise, andThen, catch.
  rewrite getAssignSubmissions_pending, getAssignSubmissionsGrade_pending.
  unfold nothingSynced, withSyncTime.
  destruct (reconcile _ _ _ _ _ _ _) as [[result | e] st1]; reflexivity.
Qed.

Lemma syncPromise_nothing_pending now assignId siteId st :
  pendingSubmissions st assignId siteId = [] ->
  pendingGrades st assignId siteId = [] ->
  syncPromise env now assignId siteId st
  = (Ok nothingSynced, withSyncTime now assignId siteId st).
Proof. intros Hs Hg. rewrite syncPromise_unfold, Hs, Hg. reflexivity. Qed.

Lemma syncPromise_offline now assignId siteId st :
  online st = false ->
  pendingSubmissions st assignId siteId <> [] \/ pendingGrades st assignId siteId <> [] ->
  syncPromise env now assignId siteId st = (Rej RejNull, st).
Proof.
  intros Hoff Hp. rewrite syncPromise_unfold. unfold reconcile.
  assert (isEmpty (pendingSubmissions st assignId siteId)
          && isEmpty (pendingGrades st assignId siteId) = false) as ->.
  { destruct Hp as [Hp | Hp].
    - destruct (pendingSubmissions st assignId siteId); [congruence | reflexivity].
    - destruct (pendingGrades st assignId siteId); [congruence |].
      apply andb_false_r. }
  unfold andThen, isOnline. now rewrite Hoff.
Qed.

Lemma preserves_allTasks (R : State -> State -> Prop) tasks result :
  (forall st, R st st) ->
  (forall a b c, R a b -> R b c -> R a c) ->
  Forall (fun t => forall x, preserves R (t x)) tasks ->
  preserves R (allTasks tasks result).
Proof.
  intros Hr Ht Hall st r st' H. unfold allTasks in H.
  pose proof (preserves_allShared Hr Ht Hall result st) as HR.
  destruct (allShared tasks result st) as [[r0 x] st2]. simpl in HR.
  destruct r0; now inv H.
Qed.

Lemma tasks_preserve (R : State -> State -> Prop) assign courseId siteId subs grs :
  (forall st, R st st) ->
  (forall a b c, R a b -> R b c -> R a c) ->
  (forall o w, preserves R (syncSubmission env assign o w siteId)) ->
  (forall o w, preserves R (syncSubmissionGrade env assign o w courseId siteId)) ->
  Forall (fun t => forall x, preserves R (t x))
    (map (submissionTask env assign siteId) subs ++ map (gradeTask env assign courseId siteId) grs).
Proof.
  intros Hr Ht Hs Hg.
  apply Forall_app. split; apply Forall_forall; intros t Hin;
    apply in_map_iff in Hin as [o [<- _]]; intros x.
  - unfold submissionTask. apply preserves_andThen; [exact Ht | apply Hs |].
    intros w. now apply preserves_resolve.
  - unfold gradeTask. apply preserves_andThen; [exact Ht | apply Hg |].
    intros w. now apply preserves_resolve.
Qed.

Lemma sameConfig_reconcile assignId siteId subs grs result :
  preserves sameConfig (reconcile env assignId siteId subs grs result).
Proof.
  unfold reconcile, isOnline.
  destruct (isEmpty subs && isEmpty grs).
  - apply preserves_resolve. exact sameConfig_refl.
  - apply preserves_andThen; [exact sameConfig_trans | |].
    + intros st r st' H. inv H. apply sameConfig_refl.
    + intros isOn. destruct (negb isOn).
      * apply preserves_reject. exact sameConfig_refl.
      * apply preserves_andThen; [exact sameConfig_trans | |].
        { apply preserves_call. intros st. apply sameConfig_logEvent. }
        intros assign.
        apply preserves_andThen; [exact sameConfig_trans | |].
        { apply preserves_allTasks;
            [exact sameConfig_refl | exact sameConfig_trans |].
          apply tasks_preserve;
            [exact sameConfig_refl | exact sameConfig_trans | |]; intros.
          - apply sameConfig_syncSubmission.
          - apply sameConfig_syncSubmissionGrade. }
        intros result'.
        repeat (frame_step sameConfig_refl sameConfig_trans);
          auto using sameConfig_logEvent.
Qed.

(** A sync that resolves has set the sync time, and nothing else of the
    configuration. *)
Lemma syncPromise_resolved now assignId siteId st result st' :
  syncPromise env now assignId siteId st = (Ok result, st') ->
  getSyncTime st' assignId siteId = now
  /\ currentSiteId st' = currentSiteId st
  /\ blocked st' = blocked st /\ online st' = online st
  /\ ongoing st' = ongoing st /\ settled st' = settled st
  /\ nextPromise st' = nextPromise st.
Proof.
  rewrite syncPromise_unfold.
  destruct (reconcile _ _ _ _ _ _ _) as [[res | e] st1] eqn:E; [| discriminate].
  intros H. inv H.
  apply sameConfig_reconcile in E as (_ & Hb & Ho & Hc & Hg & Hs & Hn).
  unfold withSyncTime, setSyncTime, getSyncTime, resolveSite. simpl.
  rewrite keyEqb_refl. repeat split; assumption.
Qed.

(** *** The guards of [syncAssign] and the in-flight registry *)

Lemma isBlocked_resolved st assignId siteId :
  isBlocked st assignId (resolveSite st siteId) = isBlocked st assignId siteId.
Proof. unfold isBlocked. now rewrite resolveSite_idem. Qed.

Lemma getOngoingSync_resolved st assignId siteId :
  getOngoingSync st assignId (resolveSite st siteId) = getOngoingSync st assignId siteId.
Proof. unfold getOngoingSync. now rewrite resolveSite_idem. Qed.

(** The three ways out of [syncAssign]. *)
Lemma syncAssign_cases st assignId siteId :
  let k := (assignId, resolveSite st siteId) in
  (exists pid,
      lookupKey k (ongoing st) = Some pid
      /\ syncAssign env st assignId siteId = (POngoing k pid, st))
  \/ (lookupKey k (ongoing st) = None
      /\ isBlocked st assignId siteId = true
      /\ syncAssign env st assignId siteId
         = (PRejected (RejText (translate_instant env "core.errorsyncblocked"
                                  [("$a", componentTranslate env)])), st))
  \/ (lookupKey k (ongoing st) = None
      /\ isBlocked st assignId siteId = false
      /\ syncAssign env st assignId siteId
         = (POngoing k (nextPromise st),
            setRegistry ((k, nextPromise st) :: removeKey k (ongoing st))
              (settled st) (S (nextPromise st)) st)).
Proof.
  intros k. unfold syncAssign. fold (resolveSite st siteId).
  rewrite getOngoingSync_resolved, isBlocked_resolved.
  unfold getOngoingSync, addOngoingSync. rewrite resolveSite_idem. fold k.
  destruct (lookupKey k (ongoing st)) as [pid |] eqn:E.
  - left. eauto.
  - right. destruct (isBlocked st assignId siteId); [left | right]; auto.
Qed.

(** A promise of the registry handed out by [syncAssign] is in flight, and
    handing it out changes nothing but the registry. *)
Lemma syncAssign_ongoing st assignId siteId k pid st1 :
  syncAssign env st assignId siteId = (POngoing k pid, st1) ->
  k = (assignId, resolveSite st siteId)
  /\ lookupKey k (ongoing st1) = Some pid
  /\ submissions st1 = submissions st /\ grades st1 = grades st
  /\ syncTimes st1 = syncTimes st /\ trace st1 = trace st
  /\ online st1 = online st /\ currentSiteId st1 = currentSiteId st
  /\ blocked st1 = blocked st.
Proof.
  intros H.
  destruct (syncAssign_cases st assignId siteId) as [(p & Hl & E) | [(Hl & Hb & E) | (Hl & Hb & E)]];
    rewrite E in H; inv H.
  - repeat split; auto.
  - simpl. rewrite keyEqb_refl. repeat split; auto.
Qed.

Lemma await_ongoing now st k pid :
  lookupKey k (ongoing st) = Some pid ->
  await env now st (POngoing k pid) = Some (runOngoing env now k pid st).
Proof. intros H. unfold await. now rewrite H, Nat.eqb_refl. Qed.

(** What the holder of an in-flight promise gets when the sync found
    nothing to do. *)
Lemma runOngoing_nothing_pending now st assignId siteId pid :
  pendingSubmissions st assignId siteId = [] ->
  pendingGrades st assignId siteId = [] ->
  exists st2,
    runOngoing env now (assignId, resolveSite st siteId) pid st = (Ok nothingSynced, st2)
    /\ trace st2 = trace st /\ submissions st2 = submissions st /\ grades st2 = grades st
    /\ currentSiteId st2 = currentSiteId st
    /\ getSyncTime st2 assignId siteId = now.
Proof.
  intros Hs Hg. unfold runOngoing. simpl fst. simpl snd.
  rewrite syncPromise_nothing_pending
    by (now rewrite ?pendingSubmissions_resolved, ?pendingGrades_resolved).
  eexists. split; [reflexivity |]. repeat split.
  unfold getSyncTime, withSyncTime, setSyncTime, resolveSite. simpl.
  fold (resolveSite st siteId). fold (resolveSite st (resolveSite st siteId)).
  now rewrite resolveSite_idem, keyEqb_refl.
Qed.

Lemma runOngoing_offline now st assignId siteId pid :
  online st = false ->
  pendingSubmissions st assignId siteId <> [] \/ pendingGrades st assignId siteId <> [] ->
  exists st2,
    runOngoing env now (assignId, resolveSite st siteId) pid st = (Rej RejNull, st2)
    /\ trace st2 = trace st /\ submissions st2 = submissions st /\ grades st2 = grades st
    /\ syncTimes st2 = syncTimes st.
Proof.
  intros Hoff Hp. unfold runOngoing. simpl fst. simpl snd.
  rewrite syncPromise_offline
    by (rewrite ?pendingSubmissions_resolved, ?pendingGrades_resolved; assumption).
  eexists. split; [reflexivity |]. repeat split.
Qed.

(** A second call for the same assignment and the same site (named the same
    way or not) issued while the promise of the first is in flight gets
    that promise and changes nothing. *)
Lemma concurrent_calls_aux st assignId siteId siteId' k pid st1 :
  syncAssign env st assignId siteId = (POngoing k pid, st1) ->
  resolveSite st siteId' = resolveSite st siteId ->
  syncAssign env st1 assignId siteId' = (POngoing k pid, st1).
Proof.
  intros H Hsame.
  apply syncAssign_ongoing in H as (Hk & Hl & _ & _ & _ & _ & _ & Hc & _).
  assert (Hk1 : k = (assignId, resolveSite st1 siteId'))
    by (unfold resolveSite in *; rewrite Hc, Hsame; exact Hk).
  destruct (syncAssign_cases st1 assignId siteId')
    as [(pid' & Hl' & E) | [(Hl' & _) | (Hl' & _)]];
    rewrite <- Hk1 in *; congruence.
Qed.

(** *** Uploads and their failures *)

Lemma onlyTraced_refl st : onlyTraced st st.
Proof. split; [apply sameStore_refl | apply sameConfig_refl]. Qed.

Lemma onlyTraced_trans a b c : onlyTraced a b -> onlyTraced b c -> onlyTraced a c.
Proof.
  intros [H1 H2] [H3 H4].
  split; [eapply sameStore_trans | eapply sameConfig_trans]; eauto.
Qed.

Lemma onlyTraced_logEvent e st : onlyTraced st (logEvent e st).
Proof. split; [apply sameStore_logEvent | apply sameConfig_logEvent]. Qed.

Lemma onlyTraced_sendSubmission assign submission offlineData siteId :
  preserves onlyTraced (sendSubmission env assign submission offlineData siteId).
Proof.
  unfold sendSubmission, fireAndForget.
  repeat (frame_step onlyTraced_refl onlyTraced_trans); auto using onlyTraced_logEvent.
Qed.

Lemma onlyTraced_checkGradebook assign offlineData courseId siteId :
  preserves onlyTraced (checkGradebook env assign offlineData courseId siteId).
Proof.
  unfold checkGradebook.
  repeat (frame_step onlyTraced_refl onlyTraced_trans); auto using onlyTraced_logEvent.
Qed.

Lemma onlyTraced_resolveSite st st' siteId :
  onlyTraced st st' -> resolveSite st' siteId = resolveSite st siteId.
Proof.
  intros [_ (_ & _ & _ & Hc & _)]. unfold resolveSite. now rewrite Hc.
Qed.

Lemma syncSubmission_current_run assign offlineData warns siteId st status submission :
  getSubmissionStatus env (trace st) (assign_id assign) (s_userid offlineData) siteId = Ok status ->
  getSubmissionObjectFromAttempt env assign (st_lastattempt status) = Some submission ->
  sub_timemodified submission = s_onlinetimemodified offlineData ->
  syncSubmission env assign offlineData warns siteId st
  = match uploadSubmission env assign submission offlineData siteId
            (afterStatus assign (s_userid offlineData) siteId st) with
    | (Ok discardError, st2) =>
        let st3 := snd (deleteSubmission (assign_id assign) (s_userid offlineData) siteId st2) in
        match deletePlugins env assign submission (sub_plugins submission) offlineData siteId with
        | Ok _ => (Ok (addDiscardWarning env assign discardError warns), st3)
        | Rej e => (Rej e, st3)
        end
    | (Rej e, st2) => (Rej e, st2)
    end.
Proof.
  intros Hs Ho Heq.
  unfold syncSubmission, andThen, call. rewrite Hs, Ho.
  apply Z.eqb_eq in Heq. rewrite Heq. cbn [negb].
  unfold afterStatus.
  destruct (uploadSubmission _ _ _ _ _ _) as [[de | e] st2]; [| reflexivity].
  unfold settle, resolve. simpl.
  destruct (deletePlugins _ _ _ _ _ _); reflexivity.
Qed.

Lemma uploadSubmission_failure assign submission offlineData siteId st e st2 :
  sendSubmission env assign submission offlineData siteId st = (Rej e, st2) ->
  uploadSubmission env assign submission offlineData siteId st
  = if rejTruthy e && isWebServiceError env e then (Ok (errorText e), st2) else (Rej e, st2).
Proof.
  intros H. unfold uploadSubmission, catch, onUploadError. rewrite H.
  now destruct (rejTruthy e && isWebServiceError env e).
Qed.

Lemma noSubmissionOf_deleted assignId userId siteId st :
  noSubmissionOf (resolveSite st siteId) assignId userId
    (snd (deleteSubmission assignId userId siteId st)).
Proof.
  intros s Hin [H1 [H2 H3]]. simpl in Hin.
  apply filter_In in Hin as [_ Hf]. unfold isSubmissionOf in Hf.
  rewrite H1, H2, H3, String.eqb_refl, !Z.eqb_refl in Hf. discriminate.
Qed.

Lemma noGradeOf_deleted assignId userId siteId st :
  noGradeOf (resolveSite st siteId) assignId userId
    (snd (deleteSubmissionGrade assignId userId siteId st)).
Proof.
  intros g Hin [H1 [H2 H3]]. simpl in Hin.
  apply filter_In in Hin as [_ Hf]. unfold isGradeOf in Hf.
  rewrite H1, H2, H3, String.eqb_refl, !Z.eqb_refl in Hf. discriminate.
Qed.

Lemma addDiscardWarning_In assign text warns :
  JS.truthy text = true ->
  In (discardMessage env assign text) (addDiscardWarning env assign (Some text) warns).
Proof.
  intros H. rewrite addDiscardWarning_truthy by exact H.
  destruct (JS.includes _ warns) eqn:E.
  - now apply includes_In.
  - apply in_or_app. right. now left.
Qed.

Lemma syncSubmissionGrade_current_run assign offlineData warns courseId siteId st status t :
  getSubmissionStatus env (trace st) (assign_id assign) (g_userid offlineData) siteId = Ok status ->
  feedbackTime status = Ok t ->
  gtOpt t (g_timemodified offlineData) = false ->
  syncSubmissionGrade env assign offlineData warns courseId siteId st
  = match uploadGrade env assign offlineData courseId siteId
            (afterStatus assign (g_userid offlineData) siteId st) with
    | (Ok discardError, st2) =>
        (Ok (addDiscardWarning env assign discardError warns),
         snd (deleteSubmissionGrade (assign_id assign) (g_userid offlineData) siteId st2))
    | (Rej e, st2) => (Rej e, st2)
    end.
Proof.
  intros Hs Hf Hgt.
  unfold syncSubmissionGrade, andThen, call, settle. rewrite Hs, Hf, Hgt.
  unfold afterStatus.
  destruct (uploadGrade _ _ _ _ _ _) as [[de | e] st2]; reflexivity.
Qed.

Lemma uploadGrade_failure assign offlineData courseId siteId st d st3 e :
  checkGradebook env assign offlineData courseId siteId st = (Ok d, st3) ->
  submitGradingFormOnline env (trace st3) (gradingForm assign d) siteId = Rej e ->
  let st4 := logEvent (ESubmitGradingFormOnline (gradingForm assign d) siteId) st3 in
  uploadGrade env assign offlineData courseId siteId st
  = if rejTruthy e && isWebServiceError env e then (Ok (errorText e), st4) else (Rej e, st4).
Proof.
  intros Hc Hu st4. unfold uploadGrade, andThen, catch, onUploadError. rewrite Hc.
  unfold sendGrade, andThen, call. rewrite Hu. fold st4.
  now destruct (rejTruthy e && isWebServiceError env e).
Qed.

(** *** The gradebook check *)

Lemma overrideOutcomes_grade outcomes index grade d :
  g_grade (overrideOutcomes outcomes index grade d) = g_grade d
  /\ g_timemodified (overrideOutcomes outcomes index grade d) = g_timemodified d.
Proof.
  revert index d. induction outcomes as [| o rest IH]; intros index d; simpl; [now split |].
  match goal with |- context [overrideOutcomes rest ?i grade ?x] =>
    destruct (IH i x) as [H1 H2]; rewrite H1, H2 end.
  destruct (JS.truthyOpt (out_scale o) && (gr_itemnumber grade =? index));
    [destruct (out_scale o) |]; now split.
Qed.

Lemma overrideFromGradebook_grade gradeInfo d grade d' :
  overrideFromGradebook env gradeInfo d grade = Ok d' ->
  g_timemodified d' = g_timemodified d
  /\ g_grade d'
     = if overridesGrade (g_timemodified d) grade then gradebookValue env gradeInfo grade
       else g_grade d.
Proof.
  unfold overrideFromGradebook, overridesGrade.
  destruct (g_timemodified d <=? gr_gradedategraded grade); simpl;
    [| intros H; inv H; now split].
  destruct (JS.truthyNum (gr_outcomeid grade)); simpl.
  - destruct (isOutcomesEditEnabled env); [| intros H; inv H; now split].
    destruct gradeInfo as [info |]; [| discriminate].
    destruct (gi_outcomes info) as [outcomes |]; intros H; inv H; [| now split].
    destruct (overrideOutcomes_grade outcomes 0 grade d) as [Hg Ht]. now split.
  - destruct (JS.truthyNum (gr_scaleid grade)); simpl; intros H; inv H; now split.
Qed.

Lemma overrideAll_grade gradeInfo items :
  forall d d',
    overrideAll env gradeInfo items d = Ok d' ->
    g_timemodified d' = g_timemodified d
    /\ (forall before grade after,
           items = (before ++ grade :: after)%list ->
           overridesGrade (g_timemodified d) grade = true ->
           Forall (fun g => overridesGrade (g_timemodified d) g = false) after ->
           g_grade d' = gradebookValue env gradeInfo grade)
    /\ (Forall (fun g => overridesGrade (g_timemodified d) g = false) items ->
        g_grade d' = g_grade d).
Proof.
  induction items as [| x rest IH]; intros d d' H; simpl in H.
  - inv H. split; [reflexivity |]. split; [| reflexivity].
    intros before grade after E. destruct before; discriminate.
  - destruct (overrideFromGradebook env gradeInfo d x) as [d1 | e] eqn:E1; [| discriminate].
    apply overrideFromGradebook_grade in E1 as [Ht1 Hg1].
    destruct (IH d1 d' H) as (Ht & Hlast & Hnone).
    rewrite Ht1 in *.
    split; [exact Ht |]. split.
    + intros before grade after E Hq Hafter.
      destruct before as [| b before]; simpl in E; inv E.
      * rewrite Hq in Hg1. rewrite <- Hg1. now apply Hnone.
      * eapply Hlast; eauto.
    + intros Hall. inv Hall.
      match goal with Hx : overridesGrade _ x = false |- _ => rewrite Hx in Hg1 end.
      rewrite <- Hg1. now apply Hnone.
Qed.

Lemma catch_sendGrade_uploads assign d siteId st r st' :
  catch (sendGrade env assign d siteId) (onUploadError env) st = (r, st') ->
  uploads (trace st')
  = (uploads (trace st) ++ [ESubmitGradingFormOnline (gradingForm assign d) siteId])%list.
Proof.
  unfold catch, sendGrade, andThen, call, fireAndForget, modify, resolve, onUploadError.
  destruct (submitGradingFormOnline env (trace st) (gradingForm assign d) siteId) as [[] | e].
  - intros H. inv H. unfold uploads. simpl. rewrite !filter_app. simpl.
    now rewrite app_nil_r.
  - destruct (rejTruthy e && isWebServiceError env e); unfold reject; intros H; inv H;
      unfold uploads; simpl; now rewrite filter_app.
Qed.

Lemma checkGradebook_run assign offlineData courseId siteId st items gradeInfo :
  getGradeModuleItems env (trace st) courseId (assign_cmid assign) (g_userid offlineData) siteId
    = Ok items ->
  getModuleBasicGradeInfo env
    (trace (logEvent (EGetGradeModuleItems courseId (assign_cmid assign)
                        (g_userid offlineData) siteId) st))
    (assign_cmid assign) siteId = Ok gradeInfo ->
  checkGradebook env assign offlineData courseId siteId st
  = (overrideAll env gradeInfo items offlineData,
     logEvent (EGetModuleBasicGradeInfo (assign_cmid assign) siteId)
       (logEvent (EGetGradeModuleItems courseId (assign_cmid assign)
                    (g_userid offlineData) siteId) st)).
Proof.
  intros Hitems Hinfo. unfold checkGradebook, andThen, call, settle.
  now rewrite Hitems, Hinfo.
Qed.

(** *** Resolved syncs and conflicts *)

Lemma allShared_resolved_updated tasks :
  Forall (Reconciliation env) tasks ->
  forall result st result' st',
    allShared tasks result st = (Ok tt, result', st') ->
    NoDup (warnings result) ->
    tasks <> [] \/ updated result = true ->
    updated result' = true.
Proof.
  induction 1 as [| task tasks Ht _ IH]; intros result st result' st' H Hnd Hor; simpl in H.
  - inv H. destruct Hor as [Hor | Hor]; [congruence | exact Hor].
  - destruct (task result st) as [[r1 | e] st1] eqn:E.
    + destruct (reconciliation_NoDup Ht _ _ Hnd E) as [Hnd1 Hup1].
      eapply IH; eauto.
    + destruct (allShared tasks result st1) as [[r0 r2] st2]. discriminate.
Qed.

Lemma reconcile_resolved assignId siteId subs grs st result st' :
  reconcile env assignId siteId subs grs nothingSynced st = (Ok result, st') ->
  subs <> [] \/ grs <> [] ->
  updated result = true
  /\ exists assign l,
       getAssignmentById env (trace st) (firstCourseId subs grs) assignId siteId = Ok assign
       /\ trace st'
          = (l ++ [EInvalidateContent (assign_cmid assign) (firstCourseId subs grs) siteId])%list.
Proof.
  intros H Hp. unfold reconcile in H.
  assert (isEmpty subs && isEmpty grs = false) as Hne.
  { destruct Hp as [Hp | Hp].
    - destruct subs; [congruence | reflexivity].
    - destruct grs; [congruence | apply andb_false_r]. }
  rewrite Hne in H. unfold andThen, isOnline, call, allTasks in H.
  destruct (online st); simpl in H; [| discriminate].
  destruct (getAssignmentById env (trace st) (firstCourseId subs grs) assignId siteId)
    as [assign | e] eqn:Ea; [| discriminate].
  match type of H with context [allShared ?ts ?r ?s] =>
    destruct (allShared ts r s) as [[r0 r2] st2] eqn:E end.
  destruct r0 as [[] | e]; [| discriminate].
  assert (Hup : updated r2 = true).
  { eapply allShared_resolved_updated; [apply tasks_are_reconciliations | exact E | constructor |].
    left. destruct Hp as [Hp | Hp].
    - destruct subs; [congruence | discriminate].
    - destruct grs; [congruence |]. intros Hnil. apply app_eq_nil in Hnil as [_ Hnil].
      discriminate. }
  rewrite Hup in H. unfold catch, resolve in H. simpl in H.
  destruct (invalidateContent env (trace st2) (assign_cmid assign)
              (firstCourseId subs grs) siteId); inv H;
    (split; [exact Hup |]); exists assign, (trace st2); (split; reflexivity).
Qed.

Lemma syncSubmissionGrade_stale_run assign offlineData warns courseId siteId st status tm :
  getSubmissionStatus env (trace st) (assign_id assign) (g_userid offlineData) siteId = Ok status ->
  feedbackTime status = Ok (Some tm) ->
  g_timemodified offlineData < tm ->
  syncSubmissionGrade env assign offlineData warns courseId siteId st
  = (Ok (addDiscardWarning env assign
           (Some (translate_instant env "addon.mod_assign.warningsubmissiongrademodified" []))
           warns),
     snd (deleteSubmissionGrade (assign_id assign) (g_userid offlineData) siteId
            (afterStatus assign (g_userid offlineData) siteId st))).
Proof.
  intros Hs Hf Hlt.
  unfold syncSubmissionGrade, andThen, call, settle. rewrite Hs, Hf.
  unfold gtOpt. apply Z.ltb_lt in Hlt. rewrite Hlt. reflexivity.
Qed.

Lemma stale_submission_quiet assign siteId s :
  staleSubmission env assign siteId s ->
  resolvesQuietly (submissionTask env assign siteId s).
Proof.
  intros Hstale result st.
  destruct (Hstale (trace st)) as (status & submission & Hs & Ho & Hne & Hdel).
  unfold submissionTask, andThen.
  rewrite (syncSubmission_stale_run _ _ (warnings result) _ _ Hs Ho Hne), Hdel.
  cbv zeta. unfold resolve. eexists _, _. split; [reflexivity |].
  split; [reflexivity |]. split.
  - eexists [_]. split; reflexivity.
  - split; reflexivity.
Qed.

Lemma stale_grade_quiet assign courseId siteId g :
  staleGrade env assign siteId g ->
  resolvesQuietly (gradeTask env assign courseId siteId g).
Proof.
  intros Hstale result st.
  destruct (Hstale (trace st)) as (status & tm & Hs & Hf & Hlt).
  unfold gradeTask, andThen.
  rewrite (syncSubmissionGrade_stale_run _ _ (warnings result) courseId _ _ Hs Hf Hlt).
  unfold resolve. eexists _, _. split; [reflexivity |].
  split; [reflexivity |]. split.
  - eexists [_]. split; reflexivity.
  - split; reflexivity.
Qed.

Lemma allShared_quiet tasks :
  Forall resolvesQuietly tasks ->
  forall result st, exists result' st',
    allShared tasks result st = (Ok tt, result', st')
    /\ (tasks <> [] \/ updated result = true -> updated result' = true)
    /\ noUploadSince st st'
    /\ onlineSame st st'.
Proof.
  induction 1 as [| task tasks Ht _ IH]; intros result st; simpl.
  - exists result, st. split; [reflexivity |]. split.
    + intros [Hne | Hup]; [congruence | exact Hup].
    + split; [apply noUploadSince_refl | split; reflexivity].
  - destruct (Ht result st) as (r1 & st1 & E & Hup1 & Hq1 & Ho1 & Hc1). rewrite E.
    destruct (IH r1 st1) as (r2 & st2 & E2 & Hup2 & Hq2 & Ho2 & Hc2).
    exists r2, st2. split; [exact E2 |]. split; [intros _; now apply Hup2; right |].
    split; [eapply noUploadSince_trans; eauto |].
    split; congruence.
Qed.

Lemma conflict_tasks_quiet assign courseId siteId subs grs :
  Forall (staleSubmission env assign siteId) subs ->
  Forall (staleGrade env assign siteId) grs ->
  Forall resolvesQuietly
    (map (submissionTask env assign siteId) subs ++ map (gradeTask env assign courseId siteId) grs).
Proof.
  intros Hs Hg. apply Forall_app. split; apply Forall_forall; intros t Hin;
    apply in_map_iff in Hin as [x [<- Hx]].
  - apply stale_submission_quiet. eapply Forall_forall in Hs; eauto.
  - apply stale_grade_quiet. eapply Forall_forall in Hg; eauto.
Qed.

(** A sync in which every pending edit is in conflict resolves, reports an
    update, invalidates the cached content and uploads nothing. *)
Lemma syncPromise_conflictOnly now assignId siteId st assign :
  conflictOnly env st assignId siteId assign ->
  exists result st',
    syncPromise env now assignId siteId st = (Ok result, st')
    /\ updated result = true
    /\ uploads (trace st') = uploads (trace st)
    /\ (exists l, trace st'
                  = (l ++ [EInvalidateContent (assign_cmid assign)
                             (firstCourseId (pendingSubmissions st assignId siteId)
                                (pendingGrades st assignId siteId)) siteId])%list)
    /\ currentSiteId st' = currentSiteId st.
Proof.
  intros (Hp & Hon & Ha & Hs & Hg).
  rewrite syncPromise_unfold. unfold reconcile.
  assert (isEmpty (pendingSubmissions st assignId siteId)
          && isEmpty (pendingGrades st assignId siteId) = false) as ->.
  { destruct Hp as [Hp | Hp].
    - destruct (pendingSubmissions st assignId siteId); [congruence | reflexivity].
    - destruct (pendingGrades st assignId siteId); [congruence | apply andb_false_r]. }
  unfold andThen, isOnline. cbv beta. rewrite Hon. cbn [negb]. cbv iota beta.
  unfold call at 1. cbv beta. rewrite Ha. cbv iota. unfold allTasks.
  match goal with |- context [allShared ?ts ?r ?s] =>
    destruct (@allShared_quiet ts
                (conflict_tasks_quiet _ Hs Hg) r s)
      as (r2 & st2 & E & Hup & Hq & Ho & Hc) end.
  rewrite E.
  assert (Hup2 : updated r2 = true).
  { apply Hup. left. destruct Hp as [Hp | Hp].
    - destruct (pendingSubmissions st assignId siteId); [congruence | discriminate].
    - destruct (pendingGrades st assignId siteId); [congruence |].
      intros Hnil. apply app_eq_nil in Hnil as [_ Hnil]. discriminate. }
  rewrite Hup2. unfold catch, resolve, call. cbv beta.
  assert (Hq' : uploads (trace st2) = uploads (trace st)).
  { apply noUploadSince_uploads in Hq. rewrite Hq. unfold uploads. simpl.
    rewrite filter_app. simpl. apply app_nil_r. }
  match goal with |- context [invalidateContent ?a ?b ?c ?d ?e] =>
    destruct (invalidateContent a b c d e) end;
    (eexists _, _; split; [reflexivity |]; split; [exact Hup2 |]; split;
     [ unfold withSyncTime, uploads in *; simpl; rewrite filter_app; simpl;
       rewrite app_nil_r; exact Hq'
     | split; [exists (trace st2); reflexivity | simpl; exact Hc ] ]).
Qed.

(** The batch driver on a site whose only assignment with pending data has
    nothing but conflicts. *)
Lemma syncAllAssignmentsFunc_conflictOnly now assignId siteId st assign :
  conflictOnly env st assignId (resolveSite st siteId) assign ->
  getAllAssigns siteId st = (Ok [assignId], st) ->
  isSyncNeeded (syncInterval env) now st assignId siteId = true ->
  isSyncing st assignId siteId = false ->
  isBlocked st assignId siteId = false ->
  exists result stf l,
    syncAllAssignmentsFunc env now siteId st = Some (Ok tt, stf)
    /\ updated result = true
    /\ trace stf = (l ++ [ETrigger AUTO_SYNCED assignId (warnings result) siteId])%list
    /\ uploads (trace stf) = uploads (trace st).
Proof.
  intros Hconf Hall Hneeded Hsyncing Hblocked.
  unfold syncAllAssignmentsFunc. rewrite Hall. simpl syncEach.
  unfold syncAssignIfNeeded. rewrite Hneeded.
  destruct (syncAssign_cases st assignId siteId)
    as [(pid & Hl & E) | [(Hl & Hb & E) | (Hl & _ & E)]].
  - unfold isSyncing in Hsyncing. rewrite Hl in Hsyncing. discriminate.
  - congruence.
  - rewrite E.
    match type of E with _ = (_, ?s) => set (st1 := s) in * end.
    assert (Hconf1 : conflictOnly env st1 assignId (resolveSite st siteId) assign)
      by exact Hconf.
    destruct (syncPromise_conflictOnly now Hconf1) as (result & st' & Hrun & Hup & Hq & _ & _).
    unfold awaitIfNeeded.
    rewrite await_ongoing by (simpl; now rewrite keyEqb_refl).
    unfold runOngoing. simpl fst. simpl snd. rewrite Hrun.
    unfold notifySynced. rewrite Hup.
    eexists result, _, _. split; [reflexivity |]. split; [exact Hup |].
    split; [reflexivity |].
    unfold uploads in *. simpl. rewrite filter_app. simpl. rewrite app_nil_r. exact Hq.
Qed.

(** A reconciliation that resolves sets the [updated] flag, and no
    reconciliation resets it. *)
Lemma reconciliation_updated task :
  Reconciliation env task ->
  forall result st result' st',
    task result st = (Ok result', st') -> updated result' = true.
Proof.
  intros [assign siteId s | assign courseId siteId g] result st result' st' H.
  - unfold submissionTask, andThen, resolve in H.
    destruct (syncSubmission _ _ _ _ _ _) as [[w | e] st1]; [| discriminate]. now inv H.
  - unfold gradeTask, andThen, resolve in H.
    destruct (syncSubmissionGrade _ _ _ _ _ _ _) as [[w | e] st1]; [| discriminate]. now inv H.
Qed.

Lemma allShared_keeps_updated tasks :
  Forall (Reconciliation env) tasks ->
  forall result st,
    updated result = true ->
    updated (snd (fst (allShared tasks result st))) = true.
Proof.
  induction 1 as [| task tasks Ht _ IH]; intros result st Hup; simpl; [exact Hup |].
  destruct (task result st) as [[r1 | e] st1] eqn:E.
  - apply IH. eapply reconciliation_updated; eauto.
  - specialize (IH result st1 Hup).
    destruct (allShared tasks result st1) as [[r0 r2] st2]. exact IH.
Qed.


(* ===================================================================== *)
(** ** The claims *)
(* ===================================================================== *)

(** C1 (amended). When the status of the submission can be fetched and the
    timestamp captured by a pending offline submission edit differs from the
    [timemodified] of the submission on the site, [syncSubmission] (given
    that the offline data of the plugins can be deleted and the translated
    reason is not the empty text) resolves, deletes the local submission
    edit and nothing else, makes no call besides the status request (so
    nothing is uploaded), and leaves the discard warning in the list of
    warnings: appended at the end when the same text is not in the list
    yet, and the list unchanged when it already is. *)
Theorem syncSubmission_discards_stale_edit
    assign offlineData warns siteId st status submission :
  getSubmissionStatus env (trace st) (assign_id assign) (s_userid offlineData) siteId
    = Ok status ->
  getSubmissionObjectFromAttempt env assign (st_lastattempt status) = Some submission ->
  sub_timemodified submission <> s_onlinetimemodified offlineData ->
  deletePlugins env assign submission (sub_plugins submission) offlineData siteId = Ok tt ->
  JS.truthy (translate_instant env "addon.mod_assign.warningsubmissionmodified" []) = true ->
  let message :=
    discardMessage env assign
      (translate_instant env "addon.mod_assign.warningsubmissionmodified" []) in
  exists warns' st',
    syncSubmission env assign offlineData warns siteId st = (Ok warns', st')
    /\ noSubmissionOf (resolveSite st siteId) (assign_id assign) (s_userid offlineData) st'
    /\ submissions st'
       = filter (fun s => negb (isSubmissionOf (resolveSite st siteId) (assign_id assign) s
                                && (s_userid s =? s_userid offlineData)))
           (submissions st)
    /\ grades st' = grades st
    /\ trace st'
       = (trace st ++ [EGetSubmissionStatus (assign_id assign) (s_userid offlineData) siteId])%list
    /\ uploads (trace st') = uploads (trace st)
    /\ In message warns'
    /\ (~ In message warns -> warns' = (warns ++ [message])%list)
    /\ (In message warns -> warns' = warns)
    /\ (NoDup warns -> NoDup warns').
Proof.
  intros Hs Ho Hne Hdel Htr message.
  rewrite (syncSubmission_stale_run _ _ warns _ _ Hs Ho Hne), Hdel. cbv zeta.
  eexists _, _. split; [reflexivity |].
  rewrite addDiscardWarning_truthy by exact Htr. fold message.
  simpl submissions. simpl grades. simpl trace.
  repeat split.
  - intros s Hin [H1 [H2 H3]].
    apply filter_In in Hin as [_ Hf].
    unfold isSubmissionOf in Hf.
    rewrite H1, H2, H3, String.eqb_refl, !Z.eqb_refl in Hf. discriminate.
  - unfold uploads. rewrite filter_app. simpl. apply app_nil_r.
  - destruct (JS.includes message warns) eqn:E.
    + now apply includes_In.
    + apply in_or_app. right. now left.
  - intros Hn. apply includes_false_not_In in Hn. now rewrite Hn.
  - intros Hi. apply includes_In in Hi. now rewrite Hi.
  - intros Hnd. destruct (JS.includes message warns) eqn:E; [exact Hnd |].
    apply NoDup_snoc; [exact Hnd | now apply includes_false_not_In].
Qed.

(** C8. The list of warnings of a sync result never holds the same text
    twice. A discard warning is appended only when its exact text is not in
    the list yet; every reconciliation, of a submission or of a grade,
    keeps a duplicate-free list duplicate-free; so does any sequence of
    reconciliations run on the shared result, whether they resolve or
    reject; and the result [syncAssign]'s promise chain resolves with is
    duplicate-free. *)
Theorem warnings_never_duplicated :
  (forall assign discardError warns,
      NoDup warns ->
      NoDup (addDiscardWarning env assign discardError warns)
      /\ (forall e, discardError = Some e -> In (discardMessage env assign e) warns ->
            addDiscardWarning env assign discardError warns = warns))
  /\ (forall assign offlineData warns siteId st warns' st',
        NoDup warns ->
        syncSubmission env assign offlineData warns siteId st = (Ok warns', st') ->
        NoDup warns')
  /\ (forall assign offlineData warns courseId siteId st warns' st',
        NoDup warns ->
        syncSubmissionGrade env assign offlineData warns courseId siteId st = (Ok warns', st') ->
        NoDup warns')
  /\ (forall tasks result st,
        Forall (Reconciliation env) tasks ->
        NoDup (warnings result) ->
        NoDup (warnings (snd (fst (allShared tasks result st)))))
  /\ (forall now assignId siteId st result st',
        syncPromise env now assignId siteId st = (Ok result, st') ->
        NoDup (warnings result)).
Proof.
  repeat split.
  - now apply addDiscardWarning_NoDup.
  - intros e -> Hin. unfold addDiscardWarning.
    destruct (JS.truthy e); [| reflexivity].
    apply includes_In in Hin. now rewrite Hin.
  - intros assign offlineData warns siteId st warns' st' Hnd H.
    apply syncSubmission_warnings in H as [de ->]. now apply addDiscardWarning_NoDup.
  - intros assign offlineData warns courseId siteId st warns' st' Hnd H.
    apply syncSubmissionGrade_warnings in H as [de ->]. now apply addDiscardWarning_NoDup.
  - intros tasks result st Ht Hnd. now apply allShared_NoDup.
  - intros now assignId siteId st result st' H. eapply syncPromise_NoDup; eauto.
Qed.


(** C4 (amended). For every assignment that has no sync in flight, is not
    blocked and has no pending offline submission and no pending offline
    grade, [syncAssign] resolves with [{warnings: [], updated: false}] and
    makes no call at all: neither [getAssignmentById], nor an upload, nor
    [invalidateContent]; the offline store is left as it was. *)
Theorem syncAssign_nothing_pending now st assignId siteId :
  isSyncing st assignId siteId = false ->
  isBlocked st assignId siteId = false ->
  pendingSubmissions st assignId siteId = [] ->
  pendingGrades st assignId siteId = [] ->
  exists p st1 st2,
    syncAssign env st assignId siteId = (p, st1)
    /\ await env now st1 p = Some (Ok {| warnings := []; updated := false |}, st2)
    /\ trace st2 = trace st
    /\ submissions st2 = submissions st /\ grades st2 = grades st.
Proof.
  intros Hidle Hb Hs Hg.
  destruct (syncAssign_cases st assignId siteId)
    as [(pid & Hl & E) | [(Hl & Hb' & E) | (Hl & _ & E)]].
  - unfold isSyncing in Hidle. rewrite Hl in Hidle. discriminate.
  - congruence.
  - match type of E with _ = (_, ?s) => set (st1 := s) in * end.
    assert (Hs1 : pendingSubmissions st1 assignId siteId = []) by exact Hs.
    assert (Hg1 : pendingGrades st1 assignId siteId = []) by exact Hg.
    destruct (runOngoing_nothing_pending now st1 assignId siteId (nextPromise st) Hs1 Hg1)
      as (st2 & Hrun & Ht & Hsub & Hgr & _).
    exists (POngoing (assignId, resolveSite st siteId) (nextPromise st)), st1, st2.
    split; [exact E |]. split.
    + rewrite await_ongoing; [exact (f_equal Some Hrun) |].
      simpl. now rewrite keyEqb_refl.
    + repeat split; assumption.
Qed.

(** C5. For every assignment with at least one pending offline edit, when
    the device reports offline the promise of [syncAssign] rejects, and the
    local state is as before: no submission edit and no grade edit is
    deleted, the sync time is not set, and no call is made. The call is one
    that finds no sync of the assignment in flight: it starts a sync, or is
    refused because the assignment is blocked. *)
Theorem syncAssign_offline_keeps_edits now st assignId siteId :
  isSyncing st assignId siteId = false ->
  online st = false ->
  pendingSubmissions st assignId siteId <> [] \/ pendingGrades st assignId siteId <> [] ->
  exists p st1 e st2,
    syncAssign env st assignId siteId = (p, st1)
    /\ await env now st1 p = Some (Rej e, st2)
    /\ submissions st2 = submissions st /\ grades st2 = grades st
    /\ syncTimes st2 = syncTimes st /\ trace st2 = trace st.
Proof.
  intros Hidle Hoff Hp.
  destruct (syncAssign_cases st assignId siteId)
    as [(pid & Hl & E) | [(Hl & Hb & E) | (Hl & _ & E)]].
  - unfold isSyncing in Hidle. rewrite Hl in Hidle. discriminate.
  - eexists _, st, _, st. split; [exact E |]. repeat split.
  - match type of E with _ = (_, ?s) => set (st1 := s) in * end.
    assert (Hoff1 : online st1 = false) by exact Hoff.
    assert (Hp1 : pendingSubmissions st1 assignId siteId <> []
                  \/ pendingGrades st1 assignId siteId <> []) by exact Hp.
    destruct (runOngoing_offline now st1 assignId siteId (nextPromise st) Hoff1 Hp1)
      as (st2 & Hrun & Ht & Hsub & Hgr & Hti).
    exists (POngoing (assignId, resolveSite st siteId) (nextPromise st)), st1, RejNull, st2.
    split; [exact E |]. split.
    + rewrite await_ongoing; [exact (f_equal Some Hrun) |].
      simpl. now rewrite keyEqb_refl.
    + repeat split; assumption.
Qed.

(** C10 (amended). When an assignment that has no sync in flight and is
    not blocked has no pending offline edit, [syncAssign] succeeds whether
    the device is online or offline, and it still sets the last-sync time
    on this path, so that a [syncAssignIfNeeded] that follows within the
    minimum interval starts no sync. *)
Theorem syncAssign_idle_sets_sync_time now st assignId siteId :
  isSyncing st assignId siteId = false ->
  isBlocked st assignId siteId = false ->
  pendingSubmissions st assignId siteId = [] ->
  pendingGrades st assignId siteId = [] ->
  exists p st1 st2,
    syncAssign env st assignId siteId = (p, st1)
    /\ await env now st1 p = Some (Ok {| warnings := []; updated := false |}, st2)
    /\ getSyncTime st2 assignId siteId = now
    /\ forall now2,
         now2 - now < syncInterval env ->
         syncAssignIfNeeded env now2 st2 assignId siteId = (None, st2).
Proof.
  intros Hidle Hb Hs Hg.
  assert (Hgate : forall st2, getSyncTime st2 assignId siteId = now ->
            forall now2, now2 - now < syncInterval env ->
              syncAssignIfNeeded env now2 st2 assignId siteId = (None, st2)).
  { intros st2 Ht now2 Hle. unfold syncAssignIfNeeded, isSyncNeeded. rewrite Ht.
    destruct (Z.ltb_spec (syncInterval env) (now2 - now)); [lia | reflexivity]. }
  destruct (syncAssign_cases st assignId siteId)
    as [(pid & Hl & E) | [(Hl & Hb' & E) | (Hl & _ & E)]].
  - unfold isSyncing in Hidle. rewrite Hl in Hidle. discriminate.
  - congruence.
  - match type of E with _ = (_, ?s) => set (st1 := s) in * end.
    assert (Hs1 : pendingSubmissions st1 assignId siteId = []) by exact Hs.
    assert (Hg1 : pendingGrades st1 assignId siteId = []) by exact Hg.
    destruct (runOngoing_nothing_pending now st1 assignId siteId (nextPromise st) Hs1 Hg1)
      as (st2 & Hrun & _ & _ & _ & _ & Htime).
    exists (POngoing (assignId, resolveSite st siteId) (nextPromise st)), st1, st2.
    split; [exact E |]. split.
    + rewrite await_ongoing; [exact (f_equal Some Hrun) |].
      simpl. now rewrite keyEqb_refl.
    + split; auto.
Qed.

(** C6. When a call of [syncAssign] for an assignment and a site has a sync
    in flight, a second call for the same pair (the site named the same way
    or not) issued before that sync settles returns the very promise of the
    first call and starts nothing. The promise chain then runs once: the
    first holder of the promise gets its result, the calls recorded are
    those of that one run, and the second holder gets the same result
    without any further effect. *)
Theorem concurrent_syncAssign_shares_promise now st assignId siteId siteId' k pid st1 :
  syncAssign env st assignId siteId = (POngoing k pid, st1) ->
  resolveSite st siteId' = resolveSite st siteId ->
  syncAssign env st1 assignId siteId' = (POngoing k pid, st1)
  /\ exists r st2,
       await env now st1 (POngoing k pid) = Some (r, st2)
       /\ (r, st2) = runOngoing env now k pid st1
       /\ trace st2 = trace (snd (syncPromise env now (fst k) (snd k) st1))
       /\ forall now', await env now' st2 (POngoing k pid) = Some (r, st2).
Proof.
  intros H Hsame. pose proof H as H0.
  apply syncAssign_ongoing in H as (Hk & Hl & _ & _ & _ & _ & _ & Hc & _).
  split.
  - now apply concurrent_calls_aux with (st := st) (siteId := siteId).
  - rewrite (await_ongoing _ _ _ Hl).
    destruct (runOngoing env now k pid st1) as [r st2] eqn:E.
    exists r, st2. split; [reflexivity |]. split; [reflexivity |].
    unfold runOngoing in E.
    destruct (syncPromise env now (fst k) (snd k) st1) as [r' st'] eqn:E'.
    inv E. split; [reflexivity |].
    intros now'. unfold await. simpl.
    now rewrite lookupKey_removeKey, Nat.eqb_refl.
Qed.

(** C7 (amended). [syncAssignIfNeeded] calls [syncAssign] only when the
    provider reports that a sync is needed, that is when the time elapsed
    since the last successful sync exceeds the minimum interval; otherwise
    it resolves with nothing and leaves the state as it is. Hence, of two
    calls issued within the minimum interval, at most one runs a sync that
    succeeds: once the sync of the first call has succeeded the second call
    starts none, and while the sync of the first call is still in flight
    the second call starts none either (it gets the same promise, or
    nothing). A sync that rejects sets no sync time: the call that follows
    it, however soon, finds that a sync is needed and calls [syncAssign]
    again. *)
Theorem syncAssignIfNeeded_gate :
  (forall now st assignId siteId,
      isSyncNeeded (syncInterval env) now st assignId siteId = false ->
      syncAssignIfNeeded env now st assignId siteId = (None, st)
      /\ awaitIfNeeded env now st None = Some (Ok None, st))
  /\ (forall now st assignId siteId,
        isSyncNeeded (syncInterval env) now st assignId siteId = true ->
        syncAssignIfNeeded env now st assignId siteId
        = (Some (fst (syncAssign env st assignId siteId)),
           snd (syncAssign env st assignId siteId)))
  /\ (forall now st assignId siteId,
        isSyncNeeded (syncInterval env) now st assignId siteId = true
        <-> syncInterval env < now - getSyncTime st assignId siteId)
  /\ (forall now1 done1 now2 st assignId siteId p st1 result st2,
        syncAssignIfNeeded env now1 st assignId siteId = (Some p, st1) ->
        await env done1 st1 p = Some (Ok result, st2) ->
        now1 <= done1 ->
        now2 - now1 < syncInterval env ->
        syncAssignIfNeeded env now2 st2 assignId siteId = (None, st2))
  /\ (forall now1 now2 st assignId siteId k pid st1,
        syncAssignIfNeeded env now1 st assignId siteId = (Some (POngoing k pid), st1) ->
        syncAssignIfNeeded env now2 st1 assignId siteId = (None, st1)
        \/ syncAssignIfNeeded env now2 st1 assignId siteId = (Some (POngoing k pid), st1))
  /\ (forall now1 done1 now2 st assignId siteId p st1 e st2,
        isSyncing st assignId siteId = false ->
        syncAssignIfNeeded env now1 st assignId siteId = (Some p, st1) ->
        await env done1 st1 p = Some (Rej e, st2) ->
        now1 <= now2 ->
        getSyncTime st2 assignId siteId = getSyncTime st assignId siteId
        /\ isSyncNeeded (syncInterval env) now2 st2 assignId siteId = true
        /\ syncAssignIfNeeded env now2 st2 assignId siteId
           = (Some (fst (syncAssign env st2 assignId siteId)),
              snd (syncAssign env st2 assignId siteId))).
Proof.
  split; [| split; [| split; [| split; [| split]]]].
  - intros now st assignId siteId H. unfold syncAssignIfNeeded. now rewrite H.
  - intros now st assignId siteId H. unfold syncAssignIfNeeded. rewrite H.
    now destruct (syncAssign env st assignId siteId).
  - intros now st assignId siteId. unfold isSyncNeeded. apply Z.ltb_lt.
  - intros now1 done1 now2 st assignId siteId p st1 result st2 Hcall Hawait Hle Hin.
    unfold syncAssignIfNeeded in Hcall.
    destruct (isSyncNeeded _ now1 st assignId siteId); [| discriminate].
    destruct (syncAssign env st assignId siteId) as [p' st1'] eqn:E. inv Hcall.
    destruct p as [e | k pid]; [simpl in Hawait; discriminate |].
    apply syncAssign_ongoing in E as (Hk & Hl & _ & _ & _ & _ & _ & Hc & _).
    rewrite (await_ongoing _ _ _ Hl) in Hawait. unfold runOngoing in Hawait.
    destruct (syncPromise env done1 (fst k) (snd k) st1) as [r st'] eqn:E'.
    inv Hawait. simpl in E'.
    apply syncPromise_resolved in E' as (Ht & Hc' & _).
    match goal with |- syncAssignIfNeeded _ _ ?s _ _ = _ => set (st2 := s) end.
    assert (Htime : getSyncTime st2 assignId siteId = done1).
    { rewrite <- Ht.
      unfold getSyncTime, resolveSite, st2. simpl currentSiteId. rewrite Hc', Hc.
      fold (resolveSite st siteId). fold (resolveSite st (resolveSite st siteId)).
      now rewrite resolveSite_idem. }
    unfold syncAssignIfNeeded, isSyncNeeded. rewrite Htime.
    destruct (Z.ltb_spec (syncInterval env) (now2 - done1)); [lia | reflexivity].
  - intros now1 now2 st assignId siteId k pid st1 Hcall.
    unfold syncAssignIfNeeded in Hcall.
    destruct (isSyncNeeded _ now1 st assignId siteId); [| discriminate].
    destruct (syncAssign env st assignId siteId) as [p' st1'] eqn:E. inv Hcall.
    pose proof (@concurrent_calls_aux _ _ _ siteId _ _ _ E eq_refl) as Hsecond.
    unfold syncAssignIfNeeded.
    destruct (isSyncNeeded _ now2 st1 assignId siteId); [right | left; reflexivity].
    now rewrite Hsecond.
  - intros now1 done1 now2 st assignId siteId p st1 e st2 Hidle Hcall Hawait Hle.
    unfold syncAssignIfNeeded in Hcall.
    destruct (isSyncNeeded _ now1 st assignId siteId) eqn:Hneed; [| discriminate].
    destruct (syncAssign env st assignId siteId) as [p' st1'] eqn:E. inv Hcall.
    assert (Hkeep : syncTimes st2 = syncTimes st /\ currentSiteId st2 = currentSiteId st).
    { destruct (syncAssign_cases st assignId siteId)
        as [(pid & Hl & E1) | [(Hl & Hb & E1) | (Hl & _ & E1)]];
        rewrite E1 in E; inv E.
      - unfold isSyncing in Hidle. rewrite Hl in Hidle. discriminate.
      - simpl in Hawait. inv Hawait. auto.
      - rewrite await_ongoing in Hawait by (simpl; now rewrite keyEqb_refl).
        unfold runOngoing in Hawait.
        match type of Hawait with context [syncPromise env done1 ?a ?s ?x] =>
          destruct (syncPromise env done1 a s x) as [r st'] eqn:E' end.
        inv Hawait. rewrite syncPromise_unfold in E'.
        destruct (reconcile _ _ _ _ _ _ _) as [[res | e'] s1] eqn:Er; inv E'.
        apply sameConfig_reconcile in Er as (Ht & _ & _ & Hc & _).
        simpl in *. auto. }
    destruct Hkeep as [Ht Hc].
    assert (Htime : getSyncTime st2 assignId siteId = getSyncTime st assignId siteId).
    { unfold getSyncTime, resolveSite. now rewrite Ht, Hc. }
    assert (Hneed2 : isSyncNeeded (syncInterval env) now2 st2 assignId siteId = true).
    { unfold isSyncNeeded in *. rewrite Htime.
      apply Z.ltb_lt in Hneed. apply Z.ltb_lt. lia. }
    split; [exact Htime |]. split; [exact Hneed2 |].
    unfold syncAssignIfNeeded. rewrite Hneed2.
    now destruct (syncAssign env st2 assignId siteId).
Qed.

(** X18. What the two reconciliations do when an upload fails, as coded.
    When the error is a web-service error, the reconciliation resolves (for
    a submission: given that the offline data of the plugins can be
    deleted), the local edit is deleted, and the list of warnings is the
    one [addDiscardWarning] makes from the text of the error, so the
    warning with that text is in the list whenever the error carries a
    non-empty text in [message], [error], [content] or [body]. When the
    error is any other failure, the promise rejects with it and the offline
    store is left as it was, so the edit is there for a retry. *)
Theorem upload_failure_policy :
  (forall assign offlineData warns siteId st status submission e st2,
      getSubmissionStatus env (trace st) (assign_id assign) (s_userid offlineData) siteId
        = Ok status ->
      getSubmissionObjectFromAttempt env assign (st_lastattempt status) = Some submission ->
      sub_timemodified submission = s_onlinetimemodified offlineData ->
      sendSubmission env assign submission offlineData siteId
        (afterStatus assign (s_userid offlineData) siteId st) = (Rej e, st2) ->
      (rejTruthy e && isWebServiceError env e = true ->
       deletePlugins env assign submission (sub_plugins submission) offlineData siteId = Ok tt ->
       exists st',
         syncSubmission env assign offlineData warns siteId st
           = (Ok (addDiscardWarning env assign (errorText e) warns), st')
         /\ noSubmissionOf (resolveSite st siteId) (assign_id assign) (s_userid offlineData) st'
         /\ forall text, errorText e = Some text -> JS.truthy text = true ->
              In (discardMessage env assign text)
                 (addDiscardWarning env assign (errorText e) warns))
      /\ (rejTruthy e && isWebServiceError env e = false ->
          syncSubmission env assign offlineData warns siteId st = (Rej e, st2)
          /\ submissions st2 = submissions st /\ grades st2 = grades st))
  /\ (forall assign offlineData warns courseId siteId st status t d st3 e,
        getSubmissionStatus env (trace st) (assign_id assign) (g_userid offlineData) siteId
          = Ok status ->
        feedbackTime status = Ok t ->
        gtOpt t (g_timemodified offlineData) = false ->
        checkGradebook env assign offlineData courseId siteId
          (afterStatus assign (g_userid offlineData) siteId st) = (Ok d, st3) ->
        submitGradingFormOnline env (trace st3) (gradingForm assign d) siteId = Rej e ->
        (rejTruthy e && isWebServiceError env e = true ->
         exists st',
           syncSubmissionGrade env assign offlineData warns courseId siteId st
             = (Ok (addDiscardWarning env assign (errorText e) warns), st')
           /\ noGradeOf (resolveSite st siteId) (assign_id assign) (g_userid offlineData) st'
           /\ forall text, errorText e = Some text -> JS.truthy text = true ->
                In (discardMessage env assign text)
                   (addDiscardWarning env assign (errorText e) warns))
        /\ (rejTruthy e && isWebServiceError env e = false ->
            exists st',
              syncSubmissionGrade env assign offlineData warns courseId siteId st = (Rej e, st')
              /\ submissions st' = submissions st /\ grades st' = grades st)).
Proof.
  split.
  - intros assign offlineData warns siteId st status submission e st2 Hs Ho Heq Hsend.
    pose proof (onlyTraced_sendSubmission _ _ _ _ _ Hsend) as Hframe.
    assert (Hsite : resolveSite st2 siteId = resolveSite st siteId).
    { rewrite (onlyTraced_resolveSite siteId Hframe). reflexivity. }
    destruct Hframe as [(Hsub & Hgr & _) _].
    rewrite (syncSubmission_current_run _ _ warns _ _ Hs Ho Heq).
    rewrite (uploadSubmission_failure _ _ _ _ _ Hsend).
    split.
    + intros Hws Hdel. rewrite Hws, Hdel. eexists. split; [reflexivity |]. split.
      * rewrite <- Hsite. apply noSubmissionOf_deleted.
      * intros text Ht Htruthy. rewrite Ht. now apply addDiscardWarning_In.
    + intros Hws. rewrite Hws. repeat split; assumption.
  - intros assign offlineData warns courseId siteId st status t d st3 e Hs Hf Hgt Hc Hu.
    pose proof (onlyTraced_checkGradebook _ _ _ _ _ Hc) as Hframe.
    assert (Hsite : resolveSite st3 siteId = resolveSite st siteId).
    { rewrite (onlyTraced_resolveSite siteId Hframe). reflexivity. }
    destruct Hframe as [(Hsub & Hgr & _) _].
    rewrite (syncSubmissionGrade_current_run _ _ warns _ _ _ Hs Hf Hgt).
    rewrite (uploadGrade_failure _ _ _ _ _ Hc Hu).
    split.
    + intros Hws. rewrite Hws. eexists. split; [reflexivity |]. split.
      * rewrite <- Hsite.
        exact (@noGradeOf_deleted (assign_id assign) (g_userid offlineData) siteId
                 (logEvent (ESubmitGradingFormOnline (gradingForm assign d) siteId) st3)).
      * intros text Ht Htruthy. rewrite Ht. now apply addDiscardWarning_In.
    + intros Hws. rewrite Hws. eexists. split; [reflexivity |]. split; assumption.
Qed.

(** C3 (amended). For a pending offline grade edit that passes the check
    against the feedback on the site, when the gradebook entries and the
    grade information of the module are fetched and the loop over the
    entries raises no exception, [syncSubmissionGrade] makes exactly one
    upload, the grading form. Its grade is the value the last entry that
    overrides the grade stands for, an entry overriding the grade when its
    graded date is at or after the [timemodified] of the edit and it has
    neither an outcome id nor a scale id; with no such entry the grade is
    the one stored offline. The value an entry stands for is what
    [getSelectedScaleId] returns for [gradeformatted] when the module has a
    scale, and [parseFloat(gradeformatted) || null] otherwise. *)
Theorem gradebook_overrides_offline_grade
    assign offlineData warns courseId siteId st status t items gradeInfo d :
  let userId := g_userid offlineData in
  let st1 := afterStatus assign userId siteId st in
  let st2 := logEvent (EGetGradeModuleItems courseId (assign_cmid assign) userId siteId) st1 in
  getSubmissionStatus env (trace st) (assign_id assign) userId siteId = Ok status ->
  feedbackTime status = Ok t ->
  gtOpt t (g_timemodified offlineData) = false ->
  getGradeModuleItems env (trace st1) courseId (assign_cmid assign) userId siteId = Ok items ->
  getModuleBasicGradeInfo env (trace st2) (assign_cmid assign) siteId = Ok gradeInfo ->
  overrideAll env gradeInfo items offlineData = Ok d ->
  exists r st' form,
    syncSubmissionGrade env assign offlineData warns courseId siteId st = (r, st')
    /\ uploads (trace st') = (uploads (trace st) ++ [ESubmitGradingFormOnline form siteId])%list
    /\ form = gradingForm assign d
    /\ (forall before grade after,
           items = (before ++ grade :: after)%list ->
           overridesGrade (g_timemodified offlineData) grade = true ->
           Forall (fun g => overridesGrade (g_timemodified offlineData) g = false) after ->
           gf_grade form = gradebookValue env gradeInfo grade
           /\ (forall info scale,
                  gradeInfo = Some info -> gi_scale info = Some scale ->
                  JS.truthy scale = true ->
                  gf_grade form
                  = GNum (inject_Z (getSelectedScaleId scale (gr_gradeformatted grade))))
           /\ ((gradeInfo = None
                \/ exists info, gradeInfo = Some info /\ JS.truthyOpt (gi_scale info) = false) ->
               gf_grade form = parseGrade env (gr_gradeformatted grade)))
    /\ (Forall (fun g => overridesGrade (g_timemodified offlineData) g = false) items ->
        gf_grade form = g_grade offlineData).
Proof.
  intros userId st1 st2. subst userId st1 st2. intros Hs Hf Hgt Hitems Hinfo Hover.
  destruct (overrideAll_grade _ _ _ Hover) as (_ & Hlast & Hnone).
  rewrite (syncSubmissionGrade_current_run _ _ warns _ _ _ Hs Hf Hgt).
  unfold uploadGrade, andThen.
  rewrite (checkGradebook_run _ _ _ _ _ Hitems Hinfo), Hover.
  match goal with |- context [catch ?p ?h ?s] =>
    destruct (catch p h s) as [r0 st4] eqn:E end.
  apply catch_sendGrade_uploads in E.
  assert (Hup : uploads (trace st4)
                = (uploads (trace st) ++ [ESubmitGradingFormOnline (gradingForm assign d) siteId])%list).
  { rewrite E. unfold uploads, afterStatus. simpl. rewrite !filter_app. simpl.
    now rewrite !app_nil_r. }
  assert (Hvalue : forall before grade after,
             items = (before ++ grade :: after)%list ->
             overridesGrade (g_timemodified offlineData) grade = true ->
             Forall (fun g => overridesGrade (g_timemodified offlineData) g = false) after ->
             gf_grade (gradingForm assign d) = gradebookValue env gradeInfo grade
             /\ (forall info scale,
                    gradeInfo = Some info -> gi_scale info = Some scale ->
                    JS.truthy scale = true ->
                    gf_grade (gradingForm assign d)
                    = GNum (inject_Z (getSelectedScaleId scale (gr_gradeformatted grade))))
             /\ ((gradeInfo = None
                  \/ exists info, gradeInfo = Some info /\ JS.truthyOpt (gi_scale info) = false) ->
                 gf_grade (gradingForm assign d) = parseGrade env (gr_gradeformatted grade))).
  { intros before grade after E1 Hq Hafter.
    pose proof (Hlast before grade after E1 Hq Hafter) as Hg. simpl gf_grade.
    split; [exact Hg |]. split.
    - intros info scale -> Hsc Htr. rewrite Hg. unfold gradebookValue. now rewrite Hsc, Htr.
    - intros [-> | (info & -> & Hfalse)]; rewrite Hg; unfold gradebookValue; [reflexivity |].
      destruct (gi_scale info) as [scale |]; [| reflexivity].
      simpl in Hfalse. now rewrite Hfalse. }
  destruct r0 as [de | e].
  - eexists _, _, (gradingForm assign d). split; [reflexivity |].
    split; [exact Hup |]. split; [reflexivity |]. split; [exact Hvalue | exact Hnone].
  - eexists _, _, (gradingForm assign d). split; [reflexivity |].
    split; [exact Hup |]. split; [reflexivity |]. split; [exact Hvalue | exact Hnone].
Qed.

(** C9. [syncAssign] sets the [updated] flag of the result as soon as a
    pending edit reaches a terminal decision, whether or not anything was
    uploaded: every reconciliation that resolves sets the flag, none resets
    it, and a sync that had at least one pending edit and resolves reports
    the flag set and has called [invalidateContent] last. In particular a sync in which every
    pending edit is discarded because of a conflict resolves with
    [updated: true] and calls [invalidateContent] although it uploads
    nothing; and the batch driver, on a site where this assignment is the
    one with pending data and a sync is needed, then fires the
    [AUTO_SYNCED] event, still without any upload. *)
Theorem discard_counts_as_update :
  (forall task result st result' st',
      Reconciliation env task ->
      task result st = (Ok result', st') ->
      updated result' = true)
  /\ (forall tasks result st,
        Forall (Reconciliation env) tasks ->
        updated result = true ->
        updated (snd (fst (allShared tasks result st))) = true)
  /\ (forall now assignId siteId st result st',
      syncPromise env now assignId siteId st = (Ok result, st') ->
      pendingSubmissions st assignId siteId <> [] \/ pendingGrades st assignId siteId <> [] ->
      updated result = true
      /\ exists assign l,
           trace st'
           = (l ++ [EInvalidateContent (assign_cmid assign)
                      (firstCourseId (pendingSubmissions st assignId siteId)
                         (pendingGrades st assignId siteId)) siteId])%list)
  /\ (forall now assignId siteId st assign,
        conflictOnly env st assignId siteId assign ->
        exists result st',
          syncPromise env now assignId siteId st = (Ok result, st')
          /\ updated result = true
          /\ uploads (trace st') = uploads (trace st)
          /\ exists l,
               trace st'
               = (l ++ [EInvalidateContent (assign_cmid assign)
                          (firstCourseId (pendingSubmissions st assignId siteId)
                             (pendingGrades st assignId siteId)) siteId])%list)
  /\ (forall now assignId siteId st assign,
        conflictOnly env st assignId (resolveSite st siteId) assign ->
        getAllAssigns siteId st = (Ok [assignId], st) ->
        isSyncNeeded (syncInterval env) now st assignId siteId = true ->
        isSyncing st assignId siteId = false ->
        isBlocked st assignId siteId = false ->
        exists result stf l,
          syncAllAssignmentsFunc env now siteId st = Some (Ok tt, stf)
          /\ updated result = true
          /\ trace stf = (l ++ [ETrigger AUTO_SYNCED assignId (warnings result) siteId])%list
          /\ uploads (trace stf) = uploads (trace st)).
Proof.
  split; [| split; [| split; [| split]]].
  - intros task result st result' st' Ht H. eapply reconciliation_updated; eauto.
  - intros tasks result st Ht Hup. now apply allShared_keeps_updated.
  - intros now assignId siteId st result st' H Hp.
    rewrite syncPromise_unfold in H.
    destruct (reconcile _ _ _ _ _ _ _) as [[res | e] st1] eqn:E; [| discriminate].
    inv H. destruct (@reconcile_resolved _ _ _ _ _ _ _ E Hp) as (Hup & assign & l & _ & Ht).
    split; [exact Hup |]. exists assign, l. exact Ht.
  - intros now assignId siteId st assign Hconf.
    destruct (syncPromise_conflictOnly now Hconf) as (result & st' & Hrun & Hup & Hq & Hl & _).
    exists result, st'. auto.
  - intros now assignId siteId st assign.
    apply syncAllAssignmentsFunc_conflictOnly.
Qed.
End Properties.

(* ===================================================================== *)
(** ** Instances of the claims on concrete scenarios *)
(* ===================================================================== *)

Import Scenario.

(** The amended C1 at the first of two stale edits. *)
Lemma syncSubmission_discards_stale_edit_witness :
  exists warns' st',
    syncSubmission siteAt150 essay (submissionEdit 1 100) [] site
      ScenarioStale.twoStaleEdits = (Ok warns', st')
    /\ noSubmissionOf site 7 1 st'
    /\ warns' = [modifiedWarning].
Proof.
  destruct (@syncSubmission_discards_stale_edit siteAt150 essay (submissionEdit 1 100)
              [] site ScenarioStale.twoStaleEdits (statusOf 150 None) (serverSubmission 150))
    as (warns' & st' & Hrun & Hgone & _ & _ & _ & _ & _ & Hnew & _).
  - reflexivity.
  - reflexivity.
  - simpl. lia.
  - reflexivity.
  - reflexivity.
  - exists warns', st'. split; [exact Hrun |]. split; [exact Hgone |].
    apply Hnew. simpl. tauto.
Defined.

(** C1 as stated fails: the edit of the second user is stale as well, it is
    deleted and nothing is uploaded, but no warning is added, because the
    same text is already in the list. A whole sync of the two stale edits
    ends with one warning. *)
Lemma stale_edit_adds_no_second_warning :
  getSubmissionStatus siteAt150 [] 7 2 site = Ok (statusOf 150 None)
  /\ sub_timemodified (serverSubmission 150) <> s_onlinetimemodified (submissionEdit 2 100)
  /\ (exists st',
        syncSubmission siteAt150 essay (submissionEdit 2 100) [modifiedWarning] site
          ScenarioStale.twoStaleEdits = (Ok [modifiedWarning], st')
        /\ noSubmissionOf site 7 2 st')
  /\ (exists st',
        syncPromise siteAt150 1000 7 site ScenarioStale.twoStaleEdits
        = (Ok {| warnings := [modifiedWarning]; updated := true |}, st')
        /\ submissions st' = []).
Proof.
  split; [reflexivity |]. split; [simpl; lia |]. split.
  - eexists. split; [vm_compute; reflexivity |].
    intros s Hin. simpl in Hin. destruct Hin as [<- | []]. simpl. intros [_ [_ H]]. lia.
  - eexists. split; vm_compute; reflexivity.
Qed.

(** C8 on the sync of two stale edits. *)
Lemma warnings_never_duplicated_witness :
  NoDup (warnings {| warnings := [modifiedWarning]; updated := true |}).
Proof.
  refine (proj2 (proj2 (proj2 (proj2 (warnings_never_duplicated siteAt150))))
            1000 7 site ScenarioStale.twoStaleEdits _ _ _).
  vm_compute. reflexivity.
Defined.

(** The amended C4 on an idle assignment. *)
Lemma syncAssign_nothing_pending_witness :
  exists p st1 st2,
    syncAssign siteAt150 ScenarioGuards.idleOffline 7 site = (p, st1)
    /\ await siteAt150 1000 st1 p = Some (Ok {| warnings := []; updated := false |}, st2)
    /\ trace st2 = trace ScenarioGuards.idleOffline
    /\ submissions st2 = submissions ScenarioGuards.idleOffline
    /\ grades st2 = grades ScenarioGuards.idleOffline.
Proof.
  apply (@syncAssign_nothing_pending siteAt150 1000 ScenarioGuards.idleOffline 7 site);
    reflexivity.
Defined.

(** C4 as stated fails: an assignment without pending edits that is blocked
    is not synced, the promise of [syncAssign] rejects. *)
Lemma blocked_assignment_is_rejected :
  pendingSubmissions ScenarioGuards.blockedIdleOnline 7 site = []
  /\ pendingGrades ScenarioGuards.blockedIdleOnline 7 site = []
  /\ syncAssign siteAt150 ScenarioGuards.blockedIdleOnline 7 site
     = (PRejected (RejText "core.errorsyncblocked|Assignment"),
        ScenarioGuards.blockedIdleOnline)
  /\ await siteAt150 1000 ScenarioGuards.blockedIdleOnline
       (PRejected (RejText "core.errorsyncblocked|Assignment"))
     = Some (Rej (RejText "core.errorsyncblocked|Assignment"),
             ScenarioGuards.blockedIdleOnline).
Proof. repeat split. Qed.

(** C5 on a device that is offline with one pending submission edit. *)
Lemma syncAssign_offline_keeps_edits_witness :
  exists p st1 e st2,
    syncAssign siteAt150 ScenarioGuards.pendingOffline 7 site = (p, st1)
    /\ await siteAt150 1000 st1 p = Some (Rej e, st2)
    /\ submissions st2 = [submissionEdit 1 150]
    /\ grades st2 = []
    /\ syncTimes st2 = []
    /\ trace st2 = [].
Proof.
  apply (@syncAssign_offline_keeps_edits siteAt150 1000 ScenarioGuards.pendingOffline 7 site).
  - reflexivity.
  - reflexivity.
  - left. discriminate.
Defined.

(** C6 on two calls for an assignment with one pending submission edit, the
    first naming the site and the second leaving it out. *)
Lemma concurrent_syncAssign_shares_promise_witness :
  let st1 := snd (syncAssign siteAt150 ScenarioGuards.pendingOnline 7 site) in
  syncAssign siteAt150 st1 7 "" = (POngoing (7, site) 0, st1)
  /\ exists r st2,
       await siteAt150 1000 st1 (POngoing (7, site) 0) = Some (r, st2)
       /\ (r, st2) = runOngoing siteAt150 1000 (7, site) 0 st1
       /\ trace st2 = trace (snd (syncPromise siteAt150 1000 7 site st1))
       /\ forall now', await siteAt150 now' st2 (POngoing (7, site) 0) = Some (r, st2).
Proof.
  apply (@concurrent_syncAssign_shares_promise siteAt150 1000
           ScenarioGuards.pendingOnline 7 site "" (7, site) 0);
    reflexivity.
Defined.

(** The amended C7 on two calls 200 seconds apart, with an interval of 300
    seconds: the first call syncs, the second does not. *)
Lemma syncAssignIfNeeded_gate_witness :
  let st1 := snd (syncAssignIfNeeded siteAt150 1000000 ScenarioGuards.pendingOnline 7 site) in
  let st2 := snd (runOngoing siteAt150 1000005 (7, site) 0 st1) in
  syncAssignIfNeeded siteAt150 1200000 st2 7 site = (None, st2).
Proof.
  refine (proj1 (proj2 (proj2 (proj2 (syncAssignIfNeeded_gate siteAt150))))
            1000000 1000005 1200000 ScenarioGuards.pendingOnline 7 site
            (POngoing (7, site) 0) _ {| warnings := []; updated := true |} _ _ _ _ _).
  - reflexivity.
  - vm_compute. reflexivity.
  - lia.
  - simpl. lia.
Defined.

(** C7 as stated fails: the first call starts a sync that saves the
    submission and then loses the grading form to a network error, so it
    rejects and sets no sync time; a second call 10 milliseconds later,
    well within the minimum interval of 300 seconds, starts a second sync
    (another promise), which uploads the grading form again. *)
Lemma rejected_sync_is_started_again :
  400010 - 400000 < syncInterval (ScenarioUpload.gradingRejected networkError)
  /\ exists st1 st2 st3 st4,
       syncAssignIfNeeded (ScenarioUpload.gradingRejected networkError) 400000
         ScenarioUpload.pending 7 site
       = (Some (POngoing (7, site) 0), st1)
       /\ await (ScenarioUpload.gradingRejected networkError) 400005 st1 (POngoing (7, site) 0)
          = Some (Rej networkError, st2)
       /\ getSyncTime st2 7 site = 0
       /\ syncAssignIfNeeded (ScenarioUpload.gradingRejected networkError) 400010 st2 7 site
          = (Some (POngoing (7, site) 1), st3)
       /\ await (ScenarioUpload.gradingRejected networkError) 400015 st3 (POngoing (7, site) 1)
          = Some (Rej networkError, st4)
       /\ uploads (trace st4)
          = [ESaveSubmissionOnline 7 [("onlinetext_editor", "draft")] site;
             ESubmitGradingFormOnline (gradingForm essay (gradeEdit 2 100 (GNum (3 # 1)))) site;
             ESubmitGradingFormOnline (gradingForm essay (gradeEdit 2 100 (GNum (3 # 1)))) site].
Proof.
  split; [reflexivity |].
  eexists _, _, _, _.
  split; [reflexivity |]. split; [vm_compute; reflexivity |].
  split; [reflexivity |]. split; [vm_compute; reflexivity |].
  split; vm_compute; reflexivity.
Qed.

(** The amended C10 on an idle assignment, the device being offline. *)
Lemma syncAssign_idle_sets_sync_time_witness :
  exists p st1 st2,
    syncAssign siteAt150 ScenarioGuards.idleOffline 7 site = (p, st1)
    /\ await siteAt150 1000 st1 p = Some (Ok {| warnings := []; updated := false |}, st2)
    /\ getSyncTime st2 7 site = 1000
    /\ forall now2,
         now2 - 1000 < syncInterval siteAt150 ->
         syncAssignIfNeeded siteAt150 now2 st2 7 site = (None, st2).
Proof.
  apply (@syncAssign_idle_sets_sync_time siteAt150 1000 ScenarioGuards.idleOffline 7 site);
    reflexivity.
Defined.

(** C10 as stated fails: for an assignment without pending edits that is
    blocked, with the device offline, the promise of [syncAssign] rejects,
    the last-sync time is not set, and a [syncAssignIfNeeded] that follows
    at once calls [syncAssign] again. *)
Lemma blocked_idle_assignment_sets_no_sync_time :
  pendingSubmissions ScenarioGuards.blockedIdle 7 site = []
  /\ pendingGrades ScenarioGuards.blockedIdle 7 site = []
  /\ online ScenarioGuards.blockedIdle = false
  /\ (exists e,
        syncAssign siteAt150 ScenarioGuards.blockedIdle 7 site
        = (PRejected e, ScenarioGuards.blockedIdle)
        /\ await siteAt150 1000000 ScenarioGuards.blockedIdle (PRejected e)
           = Some (Rej e, ScenarioGuards.blockedIdle)
        /\ getSyncTime ScenarioGuards.blockedIdle 7 site = 0
        /\ syncAssignIfNeeded siteAt150 1000001 ScenarioGuards.blockedIdle 7 site
           = (Some (PRejected e), ScenarioGuards.blockedIdle)).
Proof.
  repeat split. eexists. repeat split.
Qed.

(** X18 on the saving of a submission rejected by the web service with a
    text, and on a grading form lost to a network error. *)
Lemma upload_failure_policy_witness :
  (exists st',
      syncSubmission (ScenarioUpload.saveRejected (wsError (Some "Submission closed")))
        essay (submissionEdit 1 150) [] site ScenarioUpload.pending
      = (Ok ["core.warningofflinedatadeleted|Assignment|Essay|Submission closed"], st')
      /\ noSubmissionOf site 7 1 st')
  /\ (exists st',
        syncSubmissionGrade (ScenarioUpload.gradingRejected networkError)
          essay (gradeEdit 2 100 (GNum (3 # 1))) [] 3 site ScenarioUpload.pending
        = (Rej networkError, st')
        /\ submissions st' = submissions ScenarioUpload.pending
        /\ grades st' = grades ScenarioUpload.pending).
Proof.
  split.
  - destruct (proj1 (upload_failure_policy
                       (ScenarioUpload.saveRejected (wsError (Some "Submission closed"))))
                essay (submissionEdit 1 150) [] site ScenarioUpload.pending
                (statusOf 150 None) (serverSubmission 150)
                (wsError (Some "Submission closed"))
                (logEvent (ESaveSubmissionOnline 7 [("onlinetext_editor", "draft")] site)
                   (afterStatus essay 1 site ScenarioUpload.pending))
                eq_refl eq_refl eq_refl eq_refl) as [Hws _].
    destruct (Hws eq_refl eq_refl) as (st' & Hrun & Hgone & _).
    exists st'. split; [exact Hrun | exact Hgone].
  - destruct (proj2 (upload_failure_policy (ScenarioUpload.gradingRejected networkError))
                essay (gradeEdit 2 100 (GNum (3 # 1))) [] 3 site ScenarioUpload.pending
                (statusOf 150 None) None (gradeEdit 2 100 (GNum (3 # 1)))
                (logEvent (EGetModuleBasicGradeInfo 70 site)
                   (logEvent (EGetGradeModuleItems 3 70 2 site)
                      (afterStatus essay 2 site ScenarioUpload.pending)))
                networkError
                eq_refl eq_refl eq_refl eq_refl eq_refl) as [_ Hnet].
    exact (Hnet eq_refl).
Defined.

(** C2. The code at the failing input: the web service rejects the saving
    of a submission, or the grading form, with an error that carries no
    text. The edit is deleted and the reconciliation resolves, as for every
    web-service error, but no warning is recorded: the list of warnings is
    still empty. With a text in the error (["Submission closed"]) the same
    run records the warning. *)
Lemma web_service_error_without_text_leaves_no_warning :
  isWebServiceError (ScenarioUpload.saveRejected (wsError None)) (wsError None) = true
  /\ sendSubmission (ScenarioUpload.saveRejected (wsError None)) essay (serverSubmission 150)
       (submissionEdit 1 150) site (afterStatus essay 1 site ScenarioUpload.pending)
     = (Rej (wsError None),
        logEvent (ESaveSubmissionOnline 7 [("onlinetext_editor", "draft")] site)
          (afterStatus essay 1 site ScenarioUpload.pending))
  /\ (exists st',
        syncSubmission (ScenarioUpload.saveRejected (wsError None))
          essay (submissionEdit 1 150) [] site ScenarioUpload.pending
        = (Ok [], st')
        /\ submissions st' = [])
  /\ (exists st',
        syncSubmissionGrade (ScenarioUpload.gradingRejected (wsError None))
          essay (gradeEdit 2 100 (GNum (3 # 1))) [] 3 site ScenarioUpload.pending
        = (Ok [], st')
        /\ grades st' = [])
  /\ (exists st',
        syncSubmission (ScenarioUpload.saveRejected (wsError (Some "Submission closed")))
          essay (submissionEdit 1 150) [] site ScenarioUpload.pending
        = (Ok ["core.warningofflinedatadeleted|Assignment|Essay|Submission closed"], st')
        /\ submissions st' = []).
Proof.
  split; [reflexivity |]. split; [reflexivity |].
  split; [| split]; eexists; split; reflexivity.
Qed.

(** The amended C3: the gradebook holds a grade of 9 given at time 200, after
    the offline grade of 3 given at time 100; the form uploads 9. *)
Lemma gradebook_overrides_offline_grade_witness :
  exists r st' form,
    syncSubmissionGrade
      (ScenarioGradebook.gradebook [ScenarioGradebook.entry None None "9" 200])
      essay ScenarioGradebook.offlineGrade [] 3 site ScenarioGradebook.graded = (r, st')
    /\ uploads (trace st') = [ESubmitGradingFormOnline form site]
    /\ gf_grade form = GNum (9 # 1).
Proof.
  destruct (@gradebook_overrides_offline_grade
              (ScenarioGradebook.gradebook [ScenarioGradebook.entry None None "9" 200])
              essay ScenarioGradebook.offlineGrade [] 3 site ScenarioGradebook.graded
              (statusOf 150 None) None
              [ScenarioGradebook.entry None None "9" 200]
              (Some {| gi_scale := None; gi_outcomes := Some [] |})
              (setGrade (GNum (9 # 1)) ScenarioGradebook.offlineGrade)
              eq_refl eq_refl eq_refl eq_refl eq_refl eq_refl)
    as (r & st' & form & Hrun & Hup & _ & Hlast & _).
  exists r, st', form. split; [exact Hrun |]. split; [exact Hup |].
  destruct (Hlast [] (ScenarioGradebook.entry None None "9" 200) [] eq_refl eq_refl
              (Forall_nil _)) as [Hv _].
  exact Hv.
Defined.

(** C3 as stated fails. An entry of the gradebook that belongs to an outcome
    and is dated after the offline edit leaves the offline grade as it is:
    the form uploads 3, not 9. And of two entries dated after the edit the
    last one wins: the form uploads 4.5, not the 9 of the first. *)
Lemma newer_gradebook_entry_not_always_uploaded :
  (g_timemodified ScenarioGradebook.offlineGrade
     < gr_gradedategraded (ScenarioGradebook.entry (Some 5) None "9" 200)
   /\ parse "9" = Some (9 # 1)
   /\ exists r st',
        syncSubmissionGrade
          (ScenarioGradebook.gradebook [ScenarioGradebook.entry (Some 5) None "9" 200])
          essay ScenarioGradebook.offlineGrade [] 3 site ScenarioGradebook.graded = (r, st')
        /\ uploads (trace st')
           = [ESubmitGradingFormOnline
                (gradingForm essay ScenarioGradebook.offlineGrade) site]
        /\ gf_grade (gradingForm essay ScenarioGradebook.offlineGrade) = GNum (3 # 1))
  /\ (g_timemodified ScenarioGradebook.offlineGrade
        < gr_gradedategraded (ScenarioGradebook.entry None None "9" 200)
      /\ exists r st',
           syncSubmissionGrade
             (ScenarioGradebook.gradebook
                [ScenarioGradebook.entry None None "9" 200;
                 ScenarioGradebook.entry None None "4.5" 300])
             essay ScenarioGradebook.offlineGrade [] 3 site ScenarioGradebook.graded = (r, st')
           /\ uploads (trace st')
              = [ESubmitGradingFormOnline
                   (gradingForm essay
                      (setGrade (GNum (9 # 2)) ScenarioGradebook.offlineGrade)) site]).
Proof.
  split.
  - split; [reflexivity |]. split; [reflexivity |].
    eexists _, _. split; [reflexivity |]. split; reflexivity.
  - split; [reflexivity |].
    eexists _, _. split; reflexivity.
Qed.

(** C9 on the sync of two stale submission edits: nothing is uploaded, and
    the batch driver fires the event. *)
Lemma discard_counts_as_update_witness :
  exists result stf l,
    syncAllAssignmentsFunc siteAt150 1000000 site ScenarioStale.twoStaleEdits = Some (Ok tt, stf)
    /\ updated result = true
    /\ trace stf = (l ++ [ETrigger AUTO_SYNCED 7 (warnings result) site])%list
    /\ uploads (trace stf) = [].
Proof.
  apply (proj2 (proj2 (proj2 (proj2 (discard_counts_as_update siteAt150))))
           1000000 7 site ScenarioStale.twoStaleEdits essay).
  - split; [left; discriminate |]. split; [reflexivity |]. split; [reflexivity |].
    split.
    + repeat constructor; intros t; exists (statusOf 150 None), (serverSubmission 150);
        (split; [reflexivity |]); (split; [reflexivity |]);
        (split; [simpl; lia | reflexivity]).
    + constructor.
  - reflexivity.
  - reflexivity.
  - reflexivity.
  - reflexivity.
Defined.

(** The index returned by [getSelectedScaleId] is a position in the text of
    the options, not in the list of options. *)
Example getSelectedScaleId_good :
  getSelectedScaleId "Bad, Good, Excellent" "Good" = 5.
Proof. reflexivity. Qed.

(* ===================================================================== *)
(** ** Further properties of the provider *)
(* ===================================================================== *)

Ltac inv H := inversion H; subst; clear H.

(** *** [getSelectedScaleId] *)

Lemma prefix_occurs (needle hay : string) :
  String.prefix needle hay = true <-> occursAfter "" needle hay.
Proof.
  unfold occursAfter. simpl. revert hay.
  induction needle as [| c needle IH]; intros hay; simpl.
  - split; [intros _; now exists hay | intros _; now destruct hay].
  - destruct hay as [| d hay]; simpl.
    + split; [discriminate | intros [post H]; discriminate].
    + destruct (Ascii.ascii_dec c d) as [-> | Hne].
      * rewrite IH. split; intros [post H]; exists post; [now rewrite H | now inv H].
      * split; [discriminate | intros [post H]; inv H; congruence].
Qed.

Lemma length_app_string (a b : string) :
  String.length (a ++ b) = (String.length a + String.length b)%nat.
Proof. induction a as [| c a IH]; simpl; [reflexivity | now rewrite IH]. Qed.

Lemma indexOfFrom_eq (needle hay : string) (i : Z) :
  JS.indexOfFrom needle hay i
  = if String.prefix needle hay then i
    else match hay with
         | EmptyString => -1
         | String _ rest => JS.indexOfFrom needle rest (i + 1)
         end.
Proof. destruct hay; reflexivity. Qed.

(** [indexOfFrom] finds the first occurrence, counted from [i]. *)
Lemma indexOfFrom_first (needle hay : string) :
  forall i,
    0 <= i ->
    (exists pre,
        occursAfter pre needle hay
        /\ JS.indexOfFrom needle hay i = i + Z.of_nat (String.length pre)
        /\ forall pre', occursAfter pre' needle hay ->
             (String.length pre <= String.length pre')%nat)
    \/ ((forall pre, ~ occursAfter pre needle hay) /\ JS.indexOfFrom needle hay i = -1).
Proof.
  induction hay as [| c hay IH]; intros i Hi; rewrite indexOfFrom_eq.
  - destruct (String.prefix needle "") eqn:E.
    + left. exists "". split; [now apply prefix_occurs |].
      split; [simpl; lia | intros; simpl; lia].
    + right. split; [| reflexivity].
      intros pre [post H].
      assert (String.prefix needle "" = true); [| congruence].
      apply prefix_occurs. exists post.
      destruct pre; [exact H | discriminate].
  - destruct (String.prefix needle (String c hay)) eqn:E.
    + left. exists "". split; [now apply prefix_occurs |].
      split; [simpl; lia | intros; simpl; lia].
    + assert (Hnot : ~ occursAfter "" needle (String c hay)).
      { intros H. apply prefix_occurs in H. congruence. }
      destruct (IH (i + 1) ltac:(lia)) as [(pre & Hocc & Hidx & Hmin) | (Hnone & Hidx)].
      * left. exists (String c pre). split.
        { destruct Hocc as [post ->]. now exists post. }
        split; [rewrite Hidx; simpl String.length; lia |].
        intros pre' Hocc'. destruct pre' as [| d pre']; [contradiction |].
        destruct Hocc' as [post' H']. simpl in H'. inv H'.
        simpl. apply le_n_S. apply Hmin. now exists post'.
      * right. split; [| exact Hidx].
        intros pre Hocc. destruct pre as [| d pre]; [contradiction |].
        destruct Hocc as [post H]. simpl in H. inv H.
        apply (Hnone pre). now exists post.
Qed.

(** X1. [getSelectedScaleId] returns the position, in the text of the
    options, of the first occurrence of the selected text, and 0 when the
    selected text does not occur at all; so 0 stands both for an option
    found at the very start and for no option found. The result is never
    negative and never beyond the length of the text. *)
Theorem getSelectedScaleId_position (options selected : string) :
  (forall pre,
      occursAfter pre selected options ->
      exists first,
        occursAfter first selected options
        /\ getSelectedScaleId options selected = Z.of_nat (String.length first)
        /\ (String.length first <= String.length pre)%nat)
  /\ ((forall pre, ~ occursAfter pre selected options) ->
      getSelectedScaleId options selected = 0)
  /\ (getSelectedScaleId options selected = 0 <->
      occursAfter "" selected options \/ forall pre, ~ occursAfter pre selected options)
  /\ 0 <= getSelectedScaleId options selected <= Z.of_nat (String.length options).
Proof.
  unfold getSelectedScaleId, JS.indexOf.
  destruct (@indexOfFrom_first selected options 0 ltac:(lia))
    as [(first & Hocc & Hidx & Hmin) | (Hnone & Hidx)]; rewrite Hidx.
  - assert (Hlen : (String.length first <= String.length options)%nat).
    { destruct Hocc as [post ->]. rewrite length_app_string. lia. }
    destruct (Z.ltb_spec (0 + Z.of_nat (String.length first)) 0) as [Hneg | Hpos]; [lia |].
    split; [| split; [| split]].
    + intros pre Hpre. exists first. split; [exact Hocc |]. split; [lia | now apply Hmin].
    + intros Hnone. exfalso. now apply (Hnone first).
    + split.
      * intros H0. left. destruct first; [exact Hocc | simpl in H0; lia].
      * intros [Hstart | Hno]; [| exfalso; now apply (Hno first)].
        specialize (Hmin "" Hstart). simpl in Hmin. lia.
    + lia.
  - simpl. split; [| split; [| split]].
    + intros pre Hpre. exfalso. now apply (Hnone pre).
    + reflexivity.
    + split; [intros _; now right | reflexivity].
    + lia.
Qed.

Section MoreProperties.

Variable env : Env.

Ltac frame_step R_refl R_trans :=
  first
    [ apply preserves_resolve; exact R_refl
    | apply preserves_reject; exact R_refl
    | apply preserves_settle; exact R_refl
    | apply preserves_andThen; [exact R_trans | | intros ?]
    | apply preserves_catch; [exact R_trans | | intros ?]
    | apply preserves_call; intros ?
    | apply preserves_modify; intros ?
    | match goal with
      | |- preserves _ (match ?x with _ => _ end) => destruct x
      end ].

Lemma andThen_inv {A B} (p : Promise A) (f : A -> Promise B) st r st' :
  andThen p f st = (r, st') ->
  (exists a st1, p st = (Ok a, st1) /\ f a st1 = (r, st'))
  \/ (exists e, p st = (Rej e, st') /\ r = Rej e).
Proof.
  unfold andThen. destruct (p st) as [[a | e] st1]; intros H.
  - left. eauto.
  - inv H. right. eauto.
Qed.

(** *** [syncSubmission] on every path *)

Lemma onlyTraced_logEvent_r e a b : onlyTraced a b -> onlyTraced a (logEvent e b).
Proof. intros H. eapply onlyTraced_trans; [exact H | apply onlyTraced_logEvent]. Qed.

Lemma onlyTraced_onUploadError e : preserves onlyTraced (onUploadError env e).
Proof.
  unfold onUploadError.
  repeat (frame_step onlyTraced_refl onlyTraced_trans).
Qed.

Lemma onlyTraced_uploadSubmission assign submission offlineData siteId :
  preserves onlyTraced (uploadSubmission env assign submission offlineData siteId).
Proof.
  unfold uploadSubmission, sendSubmission, onUploadError, fireAndForget.
  repeat (frame_step onlyTraced_refl onlyTraced_trans); auto using onlyTraced_logEvent.
Qed.

Lemma onlyTraced_uploadGrade assign offlineData courseId siteId :
  preserves onlyTraced (uploadGrade env assign offlineData courseId siteId).
Proof.
  unfold uploadGrade, checkGradebook, sendGrade, onUploadError, fireAndForget.
  repeat (frame_step onlyTraced_refl onlyTraced_trans); auto using onlyTraced_logEvent.
Qed.

Lemma onlySubmissionDeleted_traced siteId assignId userId st st' :
  onlyTraced st st' -> onlySubmissionDeleted siteId assignId userId st st'.
Proof.
  intros [(Hs & Hg & _) Hc]. split; [exact Hc |]. split; [exact Hg |].
  rewrite Hs. split; auto.
Qed.

Lemma onlySubmissionDeleted_delete siteId assignId userId st st1 :
  onlyTraced st st1 ->
  onlySubmissionDeleted siteId assignId userId st
    (snd (deleteSubmission assignId userId siteId st1))
  /\ noSubmissionOf (resolveSite st siteId) assignId userId
       (snd (deleteSubmission assignId userId siteId st1)).
Proof.
  intros Ht. pose proof (onlyTraced_resolveSite siteId Ht) as Hsite.
  destruct Ht as [(Hs & Hg & _) Hc]. split.
  - split; [exact Hc |]. split; [exact Hg |]. simpl. rewrite Hs, Hsite. split.
    + intros s Hin. now apply filter_In in Hin.
    + intros s Hin Hnot. apply filter_In. split; [exact Hin |].
      apply negb_true_iff. apply not_true_is_false. intros Hk. apply Hnot.
      apply andb_true_iff in Hk as [Hk Hu]. unfold isSubmissionOf in Hk.
      apply andb_true_iff in Hk as [Hsi Ha].
      apply String.eqb_eq in Hsi. apply Z.eqb_eq in Ha. apply Z.eqb_eq in Hu.
      now repeat split.
  - rewrite <- Hsite. apply noSubmissionOf_deleted.
Qed.

Lemma syncSubmission_resolved_deletes assign offlineData warns siteId st warns' st' :
  syncSubmission env assign offlineData warns siteId st = (Ok warns', st') ->
  noSubmissionOf (resolveSite st siteId) (assign_id assign) (s_userid offlineData) st'.
Proof.
  unfold syncSubmission, andThen, call. intros H.
  assert (H1 : onlyTraced st (logEvent (EGetSubmissionStatus (assign_id assign)
                                           (s_userid offlineData) siteId) st))
    by apply onlyTraced_logEvent.
  destruct (getSubmissionStatus env (trace st) (assign_id assign) (s_userid offlineData) siteId)
    as [status | e]; [| discriminate].
  destruct (getSubmissionObjectFromAttempt env assign (st_lastattempt status))
    as [submission |]; [| discriminate].
  match type of H with context [?stage ?s] =>
    match stage with
    | (if _ then _ else _) => destruct (stage s) as [[de | e] st2] eqn:E
    end end; [| discriminate].
  assert (H2 : onlyTraced st st2).
  { eapply onlyTraced_trans; [exact H1 |].
    destruct (negb _) in E; [inv E; apply onlyTraced_refl |].
    eapply onlyTraced_uploadSubmission; eauto. }
  destruct (onlySubmissionDeleted_delete siteId (assign_id assign) (s_userid offlineData) H2)
    as [_ Hgone].
  simpl in H. unfold settle, resolve in H.
  destruct (deletePlugins env assign submission (sub_plugins submission) offlineData siteId);
    inv H. exact Hgone.
Qed.

(** X2. However [syncSubmission] ends, it has done nothing to the offline
    store but, at most, delete the submission edit of the user for the
    assignment: no edit is created or changed, the other submission edits
    and all grade edits are kept, and nothing of the configuration (sync
    times, registry, connectivity) is touched. When it resolves, the edit
    of the user is gone. *)
Theorem syncSubmission_only_deletes_own_edit assign offlineData warns siteId st r st' :
  syncSubmission env assign offlineData warns siteId st = (r, st') ->
  onlySubmissionDeleted siteId (assign_id assign) (s_userid offlineData) st st'
  /\ (forall warns', r = Ok warns' ->
        noSubmissionOf (resolveSite st siteId) (assign_id assign) (s_userid offlineData) st').
Proof.
  unfold syncSubmission, andThen, call. intros H.
  assert (H1 : onlyTraced st (logEvent (EGetSubmissionStatus (assign_id assign)
                                           (s_userid offlineData) siteId) st))
    by apply onlyTraced_logEvent.
  destruct (getSubmissionStatus env (trace st) (assign_id assign) (s_userid offlineData) siteId)
    as [status | e].
  2: { inv H. split; [now apply onlySubmissionDeleted_traced | discriminate]. }
  destruct (getSubmissionObjectFromAttempt env assign (st_lastattempt status))
    as [submission |].
  2: { inv H. split; [now apply onlySubmissionDeleted_traced | discriminate]. }
  match type of H with context [?stage ?s] =>
    match stage with
    | (if _ then _ else _) => destruct (stage s) as [[de | e] st2] eqn:E
    end end.
  2: { inv H. assert (onlyTraced st st').
       { eapply onlyTraced_trans; [exact H1 |].
         destruct (negb _) in E; [inv E; apply onlyTraced_refl |].
         eapply onlyTraced_uploadSubmission; eauto. }
       split; [now apply onlySubmissionDeleted_traced | discriminate]. }
  assert (H2 : onlyTraced st st2).
  { eapply onlyTraced_trans; [exact H1 |].
    destruct (negb _) in E; [inv E; apply onlyTraced_refl |].
    eapply onlyTraced_uploadSubmission; eauto. }
  destruct (onlySubmissionDeleted_delete siteId (assign_id assign) (s_userid offlineData) H2)
    as [Hdel Hgone].
  simpl in H. unfold settle, resolve in H.
  destruct (deletePlugins env assign submission (sub_plugins submission) offlineData siteId);
    inv H; (split; [exact Hdel | intros; first [exact Hgone | discriminate]]).
Qed.

Lemma sendSubmission_success assign submission offlineData siteId st1 pluginData :
  let saveCalls :=
    match pluginData with
    | [] => []
    | _ => [ESaveSubmissionOnline (assign_id assign) pluginData siteId]
    end in
  let submitCalls :=
    if assign_submissiondrafts assign && s_submitted offlineData
    then [ESubmitForGradingOnline (assign_id assign) (s_submissionstatement offlineData) siteId]
    else [] in
  preparePlugins env assign submission (sub_plugins submission) offlineData [] siteId
    = Ok pluginData ->
  (pluginData <> [] ->
   saveSubmissionOnline env (trace st1) (assign_id assign) pluginData siteId = Ok tt) ->
  (assign_submissiondrafts assign && s_submitted offlineData = true ->
   submitForGradingOnline env (trace st1 ++ saveCalls)%list (assign_id assign)
     (s_submissionstatement offlineData) siteId = Ok tt) ->
  exists st2,
    sendSubmission env assign submission offlineData siteId st1 = (Ok None, st2)
    /\ trace st2
       = (trace st1 ++ saveCalls ++ submitCalls
          ++ [EGetSubmissionStatus (assign_id assign) (s_userid offlineData) siteId])%list.
Proof.
  intros saveCalls submitCalls Hprep Hsave Hsubmit. subst saveCalls submitCalls.
  unfold sendSubmission, andThen, settle. rewrite Hprep.
  unfold fireAndForget, modify, resolve, call.
  destruct pluginData as [| kv rest]; simpl in *.
  - rewrite app_nil_r in Hsubmit.
    destruct (assign_submissiondrafts assign && s_submitted offlineData).
    + rewrite (Hsubmit eq_refl). eexists. split; [reflexivity |].
      simpl. now rewrite <- app_assoc.
    + eexists. split; reflexivity.
  - rewrite (Hsave ltac:(discriminate)). simpl.
    destruct (assign_submissiondrafts assign && s_submitted offlineData).
    + change (trace (logEvent (ESaveSubmissionOnline (assign_id assign) (kv :: rest) siteId)
                          st1))
        with (trace st1 ++ [ESaveSubmissionOnline (assign_id assign) (kv :: rest) siteId])%list.
      rewrite (Hsubmit eq_refl). eexists. split; [reflexivity |].
      simpl. now rewrite <- !app_assoc.
    + eexists. split; [reflexivity |]. simpl. now rewrite <- !app_assoc.
Qed.

(** X3. When the edit is up to date and every step succeeds,
    [syncSubmission] resolves without adding a warning and deletes the
    edit. Its calls are, in this order: the status request;
    [saveSubmissionOnline], only if the plugins prepared some data;
    [submitForGradingOnline], only if the assignment uses drafts and the
    user had submitted; and the status request that refreshes the cache. *)
Theorem syncSubmission_uploads_current_edit
    assign offlineData warns siteId st status submission pluginData :
  let userId := s_userid offlineData in
  let st1 := afterStatus assign userId siteId st in
  let saveCalls :=
    match pluginData with
    | [] => []
    | _ => [ESaveSubmissionOnline (assign_id assign) pluginData siteId]
    end in
  let submitCalls :=
    if assign_submissiondrafts assign && s_submitted offlineData
    then [ESubmitForGradingOnline (assign_id assign) (s_submissionstatement offlineData) siteId]
    else [] in
  getSubmissionStatus env (trace st) (assign_id assign) userId siteId = Ok status ->
  getSubmissionObjectFromAttempt env assign (st_lastattempt status) = Some submission ->
  sub_timemodified submission = s_onlinetimemodified offlineData ->
  preparePlugins env assign submission (sub_plugins submission) offlineData [] siteId
    = Ok pluginData ->
  (pluginData <> [] ->
   saveSubmissionOnline env (trace st1) (assign_id assign) pluginData siteId = Ok tt) ->
  (assign_submissiondrafts assign && s_submitted offlineData = true ->
   submitForGradingOnline env (trace st1 ++ saveCalls)%list (assign_id assign)
     (s_submissionstatement offlineData) siteId = Ok tt) ->
  deletePlugins env assign submission (sub_plugins submission) offlineData siteId = Ok tt ->
  exists st',
    syncSubmission env assign offlineData warns siteId st = (Ok warns, st')
    /\ noSubmissionOf (resolveSite st siteId) (assign_id assign) userId st'
    /\ trace st'
       = (trace st1 ++ saveCalls ++ submitCalls
          ++ [EGetSubmissionStatus (assign_id assign) userId siteId])%list.
Proof.
  intros userId st1 saveCalls submitCalls Hs Ho Heq Hprep Hsave Hsubmit Hdel.
  rewrite (@syncSubmission_current_run env _ _ warns _ _ _ _ Hs Ho Heq).
  destruct (@sendSubmission_success assign submission offlineData siteId st1 pluginData
              Hprep Hsave Hsubmit) as (st2 & Hsend & Htrace).
  pose proof (@onlyTraced_sendSubmission env _ _ _ _ _ _ _ Hsend) as Hframe2.
  assert (Hframe : onlyTraced st st2).
  { eapply onlyTraced_trans; [apply onlyTraced_logEvent | exact Hframe2]. }
  unfold uploadSubmission, catch. fold userId st1. rewrite Hsend, Hdel. cbv zeta.
  eexists. split; [reflexivity |]. split.
  - apply (onlySubmissionDeleted_delete siteId (assign_id assign) userId Hframe).
  - exact Htrace.
Qed.

(** X4. A stale submission edit whose plugin data cannot be cleaned up:
    the edit itself is already deleted when the cleanup fails, the promise
    rejects with the error of the cleanup, so no discard warning reaches the
    list, and nothing is uploaded. *)
Theorem syncSubmission_cleanup_failure
    assign offlineData warns siteId st status submission e :
  getSubmissionStatus env (trace st) (assign_id assign) (s_userid offlineData) siteId
    = Ok status ->
  getSubmissionObjectFromAttempt env assign (st_lastattempt status) = Some submission ->
  sub_timemodified submission <> s_onlinetimemodified offlineData ->
  deletePlugins env assign submission (sub_plugins submission) offlineData siteId = Rej e ->
  exists st',
    syncSubmission env assign offlineData warns siteId st = (Rej e, st')
    /\ noSubmissionOf (resolveSite st siteId) (assign_id assign) (s_userid offlineData) st'
    /\ trace st'
       = (trace st ++ [EGetSubmissionStatus (assign_id assign) (s_userid offlineData) siteId])%list.
Proof.
  intros Hs Ho Hne Hdel.
  rewrite (@syncSubmission_stale_run env _ _ warns _ _ _ _ Hs Ho Hne), Hdel. cbv zeta.
  eexists. split; [reflexivity |]. split; [| reflexivity].
  apply (@onlySubmissionDeleted_delete siteId (assign_id assign) (s_userid offlineData) st).
  apply onlyTraced_logEvent.
Qed.

(** *** [syncSubmissionGrade] on every path *)

Lemma onlyGradeDeleted_traced siteId assignId userId st st' :
  onlyTraced st st' -> onlyGradeDeleted siteId assignId userId st st'.
Proof.
  intros [(Hs & Hg & _) Hc]. split; [exact Hc |]. split; [exact Hs |].
  rewrite Hg. split; auto.
Qed.

Lemma onlyGradeDeleted_delete siteId assignId userId st st1 :
  onlyTraced st st1 ->
  onlyGradeDeleted siteId assignId userId st
    (snd (deleteSubmissionGrade assignId userId siteId st1))
  /\ noGradeOf (resolveSite st siteId) assignId userId
       (snd (deleteSubmissionGrade assignId userId siteId st1)).
Proof.
  intros Ht. pose proof (onlyTraced_resolveSite siteId Ht) as Hsite.
  destruct Ht as [(Hs & Hg & _) Hc]. split.
  - split; [exact Hc |]. split; [exact Hs |]. simpl. rewrite Hg, Hsite. split.
    + intros g Hin. now apply filter_In in Hin.
    + intros g Hin Hnot. apply filter_In. split; [exact Hin |].
      apply negb_true_iff. apply not_true_is_false. intros Hk. apply Hnot.
      apply andb_true_iff in Hk as [Hk Hu]. unfold isGradeOf in Hk.
      apply andb_true_iff in Hk as [Hsi Ha].
      apply String.eqb_eq in Hsi. apply Z.eqb_eq in Ha. apply Z.eqb_eq in Hu.
      now repeat split.
  - rewrite <- Hsite. apply noGradeOf_deleted.
Qed.

(** X5. When the feedback on the site was graded after the offline grade
    edit was made, [syncSubmissionGrade] resolves and deletes the local
    grade edit (and nothing else of the store); its only call is the status
    request, so the gradebook is not read and nothing is uploaded; and the
    discard warning is in the list afterwards, appended unless the same
    text was there already. *)
Theorem syncSubmissionGrade_discards_stale_grade
    assign offlineData warns courseId siteId st status tm :
  getSubmissionStatus env (trace st) (assign_id assign) (g_userid offlineData) siteId
    = Ok status ->
  feedbackTime status = Ok (Some tm) ->
  g_timemodified offlineData < tm ->
  JS.truthy (translate_instant env "addon.mod_assign.warningsubmissiongrademodified" []) = true ->
  let message :=
    discardMessage env assign
      (translate_instant env "addon.mod_assign.warningsubmissiongrademodified" []) in
  exists warns' st',
    syncSubmissionGrade env assign offlineData warns courseId siteId st = (Ok warns', st')
    /\ noGradeOf (resolveSite st siteId) (assign_id assign) (g_userid offlineData) st'
    /\ onlyGradeDeleted siteId (assign_id assign) (g_userid offlineData) st st'
    /\ trace st'
       = (trace st ++ [EGetSubmissionStatus (assign_id assign) (g_userid offlineData) siteId])%list
    /\ In message warns'
    /\ (~ In message warns -> warns' = (warns ++ [message])%list)
    /\ (In message warns -> warns' = warns).
Proof.
  intros Hs Hf Hlt Htr message.
  rewrite (@syncSubmissionGrade_stale_run env _ _ warns courseId _ _ _ _ Hs Hf Hlt).
  eexists _, _. split; [reflexivity |].
  destruct (@onlyGradeDeleted_delete siteId (assign_id assign) (g_userid offlineData) st
              (afterStatus assign (g_userid offlineData) siteId st)
              (onlyTraced_logEvent _ _)) as [Hdel Hgone].
  split; [exact Hgone |]. split; [exact Hdel |]. split; [reflexivity |].
  rewrite addDiscardWarning_truthy by exact Htr. fold message.
  split; [| split].
  - destruct (JS.includes message warns) eqn:E.
    + now apply includes_In.
    + apply in_or_app. right. now left.
  - intros Hn. apply includes_false_not_In in Hn. now rewrite Hn.
  - intros Hi. apply includes_In in Hi. now rewrite Hi.
Qed.

Lemma syncSubmissionGrade_resolved_deletes
    assign offlineData warns courseId siteId st warns' st' :
  syncSubmissionGrade env assign offlineData warns courseId siteId st = (Ok warns', st') ->
  noGradeOf (resolveSite st siteId) (assign_id assign) (g_userid offlineData) st'.
Proof.
  unfold syncSubmissionGrade. intros H.
  apply andThen_inv in H as [(de & st2 & E & H) | (e & E & Hr)]; [| discriminate].
  match type of E with ?p ?s = _ =>
    assert (Hp : preserves onlyTraced p)
      by (repeat (frame_step onlyTraced_refl onlyTraced_trans);
          auto using onlyTraced_logEvent, onlyTraced_onUploadError)
  end.
  apply Hp in E.
  destruct (onlyGradeDeleted_delete siteId (assign_id assign) (g_userid offlineData) E)
    as [_ Hgone].
  unfold andThen, resolve in H. simpl in H. inv H. exact Hgone.
Qed.

(** X6. However [syncSubmissionGrade] ends, it has done nothing to the
    offline store but, at most, delete the grade edit of the user for the
    assignment: the submission edits and the other grade edits are kept, no
    edit is created or changed (the gradebook override is never written
    back to the store), and the configuration is untouched. When it
    resolves, the grade edit of the user is gone. *)
Theorem syncSubmissionGrade_only_deletes_own_edit
    assign offlineData warns courseId siteId st r st' :
  syncSubmissionGrade env assign offlineData warns courseId siteId st = (r, st') ->
  onlyGradeDeleted siteId (assign_id assign) (g_userid offlineData) st st'
  /\ (forall warns', r = Ok warns' ->
        noGradeOf (resolveSite st siteId) (assign_id assign) (g_userid offlineData) st').
Proof.
  unfold syncSubmissionGrade. intros H.
  apply andThen_inv in H as [(de & st2 & E & H) | (e & E & ->)];
    (match type of E with ?p ?s = _ =>
       assert (Hp : preserves onlyTraced p)
         by (repeat (frame_step onlyTraced_refl onlyTraced_trans);
             auto using onlyTraced_logEvent, onlyTraced_onUploadError)
     end);
    apply Hp in E.
  - destruct (onlyGradeDeleted_delete siteId (assign_id assign) (g_userid offlineData) E)
      as [Hdel Hgone].
    unfold andThen, resolve in H. simpl in H. inv H. split; [exact Hdel |].
    intros. exact Hgone.
  - split; [now apply onlyGradeDeleted_traced | discriminate].
Qed.

(** X7. When the gradebook entries or the grade information of the module
    cannot be fetched, [syncSubmissionGrade] rejects with that error,
    whether or not it is a web-service error: the local grade edit stays in
    the store and nothing is uploaded. *)
Theorem syncSubmissionGrade_gradebook_failure
    assign offlineData warns courseId siteId st status t e :
  let userId := g_userid offlineData in
  let st1 := afterStatus assign userId siteId st in
  let st2 := logEvent (EGetGradeModuleItems courseId (assign_cmid assign) userId siteId) st1 in
  getSubmissionStatus env (trace st) (assign_id assign) userId siteId = Ok status ->
  feedbackTime status = Ok t ->
  gtOpt t (g_timemodified offlineData) = false ->
  getGradeModuleItems env (trace st1) courseId (assign_cmid assign) userId siteId = Rej e
  \/ ((exists items,
         getGradeModuleItems env (trace st1) courseId (assign_cmid assign) userId siteId
         = Ok items)
      /\ getModuleBasicGradeInfo env (trace st2) (assign_cmid assign) siteId = Rej e) ->
  exists st',
    syncSubmissionGrade env assign offlineData warns courseId siteId st = (Rej e, st')
    /\ submissions st' = submissions st /\ grades st' = grades st
    /\ uploads (trace st') = uploads (trace st).
Proof.
  intros userId st1 st2. subst userId st1 st2. intros Hs Hf Hgt Hfail.
  rewrite (@syncSubmissionGrade_current_run env _ _ warns courseId _ _ _ _ Hs Hf Hgt).
  unfold uploadGrade, andThen at 1. unfold checkGradebook, andThen, call, settle.
  destruct Hfail as [Hitems | [[items Hitems] Hinfo]].
  - rewrite Hitems. eexists. split; [reflexivity |]. repeat split.
    unfold uploads, afterStatus. simpl. rewrite !filter_app. simpl. now rewrite !app_nil_r.
  - rewrite Hitems, Hinfo. eexists. split; [reflexivity |]. repeat split.
    unfold uploads, afterStatus. simpl. rewrite !filter_app. simpl. now rewrite !app_nil_r.
Qed.

(** *** The gradebook loop *)

Lemma sameButGradeAndOutcomes_refl d : sameButGradeAndOutcomes d d.
Proof. repeat split. Qed.

Lemma sameButGradeAndOutcomes_trans a b c :
  sameButGradeAndOutcomes a b -> sameButGradeAndOutcomes b c -> sameButGradeAndOutcomes a c.
Proof. unfold sameButGradeAndOutcomes. intuition congruence. Qed.

Lemma assocGet_assocSet_same k v l : assocGet k (assocSet k v l) = Some v.
Proof.
  induction l as [| [k' v'] l IH]; simpl.
  - now rewrite Z.eqb_refl.
  - destruct (k' =? k) eqn:E; simpl; [now rewrite Z.eqb_refl | now rewrite E].
Qed.

Lemma assocGet_assocSet_other k k' v l :
  k' <> k -> assocGet k' (assocSet k v l) = assocGet k' l.
Proof.
  intros Hne. induction l as [| [k0 v0] l IH]; simpl.
  - destruct (k =? k') eqn:E; [apply Z.eqb_eq in E; congruence | reflexivity].
  - destruct (k0 =? k) eqn:E; simpl.
    + apply Z.eqb_eq in E. subst k0.
      destruct (k =? k') eqn:E'; [apply Z.eqb_eq in E'; congruence | reflexivity].
    + destruct (k0 =? k'); [reflexivity | exact IH].
Qed.

Lemma overrideOutcomes_scope outcomes :
  forall index grade d,
    sameButGradeAndOutcomes d (overrideOutcomes outcomes index grade d)
    /\ g_grade (overrideOutcomes outcomes index grade d) = g_grade d
    /\ (forall k, k <> gr_itemnumber grade ->
          assocGet k (g_outcomes (overrideOutcomes outcomes index grade d))
          = assocGet k (g_outcomes d))
    /\ (forall v, assocGet (gr_itemnumber grade) (g_outcomes d) = Some v ->
          exists v', assocGet (gr_itemnumber grade)
                       (g_outcomes (overrideOutcomes outcomes index grade d)) = Some v').
Proof.
  induction outcomes as [| o rest IH]; intros index grade d; simpl.
  - repeat split; eauto.
  - match goal with |- context [overrideOutcomes rest ?i grade ?x] =>
      destruct (IH i grade x) as (Hs & Hg & Hk & Hv); set (d1 := x) in * end.
    assert (Hd1 : sameButGradeAndOutcomes d d1 /\ g_grade d1 = g_grade d
                  /\ (forall k, k <> gr_itemnumber grade ->
                        assocGet k (g_outcomes d1) = assocGet k (g_outcomes d))
                  /\ (forall v, assocGet (gr_itemnumber grade) (g_outcomes d) = Some v ->
                        exists v', assocGet (gr_itemnumber grade) (g_outcomes d1) = Some v')).
    { subst d1.
      destruct (JS.truthyOpt (out_scale o) && (gr_itemnumber grade =? index));
        [destruct (out_scale o) |]; simpl.
      2, 3: repeat split; eauto.
      split; [repeat split |]. split; [reflexivity |]. split.
      - intros k Hk'. now apply assocGet_assocSet_other.
      - intros v _. eexists. apply assocGet_assocSet_same. }
    destruct Hd1 as (Hs1 & Hg1 & Hk1 & Hv1).
    split; [eapply sameButGradeAndOutcomes_trans; eauto |].
    split; [congruence |]. split.
    + intros k Hne. rewrite Hk by exact Hne. now apply Hk1.
    + intros v Hget. destruct (Hv1 v Hget) as [v1 Hget1]. eapply Hv; eauto.
Qed.

Lemma overrideFromGradebook_scope gradeInfo d grade d' :
  overrideFromGradebook env gradeInfo d grade = Ok d' ->
  sameButGradeAndOutcomes d d'
  /\ (forall k v, assocGet k (g_outcomes d) = Some v ->
        exists v', assocGet k (g_outcomes d') = Some v')
  /\ (gr_gradedategraded grade < g_timemodified d -> d' = d).
Proof.
  unfold overrideFromGradebook.
  destruct (Z.leb_spec (g_timemodified d) (gr_gradedategraded grade)) as [Hle | Hlt].
  2: { intros H. inv H. split; [apply sameButGradeAndOutcomes_refl |]. split; eauto. }
  assert (Hold : gr_gradedategraded grade < g_timemodified d -> d' = d) by lia.
  destruct (negb (JS.truthyNum (gr_outcomeid grade)) && negb (JS.truthyNum (gr_scaleid grade))).
  { intros H. inv H. split; [repeat split |]. split; [eauto | exact Hold]. }
  destruct (JS.truthyNum (gr_outcomeid grade) && isOutcomesEditEnabled env).
  2: { intros H. inv H. split; [apply sameButGradeAndOutcomes_refl |]. split; eauto. }
  destruct gradeInfo as [info |]; [| discriminate].
  destruct (gi_outcomes info) as [outcomes |].
  2: { intros H. inv H. split; [apply sameButGradeAndOutcomes_refl |]. split; eauto. }
  intros H. inv H.
  destruct (overrideOutcomes_scope outcomes 0 grade d) as (Hs & _ & Hk & Hv).
  split; [exact Hs |]. split; [| exact Hold].
  intros k v Hget. destruct (Z.eq_dec k (gr_itemnumber grade)) as [-> | Hne].
  - eapply Hv; eauto.
  - exists v. now rewrite Hk.
Qed.

Lemma overrideAll_scope gradeInfo items :
  forall d d',
    overrideAll env gradeInfo items d = Ok d' ->
    sameButGradeAndOutcomes d d'
    /\ (forall k v, assocGet k (g_outcomes d) = Some v ->
          exists v', assocGet k (g_outcomes d') = Some v')
    /\ (Forall (fun g => gr_gradedategraded g < g_timemodified d) items -> d' = d).
Proof.
  induction items as [| x rest IH]; intros d d' H; simpl in H.
  - inv H. split; [apply sameButGradeAndOutcomes_refl |]. split; eauto.
  - destruct (overrideFromGradebook env gradeInfo d x) as [d1 | e] eqn:E1; [| discriminate].
    apply overrideFromGradebook_scope in E1 as (Hs1 & Hk1 & Hold1).
    destruct (IH d1 d' H) as (Hs & Hk & Hold).
    split; [eapply sameButGradeAndOutcomes_trans; eauto |]. split.
    + intros k v Hget. destruct (Hk1 k v Hget) as [v1 Hget1]. eapply Hk; eauto.
    + intros Hall. inv Hall.
      match goal with Hx : gr_gradedategraded x < _ |- _ => specialize (Hold1 Hx) end.
      subst d1. now apply Hold.
Qed.

(** X8. The loop over the gradebook entries writes nothing of the offline
    data but the grade and the outcomes: the grading form that is uploaded
    carries the user, attempt number, add-attempt flag, workflow state,
    apply-to-all flag and plugin data of the offline edit. No outcome of the
    offline edit loses its value. And when every entry was graded before
    the edit was made, the offline data is uploaded exactly as stored. *)
Theorem gradebook_override_scope gradeInfo items :
  forall d d',
    overrideAll env gradeInfo items d = Ok d' ->
    (forall assign,
        gradingForm assign d'
        = {| gf_assignid := assign_id assign; gf_userid := g_userid d;
             gf_grade := g_grade d'; gf_attemptnumber := g_attemptnumber d;
             gf_addattempt := g_addattempt d; gf_workflowstate := g_workflowstate d;
             gf_applytoall := g_applytoall d; gf_outcomes := g_outcomes d';
             gf_plugindata := g_plugindata d |})
    /\ (forall k v, assocGet k (g_outcomes d) = Some v ->
          exists v', assocGet k (g_outcomes d') = Some v')
    /\ (Forall (fun g => gr_gradedategraded g < g_timemodified d) items -> d' = d).
Proof.
  intros d d' H. destruct (overrideAll_scope _ _ _ H) as (Hs & Hk & Hold).
  split; [| split; assumption].
  intros assign. unfold gradingForm.
  destruct Hs as (_ & _ & Hu & _ & Ha & Hadd & Hw & Hap & Hp & _).
  now rewrite Hu, Ha, Hadd, Hw, Hap, Hp.
Qed.

Lemma overrideOutcomes_past outcomes :
  forall index grade d,
    gr_itemnumber grade < index ->
    g_outcomes (overrideOutcomes outcomes index grade d) = g_outcomes d.
Proof.
  induction outcomes as [| o rest IH]; intros index grade d Hlt; simpl; [reflexivity |].
  assert ((gr_itemnumber grade =? index) = false) as -> by (apply Z.eqb_neq; lia).
  rewrite andb_false_r. apply IH. lia.
Qed.

Lemma overrideOutcomes_value outcomes :
  forall index grade d,
    index <= gr_itemnumber grade ->
    match nth_error outcomes (Z.to_nat (gr_itemnumber grade - index)) with
    | Some o =>
        match out_scale o with
        | Some scale =>
            if JS.truthy scale then
              assocGet (gr_itemnumber grade)
                (g_outcomes (overrideOutcomes outcomes index grade d))
              = Some (getSelectedScaleId scale (out_selected o))
            else g_outcomes (overrideOutcomes outcomes index grade d) = g_outcomes d
        | None => g_outcomes (overrideOutcomes outcomes index grade d) = g_outcomes d
        end
    | None => g_outcomes (overrideOutcomes outcomes index grade d) = g_outcomes d
    end.
Proof.
  induction outcomes as [| o rest IH]; intros index grade d Hle.
  - destruct (Z.to_nat (gr_itemnumber grade - index)); reflexivity.
  - simpl overrideOutcomes.
    destruct (Z.eq_dec (gr_itemnumber grade) index) as [Heq | Hne].
    + rewrite Heq, Z.sub_diag. simpl nth_error. rewrite Z.eqb_refl, andb_true_r.
      rewrite <- Heq.
      destruct (out_scale o) as [scale |] eqn:Es; simpl JS.truthyOpt; cbv iota.
      * destruct (JS.truthy scale) eqn:Et.
        { rewrite overrideOutcomes_past by lia. simpl. apply assocGet_assocSet_same. }
        { now rewrite overrideOutcomes_past by lia. }
      * now rewrite overrideOutcomes_past by lia.
    + assert ((gr_itemnumber grade =? index) = false) as -> by (now apply Z.eqb_neq).
      rewrite andb_false_r.
      replace (Z.to_nat (gr_itemnumber grade - index))
        with (S (Z.to_nat (gr_itemnumber grade - (index + 1)))) by lia.
      simpl nth_error. apply IH. lia.
Qed.

(** X9. An entry of the gradebook that belongs to an outcome and is dated
    at or after the offline edit, when outcomes can be edited and the
    module lists its outcomes: the grade is left as it is, and the outcome
    of the offline data under the item number of the entry becomes what
    [getSelectedScaleId] returns for the scale and the selected value of
    the module's outcome at that position; the other outcomes keep their
    values. When there is no outcome at that position, or it has no scale,
    the outcomes are left as they are. *)
Theorem gradebook_outcome_override gradeInfo info outcomes d grade :
  g_timemodified d <= gr_gradedategraded grade ->
  JS.truthyNum (gr_outcomeid grade) = true ->
  isOutcomesEditEnabled env = true ->
  gradeInfo = Some info ->
  gi_outcomes info = Some outcomes ->
  0 <= gr_itemnumber grade ->
  exists d',
    overrideFromGradebook env gradeInfo d grade = Ok d'
    /\ g_grade d' = g_grade d
    /\ (forall k, k <> gr_itemnumber grade ->
          assocGet k (g_outcomes d') = assocGet k (g_outcomes d))
    /\ (forall o scale,
          nth_error outcomes (Z.to_nat (gr_itemnumber grade)) = Some o ->
          out_scale o = Some scale -> JS.truthy scale = true ->
          assocGet (gr_itemnumber grade) (g_outcomes d')
          = Some (getSelectedScaleId scale (out_selected o)))
    /\ ((nth_error outcomes (Z.to_nat (gr_itemnumber grade)) = None
         \/ exists o, nth_error outcomes (Z.to_nat (gr_itemnumber grade)) = Some o
                      /\ JS.truthyOpt (out_scale o) = false) ->
        g_outcomes d' = g_outcomes d).
Proof.
  intros Hdate Hout Hen -> Hlist Hpos.
  unfold overrideFromGradebook.
  apply Z.leb_le in Hdate. rewrite Hdate, Hout, Hen, Hlist. simpl.
  eexists. split; [reflexivity |].
  destruct (overrideOutcomes_scope outcomes 0 grade d) as (_ & Hg & Hk & _).
  pose proof (@overrideOutcomes_value outcomes 0 grade d Hpos) as Hv.
  rewrite Z.sub_0_r in Hv.
  split; [exact Hg |]. split; [exact Hk |]. split.
  - intros o scale Hn Hs Ht. now rewrite Hn, Hs, Ht in Hv.
  - intros [Hn | (o & Hn & Hf)]; rewrite Hn in Hv; [exact Hv |].
    destruct (out_scale o) as [scale |]; [| exact Hv].
    simpl in Hf. now rewrite Hf in Hv.
Qed.

(** X10. When the feedback on the site is not newer than the offline grade
    edit, the gradebook is read, and the grading form is accepted,
    [syncSubmissionGrade] resolves without adding a warning and deletes the
    grade edit. Its calls are, in this order: the status request, the
    gradebook entries, the grade information of the module, the grading
    form, and the status request that refreshes the cache. *)
Theorem syncSubmissionGrade_uploads_grade
    assign offlineData warns courseId siteId st status t items gradeInfo d :
  let userId := g_userid offlineData in
  let st1 := afterStatus assign userId siteId st in
  let st2 := logEvent (EGetGradeModuleItems courseId (assign_cmid assign) userId siteId) st1 in
  let st3 := logEvent (EGetModuleBasicGradeInfo (assign_cmid assign) siteId) st2 in
  getSubmissionStatus env (trace st) (assign_id assign) userId siteId = Ok status ->
  feedbackTime status = Ok t ->
  gtOpt t (g_timemodified offlineData) = false ->
  getGradeModuleItems env (trace st1) courseId (assign_cmid assign) userId siteId = Ok items ->
  getModuleBasicGradeInfo env (trace st2) (assign_cmid assign) siteId = Ok gradeInfo ->
  overrideAll env gradeInfo items offlineData = Ok d ->
  submitGradingFormOnline env (trace st3) (gradingForm assign d) siteId = Ok tt ->
  exists st',
    syncSubmissionGrade env assign offlineData warns courseId siteId st = (Ok warns, st')
    /\ noGradeOf (resolveSite st siteId) (assign_id assign) userId st'
    /\ trace st'
       = (trace st
          ++ [EGetSubmissionStatus (assign_id assign) userId siteId;
              EGetGradeModuleItems courseId (assign_cmid assign) userId siteId;
              EGetModuleBasicGradeInfo (assign_cmid assign) siteId;
              ESubmitGradingFormOnline (gradingForm assign d) siteId;
              EGetSubmissionStatus (assign_id assign) userId siteId])%list.
Proof.
  intros userId st1 st2 st3. subst userId st1 st2 st3.
  intros Hs Hf Hgt Hitems Hinfo Hover Hform.
  rewrite (@syncSubmissionGrade_current_run env _ _ warns courseId _ _ _ _ Hs Hf Hgt).
  unfold uploadGrade, andThen at 1.
  rewrite (@checkGradebook_run env _ _ _ _ _ _ _ Hitems Hinfo), Hover.
  unfold catch, sendGrade, andThen, call, fireAndForget, modify, resolve. rewrite Hform.
  eexists. split; [reflexivity |]. split.
  - match goal with |- noGradeOf _ _ _ (snd (deleteSubmissionGrade _ _ _ ?s)) =>
      apply (@onlyGradeDeleted_delete siteId (assign_id assign) (g_userid offlineData) st s)
    end.
    unfold afterStatus. repeat apply onlyTraced_logEvent_r. apply onlyTraced_refl.
  - destruct (overrideAll_scope _ _ _ Hover) as ((_ & _ & Hu & _) & _).
    unfold afterStatus. simpl. rewrite Hu. now rewrite <- !app_assoc.
Qed.

(** *** The promise chain of [syncAssign] on every path *)

Lemma noInvalidateSince_refl st : noInvalidateSince st st.
Proof. exists []. split; [now rewrite app_nil_r | reflexivity]. Qed.

Lemma noInvalidateSince_trans a b c :
  noInvalidateSince a b -> noInvalidateSince b c -> noInvalidateSince a c.
Proof.
  intros [l1 [H1 U1]] [l2 [H2 U2]]. exists (l1 ++ l2)%list. split.
  - now rewrite H2, H1, app_assoc.
  - now rewrite filter_app, U1, U2.
Qed.

Lemma noInvalidateSince_logEvent e st :
  isInvalidate e = false -> noInvalidateSince st (logEvent e st).
Proof. intros H. exists [e]. split; [reflexivity |]. simpl. now rewrite H. Qed.

Lemma noInvalidateSince_setStore subs grs st : noInvalidateSince st (setStore subs grs st).
Proof. exists []. simpl. split; [now rewrite app_nil_r | reflexivity]. Qed.

Ltac quiet_frame :=
  repeat (frame_step noInvalidateSince_refl noInvalidateSince_trans);
  first [ apply noInvalidateSince_logEvent; reflexivity
        | apply noInvalidateSince_setStore ].

Lemma noInvalidateSince_syncSubmission assign offlineData warns siteId :
  preserves noInvalidateSince (syncSubmission env assign offlineData warns siteId).
Proof.
  unfold syncSubmission, uploadSubmission, sendSubmission, onUploadError, fireAndForget.
  quiet_frame.
Qed.

Lemma noInvalidateSince_syncSubmissionGrade assign offlineData warns courseId siteId :
  preserves noInvalidateSince (syncSubmissionGrade env assign offlineData warns courseId siteId).
Proof.
  unfold syncSubmissionGrade, uploadGrade, checkGradebook, sendGrade, onUploadError,
    fireAndForget.
  quiet_frame.
Qed.

Lemma noInvalidateSince_allTasks assign courseId siteId subs grs result :
  preserves noInvalidateSince
    (allTasks (map (submissionTask env assign siteId) subs
               ++ map (gradeTask env assign courseId siteId) grs) result).
Proof.
  apply preserves_allTasks;
    [exact noInvalidateSince_refl | exact noInvalidateSince_trans |].
  apply tasks_preserve;
    [exact noInvalidateSince_refl | exact noInvalidateSince_trans | |]; intros.
  - apply noInvalidateSince_syncSubmission.
  - apply noInvalidateSince_syncSubmissionGrade.
Qed.

Lemma reconcile_invalidates_only_when_updated assignId siteId subs grs result st r st' :
  reconcile env assignId siteId subs grs result st = (r, st') ->
  (forall res, r = Ok res -> updated res = false) ->
  noInvalidateSince st st'.
Proof.
  unfold reconcile. destruct (isEmpty subs && isEmpty grs).
  { intros H _. inv H. apply noInvalidateSince_refl. }
  intros H Hflag.
  apply andThen_inv in H as [(isOn & st1 & E & H) | (e & E & ->)]; [| inv E].
  inv E. destruct (negb (online st1)); [inv H; apply noInvalidateSince_refl |].
  apply andThen_inv in H as [(assign & st2 & E & H) | (e & E & ->)].
  2: { inv E. apply noInvalidateSince_logEvent. reflexivity. }
  assert (H12 : noInvalidateSince st1 st2).
  { inv E. apply noInvalidateSince_logEvent. reflexivity. }
  apply andThen_inv in H as [(res & st3 & E3 & H) | (e & E3 & ->)].
  2: { eapply noInvalidateSince_trans; [exact H12 |].
       eapply noInvalidateSince_allTasks; eauto. }
  assert (H23 : noInvalidateSince st2 st3) by (eapply noInvalidateSince_allTasks; eauto).
  destruct (updated res) eqn:Eu.
  - exfalso. apply andThen_inv in H as [(u & st4 & E4 & H) | (e & E4 & ->)].
    + inv H. specialize (Hflag _ eq_refl). congruence.
    + unfold catch, call, resolve in E4.
      destruct (invalidateContent env (trace st3) (assign_cmid assign)
                  (firstCourseId subs grs) siteId); discriminate.
  - inv H. eapply noInvalidateSince_trans; eauto.
Qed.

(** X11. The last-sync time of an assignment is set when, and only when,
    the promise chain of [syncAssign] resolves: a chain that resolves
    leaves the time read at its end, a chain that rejects (device offline,
    assignment not fetched, a reconciliation rejected) leaves every sync
    time as it was. And [invalidateContent] is called only by a chain that
    resolves with [updated: true]: one that rejects, or finds nothing to
    sync, never calls it. *)
Theorem syncPromise_time_and_invalidation now assignId siteId st r st' :
  syncPromise env now assignId siteId st = (r, st') ->
  (forall result, r = Ok result -> getSyncTime st' assignId siteId = now)
  /\ (forall e, r = Rej e -> syncTimes st' = syncTimes st)
  /\ ((forall result, r = Ok result -> updated result = false) ->
      noInvalidateSince st st').
Proof.
  intros H. split; [| split].
  - intros result ->. now apply syncPromise_resolved in H.
  - intros e ->. rewrite syncPromise_unfold in H.
    destruct (reconcile _ _ _ _ _ _ _) as [[res | e'] st1] eqn:E; [discriminate |].
    inv H. apply sameConfig_reconcile in E. exact (proj1 E).
  - intros Hflag. rewrite syncPromise_unfold in H.
    destruct (reconcile _ _ _ _ _ _ _) as [[res | e'] st1] eqn:E; inv H.
    + assert (Hq : noInvalidateSince st st1).
      { eapply reconcile_invalidates_only_when_updated; [exact E |].
        intros res' Hres. inv Hres. now apply Hflag. }
      destruct Hq as [l [Ht Hl]]. exists l. split; [exact Ht | exact Hl].
    + eapply reconcile_invalidates_only_when_updated; [exact E | discriminate].
Qed.

Lemma onlySiteShrinks_refl siteId st : onlySiteShrinks siteId st st.
Proof. unfold onlySiteShrinks. tauto. Qed.

Lemma onlySiteShrinks_trans siteId a b c :
  onlySiteShrinks siteId a b -> onlySiteShrinks siteId b c -> onlySiteShrinks siteId a c.
Proof.
  intros (Hc1 & Hs1 & Hg1 & Hks1 & Hkg1) (Hc2 & Hs2 & Hg2 & Hks2 & Hkg2).
  assert (Hsite : resolveSite b siteId = resolveSite a siteId)
    by (unfold resolveSite; now rewrite Hc1).
  rewrite Hsite in Hks2, Hkg2.
  split; [congruence |]. repeat split; auto.
Qed.

Lemma onlySiteShrinks_logEvent siteId e st : onlySiteShrinks siteId st (logEvent e st).
Proof. unfold onlySiteShrinks. simpl. tauto. Qed.

Lemma onlySiteShrinks_deleteSubmission siteId assignId userId st :
  onlySiteShrinks siteId st
    (setStore
       (filter (fun s => negb (isSubmissionOf (resolveSite st siteId) assignId s
                               && (s_userid s =? userId)))
               (submissions st))
       (grades st) st).
Proof.
  unfold onlySiteShrinks. simpl. split; [reflexivity |].
  split; [intros s Hs; now apply filter_In in Hs |].
  split; [tauto |]. split; [| tauto].
  intros s Hs Hsite. apply filter_In. split; [exact Hs |].
  unfold isSubmissionOf. destruct (String.eqb_spec (s_siteid s) (resolveSite st siteId)).
  - contradiction.
  - reflexivity.
Qed.

Lemma onlySiteShrinks_deleteSubmissionGrade siteId assignId userId st :
  onlySiteShrinks siteId st
    (setStore (submissions st)
       (filter (fun g => negb (isGradeOf (resolveSite st siteId) assignId g
                               && (g_userid g =? userId)))
               (grades st))
       st).
Proof.
  unfold onlySiteShrinks. simpl. split; [reflexivity |].
  split; [tauto |].
  split; [intros g Hg; now apply filter_In in Hg |]. split; [tauto |].
  intros g Hg Hsite. apply filter_In. split; [exact Hg |].
  unfold isGradeOf. destruct (String.eqb_spec (g_siteid g) (resolveSite st siteId)).
  - contradiction.
  - reflexivity.
Qed.

Ltac shrink_frame siteId :=
  repeat (frame_step (onlySiteShrinks_refl siteId) (@onlySiteShrinks_trans siteId));
  first [ apply onlySiteShrinks_logEvent
        | apply onlySiteShrinks_deleteSubmission
        | apply onlySiteShrinks_deleteSubmissionGrade ].

Lemma onlySiteShrinks_syncSubmission assign offlineData warns siteId :
  preserves (onlySiteShrinks siteId) (syncSubmission env assign offlineData warns siteId).
Proof.
  unfold syncSubmission, uploadSubmission, sendSubmission, onUploadError, fireAndForget.
  shrink_frame siteId.
Qed.

Lemma onlySiteShrinks_syncSubmissionGrade assign offlineData warns courseId siteId :
  preserves (onlySiteShrinks siteId)
    (syncSubmissionGrade env assign offlineData warns courseId siteId).
Proof.
  unfold syncSubmissionGrade, uploadGrade, checkGradebook, sendGrade, onUploadError,
    fireAndForget.
  shrink_frame siteId.
Qed.

Lemma onlySiteShrinks_reconcile assignId siteId subs grs result :
  preserves (onlySiteShrinks siteId) (reconcile env assignId siteId subs grs result).
Proof.
  unfold reconcile, isOnline.
  destruct (isEmpty subs && isEmpty grs).
  { apply preserves_resolve. apply onlySiteShrinks_refl. }
  apply preserves_andThen; [exact (@onlySiteShrinks_trans siteId) | |].
  { intros st r st' H. inv H. apply onlySiteShrinks_refl. }
  intros isOn. destruct (negb isOn).
  { apply preserves_reject. apply onlySiteShrinks_refl. }
  apply preserves_andThen; [exact (@onlySiteShrinks_trans siteId) | |].
  { apply preserves_call. intros ?. apply onlySiteShrinks_logEvent. }
  intros assign.
  apply preserves_andThen; [exact (@onlySiteShrinks_trans siteId) | |].
  { apply preserves_allTasks;
      [exact (onlySiteShrinks_refl siteId) | exact (@onlySiteShrinks_trans siteId) |].
    apply tasks_preserve;
      [exact (onlySiteShrinks_refl siteId) | exact (@onlySiteShrinks_trans siteId) | |];
      intros.
    - apply onlySiteShrinks_syncSubmission.
    - apply onlySiteShrinks_syncSubmissionGrade. }
  intros res. destruct (updated res).
  - shrink_frame siteId.
  - apply preserves_resolve. apply onlySiteShrinks_refl.
Qed.

(** X12. Whatever the outcome of the promise chain of [syncAssign]
    (resolved or rejected, whatever the site answers), the offline store
    only shrinks: every submission edit and grade edit left in the store
    was there before, unchanged, and every edit stored for another site
    than the one being synced is still there. The current site is not
    changed either. *)
Theorem syncPromise_store_only_shrinks now assignId siteId st :
  onlySiteShrinks siteId st (snd (syncPromise env now assignId siteId st)).
Proof.
  rewrite syncPromise_unfold.
  destruct (reconcile _ _ _ _ _ _ _) as [[res | e] st1] eqn:E;
    apply onlySiteShrinks_reconcile in E; simpl; [| exact E].
  destruct E as (Hc & Hs & Hg & Hks & Hkg).
  unfold withSyncTime, setSyncTime. simpl. repeat split; auto.
Qed.

Lemma andThen_ext {A B} (p : Promise A) (k1 k2 : A -> Promise B) st :
  (forall a st1, k1 a st1 = k2 a st1) -> andThen p k1 st = andThen p k2 st.
Proof.
  intros H. unfold andThen. destruct (p st) as [[a | e] st1]; [apply H | reflexivity].
Qed.

Lemma catch_call_ignored (e : Event) (answer : list Event -> Result unit) st :
  catch (call e answer) (fun _ => resolve tt) st = (Ok tt, logEvent e st).
Proof.
  unfold catch, call, resolve. destruct (answer (trace st)) as [[] | r]; reflexivity.
Qed.

Lemma reconcile_ignores_invalidateContent_answer f assignId siteId subs grs result st :
  reconcile (withInvalidateContent f env) assignId siteId subs grs result st
  = reconcile env assignId siteId subs grs result st.
Proof.
  unfold reconcile.
  destruct (isEmpty subs && isEmpty grs); [reflexivity |].
  apply andThen_ext. intros isOn st1.
  destruct (negb isOn); [reflexivity |].
  change (getAssignmentById (withInvalidateContent f env)) with (getAssignmentById env).
  apply andThen_ext. intros assign st2.
  change (submissionTask (withInvalidateContent f env)) with (submissionTask env).
  change (gradeTask (withInvalidateContent f env)) with (gradeTask env).
  apply andThen_ext. intros res st3.
  destruct (updated res); [| reflexivity].
  unfold andThen. now rewrite !catch_call_ignored.
Qed.

(** X13. The answer of [invalidateContent] is ignored: its rejection is
    caught and its value is not used. Two sites that differ only in what
    [invalidateContent] answers give the promise chain of [syncAssign] the
    same outcome, the same offline store, the same sync times and the same
    calls. *)
Theorem syncPromise_ignores_invalidateContent_answer f now assignId siteId st :
  syncPromise (withInvalidateContent f env) now assignId siteId st
  = syncPromise env now assignId siteId st.
Proof.
  unfold syncPromise.
  apply andThen_ext. intros subs st1.
  apply andThen_ext. intros grs st2.
  unfold andThen. now rewrite reconcile_ignores_invalidateContent_answer.
Qed.

Lemma addDiscardWarning_length assign de warns :
  (List.length (addDiscardWarning env assign de warns) <= S (List.length warns))%nat.
Proof.
  unfold addDiscardWarning.
  destruct de as [e |]; [| lia]. destruct (JS.truthy e); [| lia].
  destruct (JS.includes _ warns); [lia |]. rewrite length_app. simpl. lia.
Qed.

Lemma reconciliation_length task :
  Reconciliation env task ->
  forall result st result' st',
    task result st = (Ok result', st') ->
    (List.length (warnings result') <= S (List.length (warnings result)))%nat.
Proof.
  intros [assign siteId s | assign courseId siteId g] result st result' st' H.
  - unfold submissionTask, andThen, resolve in H.
    destruct (syncSubmission _ _ _ _ _ _) as [[w | e] st1] eqn:E; [| discriminate].
    inv H. simpl. apply syncSubmission_warnings in E as [de ->].
    apply addDiscardWarning_length.
  - unfold gradeTask, andThen, resolve in H.
    destruct (syncSubmissionGrade _ _ _ _ _ _ _) as [[w | e] st1] eqn:E; [| discriminate].
    inv H. simpl. apply syncSubmissionGrade_warnings in E as [de ->].
    apply addDiscardWarning_length.
Qed.

Lemma allShared_length tasks :
  Forall (Reconciliation env) tasks ->
  forall result st,
    (List.length (warnings (snd (fst (allShared tasks result st))))
     <= List.length tasks + List.length (warnings result))%nat.
Proof.
  induction 1 as [| task tasks Ht _ IH]; intros result st; simpl; [lia |].
  destruct (task result st) as [[r1 | e] st1] eqn:E.
  - specialize (IH r1 st1). apply (reconciliation_length Ht) in E. lia.
  - specialize (IH result st1).
    destruct (allShared tasks result st1) as [[r0 r2] st2]. simpl in *. lia.
Qed.

Lemma reconcile_length assignId siteId subs grs result st result' st' :
  reconcile env assignId siteId subs grs result st = (Ok result', st') ->
  (List.length (warnings result') <= List.length subs + List.length grs + List.length (warnings result))%nat.
Proof.
  unfold reconcile. destruct (isEmpty subs && isEmpty grs).
  { intros H. inv H. lia. }
  intros H.
  apply andThen_inv in H as [(isOn & st1 & E & H) | (e & E & Hr)]; [| discriminate].
  destruct (negb isOn); [discriminate |].
  apply andThen_inv in H as [(assign & st2 & E2 & H) | (e & E2 & Hr)]; [| discriminate].
  apply andThen_inv in H as [(res & st3 & E3 & H) | (e & E3 & Hr)]; [| discriminate].
  assert (Hlen : (List.length (warnings res)
                  <= List.length subs + List.length grs + List.length (warnings result))%nat).
  { unfold allTasks in E3.
    pose proof (@allShared_length _
                  (tasks_are_reconciliations env assign (firstCourseId subs grs) siteId subs grs)
                  result st2) as HL.
    destruct (allShared _ result st2) as [[r0 x] s2]. simpl in HL.
    rewrite length_app, !length_map in HL.
    destruct r0; inv E3. exact HL. }
  destruct (updated res).
  - apply andThen_inv in H as [(u & st4 & E4 & H) | (e & E4 & Hr)]; [| discriminate].
    inv H. exact Hlen.
  - inv H. exact Hlen.
Qed.

(** X14. A sync that resolves reports at most one warning per pending
    edit: the number of warnings of the result is at most the number of
    pending submission edits plus the number of pending grade edits of the
    assignment when the chain starts. *)
Theorem syncPromise_warnings_bound now assignId siteId st result st' :
  syncPromise env now assignId siteId st = (Ok result, st') ->
  (List.length (warnings result)
   <= List.length (pendingSubmissions st assignId siteId)
      + List.length (pendingGrades st assignId siteId))%nat.
Proof.
  intros H. rewrite syncPromise_unfold in H.
  destruct (reconcile _ _ _ _ _ _ _) as [[res | e] st1] eqn:E; inv H.
  apply reconcile_length in E. simpl in E. lia.
Qed.

(** *** The batch driver *)

Lemma In_uniqueIds x l : In x (uniqueIds l) <-> In x l.
Proof.
  induction l as [| y l IH]; simpl; [tauto |].
  rewrite filter_In, IH. split.
  - intros [H | [H _]]; auto.
  - intros [H | H]; [now left |].
    destruct (Z.eqb_spec x y) as [-> | Hne]; [now left |].
    right. split; [exact H | reflexivity].
Qed.

Lemma getAllAssigns_hasPending siteId st ids st' :
  getAllAssigns siteId st = (Ok ids, st') ->
  st' = st /\ forall id, In id ids <-> hasPending st id siteId.
Proof.
  unfold getAllAssigns. intros H. injection H as Hids Hst. subst ids st'.
  split; [reflexivity |].
  intros id. rewrite In_uniqueIds, in_app_iff, !in_map_iff.
  unfold hasPending, pendingSubmissions, pendingGrades. split.
  - intros [(s & Hid & Hs) | (g & Hid & Hg)]; apply filter_In in Hs || apply filter_In in Hg.
    + left. destruct Hs as [Hin Hsite].
      assert (Hf : In s (filter (isSubmissionOf (resolveSite st siteId) id) (submissions st))).
      { apply filter_In. split; [exact Hin |]. unfold isSubmissionOf.
        rewrite Hsite, Hid. now rewrite Z.eqb_refl. }
      intros Hnil. now rewrite Hnil in Hf.
    + right. destruct Hg as [Hin Hsite].
      assert (Hf : In g (filter (isGradeOf (resolveSite st siteId) id) (grades st))).
      { apply filter_In. split; [exact Hin |]. unfold isGradeOf.
        rewrite Hsite, Hid. now rewrite Z.eqb_refl. }
      intros Hnil. now rewrite Hnil in Hf.
  - intros [Hne | Hne].
    + left. destruct (filter _ (submissions st)) as [| s rest] eqn:E; [congruence |].
      assert (Hf : In s (filter (isSubmissionOf (resolveSite st siteId) id) (submissions st)))
        by (rewrite E; now left).
      apply filter_In in Hf as [Hin Hof]. unfold isSubmissionOf in Hof.
      apply andb_true_iff in Hof as [Hsite Hid]. exists s. split; [now apply Z.eqb_eq |].
      apply filter_In. now split.
    + right. destruct (filter _ (grades st)) as [| g rest] eqn:E; [congruence |].
      assert (Hf : In g (filter (isGradeOf (resolveSite st siteId) id) (grades st)))
        by (rewrite E; now left).
      apply filter_In in Hf as [Hin Hof]. unfold isGradeOf in Hof.
      apply andb_true_iff in Hof as [Hsite Hid]. exists g. split; [now apply Z.eqb_eq |].
      apply filter_In. now split.
Qed.

Lemma syncEach_nothing_needed now siteId ids st :
  (forall id, In id ids -> isSyncNeeded (syncInterval env) now st id siteId = false) ->
  syncEach env now siteId ids st = Some (Ok tt, st).
Proof.
  induction ids as [| id rest IH]; intros Hno; [reflexivity |].
  simpl. unfold syncAssignIfNeeded. rewrite (Hno id) by now left.
  simpl. rewrite IH; [reflexivity |]. intros id' Hin. apply Hno. now right.
Qed.

(** X15. When every assignment of the site that has pending offline data
    was synced within the minimum interval, the batch driver resolves and
    does nothing: no sync is started, no call is made, no event is
    triggered, and every pending edit stays in the store (the empty store is
    the special case in which there is nothing to enumerate). *)
Theorem syncAllAssignmentsFunc_nothing_needed now siteId st :
  (forall id, hasPending st id siteId ->
              isSyncNeeded (syncInterval env) now st id siteId = false) ->
  syncAllAssignmentsFunc env now siteId st = Some (Ok tt, st).
Proof.
  intros Hno. unfold syncAllAssignmentsFunc.
  destruct (getAllAssigns siteId st) as [[ids | e] st1] eqn:E; [| discriminate].
  apply getAllAssigns_hasPending in E as [-> Hids].
  apply syncEach_nothing_needed. intros id Hin. apply Hno. now apply Hids.
Qed.

Lemma sameButRegistry_refl st : sameButRegistry st st.
Proof. unfold sameButRegistry. tauto. Qed.

Lemma sameButRegistry_trans a b c :
  sameButRegistry a b -> sameButRegistry b c -> sameButRegistry a c.
Proof. unfold sameButRegistry. intuition congruence. Qed.

Lemma sameButRegistry_hasPending st st' assignId siteId :
  sameButRegistry st st' -> hasPending st assignId siteId -> hasPending st' assignId siteId.
Proof.
  intros (Hs & Hg & _ & _ & _ & Hc & _).
  unfold hasPending, pendingSubmissions, pendingGrades, resolveSite.
  now rewrite Hs, Hg, Hc.
Qed.

Lemma keyEqb_true (a b : Key) : keyEqb a b = true -> a = b.
Proof.
  destruct a as [a1 a2], b as [b1 b2]. unfold keyEqb. simpl. intros H.
  apply andb_true_iff in H as [H1 H2].
  apply Z.eqb_eq in H1. apply String.eqb_eq in H2. now subst.
Qed.

Lemma lookupKey_removeKey_other {V} (k k' : Key) (l : list (Key * V)) :
  keyEqb k k' = false -> lookupKey k' (removeKey k l) = lookupKey k' l.
Proof.
  intros Hne. induction l as [| [k0 v] l IH]; simpl; [reflexivity |].
  destruct (keyEqb k k0) eqn:E.
  - apply keyEqb_true in E. subst k0. rewrite IH.
    destruct (keyEqb k' k) eqn:E'; [| reflexivity].
    apply keyEqb_true in E'. subst k'. now rewrite keyEqb_refl in Hne.
  - simpl. now rewrite IH.
Qed.

Lemma sameInFlight_refl st : sameInFlight st st.
Proof. intros k. reflexivity. Qed.

Lemma sameInFlight_trans a b c : sameInFlight a b -> sameInFlight b c -> sameInFlight a c.
Proof. intros H1 H2 k. now rewrite H2, H1. Qed.

Lemma sameInFlight_isSyncing st st' assignId siteId :
  sameButRegistry st st' -> sameInFlight st st' ->
  isSyncing st' assignId siteId = isSyncing st assignId siteId.
Proof.
  intros (_ & _ & _ & _ & _ & Hc & _) Hfl. unfold isSyncing, resolveSite.
  now rewrite Hc, Hfl.
Qed.

(** A sync that is started and runs to its end leaves the in-flight
    registry as it found it. *)
Lemma sameInFlight_started_settled (k : Key) (pid : nat) (l : list (Key * nat)) :
  lookupKey k l = None ->
  forall k', lookupKey k' (removeKey k ((k, pid) :: removeKey k l)) = lookupKey k' l.
Proof.
  intros Hnone k'. simpl. rewrite keyEqb_refl.
  destruct (keyEqb k k') eqn:E.
  - apply keyEqb_true in E. subst k'. now rewrite lookupKey_removeKey, Hnone.
  - now rewrite !lookupKey_removeKey_other by exact E.
Qed.

Lemma runOngoing_offline_state now st assignId siteId pid :
  online st = false ->
  hasPending st assignId siteId ->
  runOngoing env now (assignId, resolveSite st siteId) pid st
  = (Rej RejNull,
     setRegistry (removeKey (assignId, resolveSite st siteId) (ongoing st))
       ((pid, Rej RejNull) :: settled st) (nextPromise st) st).
Proof.
  intros Hoff Hp. unfold runOngoing. simpl fst. simpl snd.
  rewrite syncPromise_offline
    by (rewrite ?pendingSubmissions_resolved, ?pendingGrades_resolved; assumption).
  reflexivity.
Qed.

Lemma syncAssign_await_offline now st assignId siteId :
  isSyncing st assignId siteId = false ->
  online st = false ->
  hasPending st assignId siteId ->
  exists p st1 e st2,
    syncAssign env st assignId siteId = (p, st1)
    /\ await env now st1 p = Some (Rej e, st2)
    /\ sameButRegistry st st2
    /\ sameInFlight st st2.
Proof.
  intros Hidle Hoff Hp.
  destruct (syncAssign_cases env st assignId siteId)
    as [(pid & Hl & E) | [(Hl & Hb & E) | (Hl & _ & E)]].
  - unfold isSyncing in Hidle. rewrite Hl in Hidle. discriminate.
  - eexists _, st, _, st. split; [exact E |]. split; [reflexivity |].
    split; [apply sameButRegistry_refl | apply sameInFlight_refl].
  - match type of E with _ = (_, ?s) => set (st1 := s) in * end.
    assert (Hoff1 : online st1 = false) by exact Hoff.
    assert (Hp1 : hasPending st1 assignId siteId) by exact Hp.
    pose proof (runOngoing_offline_state now (nextPromise st) Hoff1 Hp1) as Hrun.
    change (resolveSite st1 siteId) with (resolveSite st siteId) in Hrun.
    eexists (POngoing (assignId, resolveSite st siteId) (nextPromise st)), st1, RejNull, _.
    split; [exact E |]. split.
    + rewrite await_ongoing; [exact (f_equal Some Hrun) |].
      simpl. now rewrite keyEqb_refl.
    + split.
      * unfold sameButRegistry, st1. simpl. tauto.
      * intros k'. unfold st1. simpl ongoing.
        now apply sameInFlight_started_settled.
Qed.

Lemma syncEach_offline now siteId ids :
  forall st,
    online st = false ->
    (forall id, In id ids -> hasPending st id siteId) ->
    (forall id, In id ids -> isSyncing st id siteId = false) ->
    exists r st',
      syncEach env now siteId ids st = Some (r, st')
      /\ sameButRegistry st st'
      /\ ((exists id, In id ids
                      /\ isSyncNeeded (syncInterval env) now st id siteId = true) ->
          exists e, r = Rej e).
Proof.
  induction ids as [| id rest IH]; intros st Hoff Hpend Hidle.
  { exists (Ok tt), st. split; [reflexivity |]. split; [apply sameButRegistry_refl |].
    intros (id & [] & _). }
  simpl. unfold syncAssignIfNeeded.
  destruct (isSyncNeeded (syncInterval env) now st id siteId) eqn:En.
  - destruct (@syncAssign_await_offline now st id siteId
                (Hidle id (or_introl eq_refl)) Hoff (Hpend id (or_introl eq_refl)))
      as (p & st1 & e & st2 & Esync & Eawait & Hsame & Hfl).
    rewrite Esync. simpl. rewrite Eawait. simpl.
    destruct (IH st2) as (r & st3 & Erest & Hsame3 & _).
    + destruct Hsame as (_ & _ & _ & _ & Ho & _). congruence.
    + intros id' Hin. eapply sameButRegistry_hasPending; [exact Hsame |].
      apply Hpend. now right.
    + intros id' Hin. rewrite (sameInFlight_isSyncing id' siteId Hsame Hfl).
      apply Hidle. now right.
    + rewrite Erest. exists (Rej e), st3. split; [reflexivity |].
      split; [eapply sameButRegistry_trans; eauto |]. intros _. now exists e.
  - simpl.
    destruct (IH st Hoff) as (r & st3 & Erest & Hsame3 & Hrej).
    { intros id' Hin. apply Hpend. now right. }
    { intros id' Hin. apply Hidle. now right. }
    rewrite Erest. exists r, st3. split; [reflexivity |]. split; [exact Hsame3 |].
    intros (id' & [<- | Hin] & Hneed); [congruence |].
    apply Hrej. now exists id'.
Qed.

(** X16. With the device offline and no sync in flight for the assignments
    that have pending data, the batch driver changes nothing but the
    in-flight registry: it returns, and the offline store, the sync times
    and the calls made are as before (no network call, no event triggered,
    no edit deleted, no sync time set). Its promise rejects as soon as one
    assignment with pending data is due for a sync. *)
Theorem syncAllAssignmentsFunc_offline now siteId st :
  online st = false ->
  (forall id, hasPending st id siteId -> isSyncing st id siteId = false) ->
  exists r st',
    syncAllAssignmentsFunc env now siteId st = Some (r, st')
    /\ sameButRegistry st st'
    /\ ((exists id, hasPending st id siteId
                    /\ isSyncNeeded (syncInterval env) now st id siteId = true) ->
        exists e, r = Rej e).
Proof.
  intros Hoff Hidle. unfold syncAllAssignmentsFunc.
  destruct (getAllAssigns siteId st) as [[ids | e] st1] eqn:E; [| discriminate].
  apply getAllAssigns_hasPending in E as [-> Hids].
  destruct (@syncEach_offline now siteId ids st Hoff) as (r & st' & Erun & Hsame & Hrej).
  { intros id Hin. now apply Hids. }
  { intros id Hin. apply Hidle. now apply Hids. }
  exists r, st'. split; [exact Erun |]. split; [exact Hsame |].
  intros (id & Hp & Hneed). apply Hrej. exists id. split; [now apply Hids | exact Hneed].
Qed.

(** *** What a resolved sync leaves in the store *)

Lemma allShared_resolved_each {X} (R : State -> State -> Prop)
    (tasks : list (X -> Promise X)) :
  (forall st, R st st) ->
  (forall a b c, R a b -> R b c -> R a c) ->
  Forall (fun t => forall x, preserves R (t x)) tasks ->
  forall x st x' st',
    allShared tasks x st = (Ok tt, x', st') ->
    Forall (fun t => exists x0 st1 x1 st2,
                t x0 st1 = (Ok x1, st2) /\ R st st1 /\ R st2 st') tasks.
Proof.
  intros Hr Ht. induction 1 as [| t tasks Hp Hall IH]; intros x st x' st' H; [constructor |].
  simpl in H. destruct (t x st) as [[x1 | e] st1] eqn:E.
  - constructor.
    + exists x, st, x1, st1. split; [exact E |]. split; [apply Hr |].
      pose proof (preserves_allShared Hr Ht Hall x1 st1) as HR. now rewrite H in HR.
    + specialize (IH _ _ _ _ H). eapply Forall_impl; [| exact IH].
      intros t' (x0 & s1 & x2 & s2 & Et & H1 & H2).
      exists x0, s1, x2, s2. split; [exact Et |]. split; [| exact H2].
      eapply Ht; [| exact H1]. eapply Hp; eauto.
  - destruct (allShared tasks x st1) as [[r0 r2] st2]. discriminate.
Qed.

Lemma reconcile_resolved_clears assignId siteId result st res st' :
  (forall t courseId assign,
      getAssignmentById env t courseId assignId siteId = Ok assign ->
      assign_id assign = assignId) ->
  reconcile env assignId siteId (pendingSubmissions st assignId siteId)
    (pendingGrades st assignId siteId) result st = (Ok res, st') ->
  pendingSubmissions st' assignId siteId = [] /\ pendingGrades st' assignId siteId = [].
Proof.
  intros Hid H. unfold reconcile in H.
  destruct (isEmpty (pendingSubmissions st assignId siteId)
            && isEmpty (pendingGrades st assignId siteId)) eqn:Eempty.
  { inv H. apply andb_true_iff in Eempty as [Es Eg].
    destruct (pendingSubmissions st' assignId siteId); [| discriminate].
    destruct (pendingGrades st' assignId siteId); [| discriminate]. now split. }
  apply andThen_inv in H as [(isOn & st1 & E & H) | (e & E & Hr)]; [| discriminate].
  inv E. destruct (negb (online st1)); [discriminate |].
  apply andThen_inv in H as [(assign & st2 & E2 & H) | (e & E2 & Hr)]; [| discriminate].
  unfold call in E2. injection E2 as Hassign Hst2. apply Hid in Hassign.
  apply (f_equal Some) in Hassign.
  apply andThen_inv in H as [(res3 & st3 & E3 & H) | (e & E3 & Hr)]; [| discriminate].
  set (courseId := firstCourseId (pendingSubmissions st1 assignId siteId)
                     (pendingGrades st1 assignId siteId)) in *.
  assert (Hstore : submissions st' = submissions st3 /\ grades st' = grades st3
                   /\ currentSiteId st' = currentSiteId st3).
  { destruct (updated res3).
    - apply andThen_inv in H as [(u & st4 & E4 & H) | (e & E4 & Hr)]; [| discriminate].
      inv H. rewrite catch_call_ignored in E4. inv E4. simpl. auto.
    - inv H. auto. }
  clear H. destruct Hstore as (Hsub' & Hgr' & Hcur').
  unfold allTasks in E3.
  match type of E3 with context [allShared ?ts _ _] =>
    assert (Htasks : Forall (fun t => forall x, preserves (onlySiteShrinks siteId) (t x)) ts)
  end.
  { apply tasks_preserve;
      [exact (onlySiteShrinks_refl siteId) | exact (@onlySiteShrinks_trans siteId) | |];
      intros.
    - apply onlySiteShrinks_syncSubmission.
    - apply onlySiteShrinks_syncSubmissionGrade. }
  destruct (allShared _ result st2) as [[r0 x] s3] eqn:Eall.
  destruct r0 as [[] | e]; [| discriminate]. inv E3.
  pose proof (allShared_resolved_each (onlySiteShrinks_refl siteId)
                (@onlySiteShrinks_trans siteId)
                Htasks
                _ _ Eall) as Heach.
  apply Forall_app in Heach as [Hsubs Hgrs].
  rewrite Forall_forall in Hsubs, Hgrs.
  assert (Hsite : forall sa sb, onlySiteShrinks siteId sa sb ->
                                resolveSite sb siteId = resolveSite sa siteId).
  { intros sa sb (Hc & _). unfold resolveSite. now rewrite Hc. }
  assert (Hsite3 : resolveSite st' siteId = resolveSite st1 siteId).
  { unfold resolveSite. rewrite Hcur'.
    pose proof (preserves_allShared (onlySiteShrinks_refl siteId)
                  (@onlySiteShrinks_trans siteId)
                  Htasks
                  result (logEvent (EGetAssignmentById courseId assignId siteId) st1)) as HR.
    rewrite Eall in HR. destruct HR as (Hc & _). simpl in Hc. now rewrite Hc. }
  split.
  - destruct (pendingSubmissions st' assignId siteId) as [| s' rest] eqn:Ep; [reflexivity |].
    exfalso.
    assert (Hin : In s' (pendingSubmissions st' assignId siteId)) by (rewrite Ep; now left).
    apply filter_In in Hin as [Hin' Hof]. rewrite Hsite3 in Hof. rewrite Hsub' in Hin'.
    destruct (Hsubs (submissionTask env assign siteId s')) as (x0 & sa & x1 & sb & Et & Ha & Hb).
    { apply in_map. apply filter_In. split; [| exact Hof].
      pose proof (preserves_allShared (onlySiteShrinks_refl siteId)
                    (@onlySiteShrinks_trans siteId)
                    Htasks
                    result (logEvent (EGetAssignmentById courseId assignId siteId) st1)) as HR.
      rewrite Eall in HR. destruct HR as (_ & Hs & _). simpl in Hs. now apply Hs. }
    unfold submissionTask in Et.
    apply andThen_inv in Et as [(w & sc & Es & Et) | (e & Es & Hr)]; [| discriminate].
    inv Et. apply syncSubmission_resolved_deletes in Es.
    apply (Es s').
    + destruct Hb as (_ & Hs & _). now apply Hs.
    + unfold isSubmissionOf in Hof. apply andb_true_iff in Hof as [Hs1 Hs2].
      apply String.eqb_eq in Hs1. apply Z.eqb_eq in Hs2.
      rewrite (Hsite _ _ Ha). change (resolveSite (logEvent _ st1) siteId) with (resolveSite st1 siteId).
      repeat split; congruence.
  - destruct (pendingGrades st' assignId siteId) as [| g' rest] eqn:Ep; [reflexivity |].
    exfalso.
    assert (Hin : In g' (pendingGrades st' assignId siteId)) by (rewrite Ep; now left).
    apply filter_In in Hin as [Hin' Hof]. rewrite Hsite3 in Hof. rewrite Hgr' in Hin'.
    destruct (Hgrs (gradeTask env assign courseId siteId g')) as (x0 & sa & x1 & sb & Et & Ha & Hb).
    { apply in_map. apply filter_In. split; [| exact Hof].
      pose proof (preserves_allShared (onlySiteShrinks_refl siteId)
                    (@onlySiteShrinks_trans siteId)
                    Htasks
                    result (logEvent (EGetAssignmentById courseId assignId siteId) st1)) as HR.
      rewrite Eall in HR. destruct HR as (_ & _ & Hg & _). simpl in Hg. now apply Hg. }
    unfold gradeTask in Et.
    apply andThen_inv in Et as [(w & sc & Es & Et) | (e & Es & Hr)]; [| discriminate].
    inv Et. apply syncSubmissionGrade_resolved_deletes in Es.
    apply (Es g').
    + destruct Hb as (_ & _ & Hg & _). now apply Hg.
    + unfold isGradeOf in Hof. apply andb_true_iff in Hof as [Hs1 Hs2].
      apply String.eqb_eq in Hs1. apply Z.eqb_eq in Hs2.
      rewrite (Hsite _ _ Ha). change (resolveSite (logEvent _ st1) siteId) with (resolveSite st1 siteId).
      repeat split; congruence.
Qed.

(** X17. A sync that resolves leaves no pending edit of the assignment
    behind: provided the site answers [getAssignmentById] with the
    assignment that was asked for (the reconciliations delete by the id of
    the fetched assignment), once the promise chain of [syncAssign] has
    resolved, the offline store holds no submission edit and no grade edit
    of the assignment for the site. *)
Theorem syncPromise_resolved_clears_pending now assignId siteId st result st' :
  (forall t courseId assign,
      getAssignmentById env t courseId assignId siteId = Ok assign ->
      assign_id assign = assignId) ->
  syncPromise env now assignId siteId st = (Ok result, st') ->
  pendingSubmissions st' assignId siteId = [] /\ pendingGrades st' assignId siteId = [].
Proof.
  intros Hid H. rewrite syncPromise_unfold in H.
  destruct (reconcile _ _ _ _ _ _ _) as [[res | e] st1] eqn:E; inv H.
  eapply reconcile_resolved_clears in E; [exact E | exact Hid].
Qed.

End MoreProperties.

(* ===================================================================== *)
(** ** Instances of the further properties *)
(* ===================================================================== *)

(** X1 on a scale of three options. *)
Lemma getSelectedScaleId_position_witness :
  exists first,
    occursAfter first "Good" "Bad, Good, Excellent"
    /\ getSelectedScaleId "Bad, Good, Excellent" "Good" = Z.of_nat (String.length first)
    /\ (String.length first <= 5)%nat.
Proof.
  apply (proj1 (getSelectedScaleId_position "Bad, Good, Excellent" "Good") "Bad, ").
  exists ", Excellent". reflexivity.
Defined.

(** X2 on the reconciliation of a stale edit beside the edit of another user. *)
Lemma syncSubmission_only_deletes_own_edit_witness :
  In (submissionEdit 2 100)
     (submissions (snd (syncSubmission siteAt150 essay (submissionEdit 1 100) [] site
                          ScenarioStale.twoStaleEdits)))
  /\ noSubmissionOf site 7 1
       (snd (syncSubmission siteAt150 essay (submissionEdit 1 100) [] site
               ScenarioStale.twoStaleEdits)).
Proof.
  destruct (syncSubmission siteAt150 essay (submissionEdit 1 100) [] site
              ScenarioStale.twoStaleEdits) as [r st'] eqn:E.
  pose proof E as E0. vm_compute in E0. inv E0.
  destruct (@syncSubmission_only_deletes_own_edit siteAt150 _ _ _ _ _ _ _ E)
    as [(_ & _ & _ & Hkept) Hgone].
  split.
  - apply Hkept; [simpl; tauto |]. intros (_ & _ & Hu). simpl in Hu. lia.
  - eapply Hgone. reflexivity.
Defined.

(** X3 on an edit that is up to date: the plugin data is saved, the
    assignment is not submitted for grading. *)
Lemma syncSubmission_uploads_current_edit_witness :
  exists st',
    syncSubmission siteAt150 essay (submissionEdit 1 150) [] site ScenarioGuards.pendingOnline
    = (Ok [], st')
    /\ noSubmissionOf site 7 1 st'
    /\ trace st'
       = [EGetSubmissionStatus 7 1 site;
          ESaveSubmissionOnline 7 [("onlinetext_editor", "draft")] site;
          EGetSubmissionStatus 7 1 site].
Proof.
  apply (@syncSubmission_uploads_current_edit siteAt150 essay (submissionEdit 1 150) [] site
           ScenarioGuards.pendingOnline (statusOf 150 None) (serverSubmission 150)
           [("onlinetext_editor", "draft")]);
    try reflexivity; intros; reflexivity.
Defined.

(** X4 on a stale edit whose plugin data cannot be deleted. *)
Lemma syncSubmission_cleanup_failure_witness :
  exists st',
    syncSubmission ScenarioMore.cleanupRejected essay (submissionEdit 1 100) [] site
      ScenarioStale.twoStaleEdits
    = (Rej networkError, st')
    /\ noSubmissionOf site 7 1 st'
    /\ trace st' = [EGetSubmissionStatus 7 1 site].
Proof.
  apply (@syncSubmission_cleanup_failure ScenarioMore.cleanupRejected essay
           (submissionEdit 1 100) [] site ScenarioStale.twoStaleEdits
           (statusOf 150 None) (serverSubmission 150) networkError);
    try reflexivity.
  simpl. lia.
Defined.

(** X5 on a grade given offline at time 100, the feedback of the site
    being graded at time 120. *)
Lemma syncSubmissionGrade_discards_stale_grade_witness :
  exists warns' st',
    syncSubmissionGrade ScenarioMore.gradedAt120 essay ScenarioGradebook.offlineGrade [] 3 site
      ScenarioGradebook.graded
    = (Ok warns', st')
    /\ noGradeOf site 7 2 st'
    /\ trace st' = [EGetSubmissionStatus 7 2 site].
Proof.
  destruct (@syncSubmissionGrade_discards_stale_grade ScenarioMore.gradedAt120 essay
              ScenarioGradebook.offlineGrade [] 3 site ScenarioGradebook.graded
              (statusOf 150 (Some {| fb_gradeddate := Some 120; fb_grade := None |})) 120
              eq_refl eq_refl eq_refl eq_refl)
    as (warns' & st' & E & Hgone & _ & Ht & _).
  exists warns', st'. split; [exact E |]. split; [exact Hgone | exact Ht].
Defined.

(** X6 on the grade of one user beside the grade of another. *)
Lemma syncSubmissionGrade_only_deletes_own_edit_witness :
  In (gradeEdit 3 100 (GNum (3 # 1)))
     (grades (snd (syncSubmissionGrade siteAt150 essay (gradeEdit 2 100 (GNum (3 # 1))) [] 3 site
                     ScenarioMore.twoGrades)))
  /\ noGradeOf site 7 2
       (snd (syncSubmissionGrade siteAt150 essay (gradeEdit 2 100 (GNum (3 # 1))) [] 3 site
               ScenarioMore.twoGrades)).
Proof.
  destruct (syncSubmissionGrade siteAt150 essay (gradeEdit 2 100 (GNum (3 # 1))) [] 3 site
              ScenarioMore.twoGrades) as [r st'] eqn:E.
  pose proof E as E0. vm_compute in E0. inv E0.
  destruct (@syncSubmissionGrade_only_deletes_own_edit siteAt150 _ _ _ _ _ _ _ _ E)
    as [(_ & _ & _ & Hkept) Hgone].
  split.
  - apply Hkept; [simpl; tauto |]. intros (_ & _ & Hu). simpl in Hu. lia.
  - eapply Hgone. reflexivity.
Defined.

(** X7 on a gradebook that cannot be reached. *)
Lemma syncSubmissionGrade_gradebook_failure_witness :
  exists st',
    syncSubmissionGrade ScenarioMore.gradebookUnreachable essay ScenarioGradebook.offlineGrade
      [] 3 site ScenarioGradebook.graded
    = (Rej networkError, st')
    /\ submissions st' = [] /\ grades st' = [ScenarioGradebook.offlineGrade]
    /\ uploads (trace st') = [].
Proof.
  apply (@syncSubmissionGrade_gradebook_failure ScenarioMore.gradebookUnreachable essay
           ScenarioGradebook.offlineGrade [] 3 site ScenarioGradebook.graded
           (statusOf 150 None) None networkError eq_refl eq_refl eq_refl).
  left. reflexivity.
Defined.

(** X8 on a gradebook entry graded at time 200 that overrides the grade. *)
Lemma gradebook_override_scope_witness :
  gradingForm essay (setGrade (GNum (9 # 1)) ScenarioGradebook.offlineGrade)
  = {| gf_assignid := 7; gf_userid := 2;
       gf_grade := GNum (9 # 1); gf_attemptnumber := 0;
       gf_addattempt := false; gf_workflowstate := "";
       gf_applytoall := false; gf_outcomes := [];
       gf_plugindata := [] |}.
Proof.
  exact (proj1 (@gradebook_override_scope siteAt150
                  (Some {| gi_scale := None; gi_outcomes := Some [] |})
                  [ScenarioGradebook.entry None None "9" 200]
                  ScenarioGradebook.offlineGrade
                  (setGrade (GNum (9 # 1)) ScenarioGradebook.offlineGrade)
                  eq_refl) essay).
Defined.

(** X9 on the entry of an outcome whose selected value is the second
    option of its scale. *)
Lemma gradebook_outcome_override_witness :
  exists d',
    overrideFromGradebook siteAt150 (Some ScenarioMore.oneOutcome)
      ScenarioGradebook.offlineGrade ScenarioMore.outcomeEntry = Ok d'
    /\ g_grade d' = GNum (3 # 1)
    /\ assocGet 0 (g_outcomes d') = Some 5.
Proof.
  destruct (@gradebook_outcome_override siteAt150 (Some ScenarioMore.oneOutcome)
              ScenarioMore.oneOutcome
              [{| out_scale := Some "Bad, Good"; out_selected := "Good" |}]
              ScenarioGradebook.offlineGrade ScenarioMore.outcomeEntry
              ltac:(simpl; lia) eq_refl eq_refl eq_refl eq_refl ltac:(simpl; lia))
    as (d' & E & Hg & _ & Hsel & _).
  exists d'. split; [exact E |]. split; [exact Hg |].
  exact (Hsel _ _ eq_refl eq_refl eq_refl).
Defined.

(** X10 on a grade overridden by the gradebook and accepted by the site. *)
Lemma syncSubmissionGrade_uploads_grade_witness :
  exists st',
    syncSubmissionGrade (ScenarioGradebook.gradebook [ScenarioGradebook.entry None None "9" 200])
      essay ScenarioGradebook.offlineGrade [] 3 site ScenarioGradebook.graded
    = (Ok [], st')
    /\ noGradeOf site 7 2 st'
    /\ trace st'
       = [EGetSubmissionStatus 7 2 site;
          EGetGradeModuleItems 3 70 2 site;
          EGetModuleBasicGradeInfo 70 site;
          ESubmitGradingFormOnline
            (gradingForm essay (setGrade (GNum (9 # 1)) ScenarioGradebook.offlineGrade)) site;
          EGetSubmissionStatus 7 2 site].
Proof.
  apply (@syncSubmissionGrade_uploads_grade
           (ScenarioGradebook.gradebook [ScenarioGradebook.entry None None "9" 200])
           essay ScenarioGradebook.offlineGrade [] 3 site ScenarioGradebook.graded
           (statusOf 150 None) None [ScenarioGradebook.entry None None "9" 200]
           (Some {| gi_scale := None; gi_outcomes := Some [] |})
           (setGrade (GNum (9 # 1)) ScenarioGradebook.offlineGrade)
           eq_refl eq_refl eq_refl eq_refl eq_refl eq_refl eq_refl).
Defined.

(** X11 on a sync started offline with a pending edit. *)
Lemma syncPromise_time_and_invalidation_witness :
  syncTimes (snd (syncPromise siteAt150 1000 7 site ScenarioGuards.pendingOffline)) = []
  /\ noInvalidateSince ScenarioGuards.pendingOffline
       (snd (syncPromise siteAt150 1000 7 site ScenarioGuards.pendingOffline)).
Proof.
  destruct (syncPromise siteAt150 1000 7 site ScenarioGuards.pendingOffline)
    as [r st'] eqn:E.
  pose proof E as E0. vm_compute in E0. inv E0.
  destruct (@syncPromise_time_and_invalidation siteAt150 _ _ _ _ _ _ E)
    as (_ & Hrej & Hquiet).
  split.
  - exact (Hrej RejNull eq_refl).
  - apply Hquiet. intros result Hr. discriminate Hr.
Defined.

(** X14 on two stale edits that share one warning. *)
Lemma syncPromise_warnings_bound_witness :
  exists result st',
    syncPromise siteAt150 1000 7 site ScenarioStale.twoStaleEdits = (Ok result, st')
    /\ (List.length (warnings result) <= 2)%nat.
Proof.
  destruct (syncPromise siteAt150 1000 7 site ScenarioStale.twoStaleEdits)
    as [r st'] eqn:E.
  pose proof E as E0. vm_compute in E0. inv E0.
  eexists _, _. split; [reflexivity |].
  exact (@syncPromise_warnings_bound siteAt150 _ _ _ _ _ _ E).
Defined.

(** X15 on an assignment with a pending edit that was synced a second ago. *)
Lemma syncAllAssignmentsFunc_nothing_needed_witness :
  syncAllAssignmentsFunc siteAt150 2000 site ScenarioMore.syncedAt1000
  = Some (Ok tt, ScenarioMore.syncedAt1000).
Proof.
  apply (@syncAllAssignmentsFunc_nothing_needed siteAt150 2000 site ScenarioMore.syncedAt1000).
  intros id _. unfold isSyncNeeded, getSyncTime. simpl.
  destruct (keyEqb _ _); reflexivity.
Defined.

(** X16 on an assignment with a pending edit that is due for a sync, the
    device being offline. *)
Lemma syncAllAssignmentsFunc_offline_witness :
  exists e st',
    syncAllAssignmentsFunc siteAt150 400000 site ScenarioGuards.pendingOffline
    = Some (Rej e, st')
    /\ sameButRegistry ScenarioGuards.pendingOffline st'.
Proof.
  destruct (@syncAllAssignmentsFunc_offline siteAt150 400000 site
              ScenarioGuards.pendingOffline eq_refl (fun id _ => eq_refl))
    as (r & st' & E & Hsame & Hrej).
  destruct Hrej as [e ->].
  { exists 7. split; [| reflexivity]. left. vm_compute. discriminate. }
  exists e, st'. split; [exact E | exact Hsame].
Defined.

(** X17 on a sync that uploads a submission edit and a grade edit. *)
Lemma syncPromise_resolved_clears_pending_witness :
  exists result st',
    syncPromise siteAt150 1000 7 site ScenarioUpload.pending = (Ok result, st')
    /\ pendingSubmissions st' 7 site = [] /\ pendingGrades st' 7 site = [].
Proof.
  destruct (syncPromise siteAt150 1000 7 site ScenarioUpload.pending) as [r st'] eqn:E.
  pose proof E as E0. vm_compute in E0. inv E0.
  eexists _, _. split; [reflexivity |].
  apply (@syncPromise_resolved_clears_pending siteAt150 1000 7 site ScenarioUpload.pending
           _ _ (fun t courseId assign H => f_equal assign_id (eq_sym (f_equal
              (fun r => match r with Ok a => a | Rej _ => essay end) H))) E).
Defined.
